(** * Astropy coordinates tutorials: the notebooks and what they rely on

    The repository is four Jupyter notebooks.  Their code cells are
    transcribed below as Python syntax trees (constructor names follow
    Python's [ast] module), so that statements about what the notebooks
    author (functions, loops, branches, exception handlers, arithmetic,
    network calls) are decidable checks on the cells.  The cells whose
    run-time behaviour matters are embedded a second time as functions
    over a model of the kernel namespace, the working directory and the
    values of the external libraries. *)

From Stdlib Require Import String List ZArith Bool Lia.
From Stdlib Require Import Floats.SpecFloat.
From stdpp Require Import gmap strings.
Import ListNotations.
Local Open Scope string_scope.
Local Set Warnings "-register-all".

(** ** Python syntax of the code cells *)

Module Py.

Inductive binop := Add | Sub | Mult | Div | Pow | BitAnd.
Inductive unaryop := USub | Not.
Inductive boolop := And | Or.
Inductive cmpop := LtC | GtC.

Inductive expr :=
| EName (id : string)
| ENum (literal : string)
| EStr (value : string)
| EBool (value : bool)
| EJoinedStr (values : list expr)
| EFormattedValue (value : expr) (format_spec : option string)
| EAttribute (value : expr) (attr : string)
| ESubscript (value : expr) (slice : expr)
| ESlice (lower upper : option expr)
| ECall (func : expr) (args : list expr) (keywords : list (option string * expr))
| EBinOp (left : expr) (op : binop) (right : expr)
| EUnaryOp (op : unaryop) (operand : expr)
| EBoolOp (op : boolop) (values : list expr)
| ECompare (left : expr) (op : cmpop) (right : expr)
| ETuple (elts : list expr)
| EList (elts : list expr)
| EDict (keys values : list expr)
| EListComp (elt target iter : expr) (ifs : list expr).

Inductive stmt :=
| SImport (names : list (string * option string))
| SImportFrom (module : string) (names : list (string * option string))
| SMagic (line : string)
| SExpr (value : expr)
| SAssign (targets : list expr) (value : expr)
| SFunctionDef (name : string) (args : list string) (body : list stmt)
| SClassDef (name : string) (body : list stmt)
| SReturn (value : expr)
| SFor (target iter : expr) (body : list stmt)
| SWhile (test : expr) (body : list stmt)
| SIf (test : expr) (body orelse : list stmt)
| SWith (items : list expr) (body : list stmt)
| STry (body : list stmt) (handlers : list (list stmt)) (finalbody : list stmt)
| SRaise (exc : expr).

(** A code cell: its position among all cells of the notebook (markdown
    cells included), its metadata tags, and its statements. *)
Record cell := Cell { index : nat; tags : list string; source : list stmt }.

Definition notebook := list cell.

Definition option_list {A} (o : option A) : list A :=
  match o with Some a => [a] | None => [] end.

(** Every expression occurring in [e], [e] first. *)
Fixpoint subexprs (e : expr) : list expr :=
  e :: match e with
       | EName _ | ENum _ | EStr _ | EBool _ => []
       | EJoinedStr vs => flat_map subexprs vs
       | EFormattedValue v _ => subexprs v
       | EAttribute v _ => subexprs v
       | ESubscript v s => subexprs v ++ subexprs s
       | ESlice lo hi =>
           match lo with Some a => subexprs a | None => [] end ++
           match hi with Some a => subexprs a | None => [] end
       | ECall f args kws =>
           subexprs f ++ flat_map subexprs args
             ++ flat_map (fun kw => subexprs (snd kw)) kws
       | EBinOp l _ r => subexprs l ++ subexprs r
       | EUnaryOp _ a => subexprs a
       | EBoolOp _ vs => flat_map subexprs vs
       | ECompare l _ r => subexprs l ++ subexprs r
       | ETuple es | EList es => flat_map subexprs es
       | EDict ks vs => flat_map subexprs ks ++ flat_map subexprs vs
       | EListComp elt tgt it ifs =>
           subexprs elt ++ subexprs tgt ++ subexprs it ++ flat_map subexprs ifs
       end.

(** Every statement occurring in [s], [s] first, bodies included. *)
Fixpoint substmts (s : stmt) : list stmt :=
  s :: match s with
       | SFunctionDef _ _ b | SClassDef _ b | SFor _ _ b | SWhile _ b | SWith _ b =>
           flat_map substmts b
       | SIf _ b o => flat_map substmts b ++ flat_map substmts o
       | STry b hs f =>
           flat_map substmts b ++ flat_map (flat_map substmts) hs ++ flat_map substmts f
       | _ => []
       end.

(** The expressions written directly in one statement (not in its body). *)
Definition own_exprs (s : stmt) : list expr :=
  match s with
  | SExpr v | SReturn v | SRaise v => [v]
  | SAssign ts v => ts ++ [v]
  | SFor t i _ => [t; i]
  | SWhile t _ | SIf t _ _ => [t]
  | SWith items _ => items
  | _ => []
  end.

Definition cell_stmts (c : cell) : list stmt := flat_map substmts (source c).
Definition stmt_exprs (s : stmt) : list expr := flat_map subexprs (own_exprs s).
Definition cell_exprs (c : cell) : list expr := flat_map stmt_exprs (cell_stmts c).

Definition stmts (nb : notebook) : list stmt := flat_map cell_stmts nb.
Definition exprs (nb : notebook) : list expr := flat_map cell_exprs nb.

(** The cells (by index) holding a statement, resp. an expression, that
    satisfies a test. *)
Definition cells_with_stmt (p : stmt -> bool) (nb : notebook) : list nat :=
  map index (List.filter (fun c => existsb p (cell_stmts c)) nb).
Definition cells_with_expr (p : expr -> bool) (nb : notebook) : list nat :=
  map index (List.filter (fun c => existsb p (cell_exprs c)) nb).

(** The name a call goes to: [f] for [f(...)], [m] for [obj.m(...)]. *)
Definition called (e : expr) : option string :=
  match e with
  | ECall (EName f) _ _ => Some f
  | ECall (EAttribute _ m) _ _ => Some m
  | _ => None
  end.

Definition calls (name : string) (e : expr) : bool :=
  match called e with Some f => String.eqb f name | None => false end.

Definition has_keyword (k : string) (e : expr) : bool :=
  match e with
  | ECall _ _ kws =>
      existsb (fun kw => match fst kw with
                         | Some k' => String.eqb k k'
                         | None => false
                         end) kws
  | _ => false
  end.

End Py.

(** ** The four notebooks *)

Module Notebooks.
Import Py.

(** [Coordinates_Intro]: the code cells of src/unnamed/part_001,
    in notebook order. *)
Definition Coordinates_Intro : notebook :=
  [ Cell 2
      []
      [ SImport [("matplotlib.pyplot", Some "plt")];
        SMagic "%matplotlib inline";
        SImport [("numpy", Some "np")];
        SImportFrom "astropy" [("units", Some "u")];
        SImportFrom "astropy.coordinates" [("SkyCoord", None); ("Distance", None)];
        SImportFrom "astropy.table" [("QTable", None)];
        SImportFrom "astroquery.gaia" [("Gaia", None)];
        SAssign [EAttribute (EName "Gaia") "ROW_LIMIT"] (ENum "10000")];
    Cell 4
      []
      [ SAssign
          [EName "ngc188_center"]
          (ECall
             (EName "SkyCoord")
             [ EBinOp (ENum "12.11") Mult (EAttribute (EName "u") "deg");
               EBinOp (ENum "85.26") Mult (EAttribute (EName "u") "deg")]
             []);
        SExpr (EName "ngc188_center")];
    Cell 6
      []
      [ SAssign
          [EName "ngc188_center"]
          (ECall
             (EName "SkyCoord")
             [ EBinOp (ENum "12.11") Mult (EAttribute (EName "u") "deg");
               EBinOp (ENum "85.26") Mult (EAttribute (EName "u") "deg")]
             [(Some "frame", EStr "icrs")]);
        SExpr (EName "ngc188_center")];
    Cell 8
      []
      [ SExpr
          (ECall
             (EName "SkyCoord")
             [EStr "00h48m26.4s"; EStr "85d15m36s"]
             [(Some "frame", EStr "icrs")])];
    Cell 10
      []
      [ SExpr
          (ECall
             (EName "SkyCoord")
             [EStr "00:48:26.4 85:15:36"]
             [ (Some "unit",
                ETuple [EAttribute (EName "u") "hour"; EAttribute (EName "u") "deg"]);
               (Some "frame", EStr "icrs")])];
    Cell 13
      []
      [ SAssign
          [EName "ngc188_center"]
          (ECall (EAttribute (EName "SkyCoord") "from_name") [EStr "NGC 188"] []);
        SExpr (EName "ngc188_center")];
    Cell 15
      []
      [ SExpr
          (ETuple
             [ EAttribute (EName "ngc188_center") "ra";
               EAttribute (EName "ngc188_center") "dec"])];
    Cell 17 [] [SExpr (EAttribute (EName "ngc188_center") "ra")];
    Cell 18 [] [SExpr (EAttribute (EName "ngc188_center") "dec")];
    Cell 19
      []
      [ SExpr
          (ETuple
             [ ECall (EName "type") [EAttribute (EName "ngc188_center") "ra"] [];
               ECall (EName "type") [EAttribute (EName "ngc188_center") "dec"] []])];
    Cell 21
      []
      [ SExpr
          (ETuple
             [ ECall
                 (EAttribute (EAttribute (EName "ngc188_center") "ra") "to")
                 [EAttribute (EName "u") "hourangle"]
                 [];
               ECall
                 (EAttribute (EAttribute (EName "ngc188_center") "ra") "to")
                 [EAttribute (EName "u") "radian"]
                 [];
               ECall
                 (EAttribute (EAttribute (EName "ngc188_center") "ra") "to")
                 [EAttribute (EName "u") "degree"]
                 []])];
    Cell 23
      []
      [ SExpr
          (ETuple
             [ EAttribute (EAttribute (EName "ngc188_center") "ra") "hour";
               EAttribute (EAttribute (EName "ngc188_center") "ra") "radian";
               EAttribute (EAttribute (EName "ngc188_center") "ra") "degree"])];
    Cell 25
      []
      [ SExpr
          (ECall
             (EAttribute (EAttribute (EName "ngc188_center") "ra") "to_string")
             []
             [ (Some "unit", EAttribute (EName "u") "hourangle");
               (Some "sep", EStr ":");
               (Some "pad", EBool true)])];
    Cell 28
      []
      [ SAssign
          [EName "job"]
          (ECall
             (EAttribute (EName "Gaia") "cone_search_async")
             [EName "ngc188_center"]
             [(Some "radius", EBinOp (ENum "0.5") Mult (EAttribute (EName "u") "deg"))]);
        SAssign [EName "ngc188_table"] (ECall (EAttribute (EName "job") "get_results") [] []);
        SAssign
          [EName "ngc188_table"]
          (ESubscript
             (EName "ngc188_table")
             (ECompare
                (ESubscript (EName "ngc188_table") (EStr "phot_g_mean_mag"))
                LtC
                (EBinOp (ENum "19") Mult (EAttribute (EName "u") "mag"))))];
    Cell 29
      []
      [ SAssign
          [EName "cols"]
          (EList
             [ EStr "source_id";
               EStr "ra";
               EStr "dec";
               EStr "parallax";
               EStr "parallax_error";
               EStr "pmra";
               EStr "pmdec";
               EStr "radial_velocity";
               EStr "phot_g_mean_mag";
               EStr "phot_bp_mean_mag";
               EStr "phot_rp_mean_mag"]);
        SExpr
          (ECall
             (EAttribute (ESubscript (EName "ngc188_table") (EName "cols")) "write")
             [EStr "gaia_results.fits"]
             [(Some "overwrite", EBool true)])];
    Cell 31
      []
      [ SAssign
          [EName "ngc188_table"]
          (ECall (EAttribute (EName "QTable") "read") [EStr "gaia_results.fits"] [])];
    Cell 32 [] [SExpr (ECall (EName "len") [EName "ngc188_table"] [])];
    Cell 34 [] [SExpr (ESubscript (EName "ngc188_table") (EStr "ra"))];
    Cell 35 [] [SExpr (ESubscript (EName "ngc188_table") (EStr "dec"))];
    Cell 37
      []
      [ SAssign
          [EName "ngc188_gaia_coords"]
          (ECall
             (EName "SkyCoord")
             [ ESubscript (EName "ngc188_table") (EStr "ra");
               ESubscript (EName "ngc188_table") (EStr "dec")]
             []);
        SExpr (EName "ngc188_gaia_coords")];
    Cell 40
      []
      [ SAssign
          [EName "ngc188_center"]
          (ECall (EAttribute (EName "SkyCoord") "from_name") [EStr "NGC 188"] [])];
    Cell 42
      []
      [ SExpr
          (ECall
             (EAttribute (EName "ngc188_center") "to_string")
             []
             [ (Some "style", EStr "hmsdms");
               (Some "sep", EStr ":");
               (Some "precision", ENum "1")])];
    Cell 44
      []
      [ SExpr
          (ECall
             (EAttribute (EName "ngc188_gaia_coords") "separation")
             [EName "ngc188_center"]
             [])];
    Cell 46
      []
      [ SAssign
          [EName "ngc188_center_3d"]
          (ECall
             (EName "SkyCoord")
             [ EBinOp (ENum "12.11") Mult (EAttribute (EName "u") "deg");
               EBinOp (ENum "85.26") Mult (EAttribute (EName "u") "deg")]
             [(Some "distance", EBinOp (ENum "1.96") Mult (EAttribute (EName "u") "kpc"))])];
    Cell 48
      []
      [ SAssign
          [EName "parallax_snr"]
          (EBinOp
             (ESubscript (EName "ngc188_table") (EStr "parallax"))
             Div
             (ESubscript (EName "ngc188_table") (EStr "parallax_error")));
        SAssign
          [EName "ngc188_table_3d"]
          (ESubscript (EName "ngc188_table") (ECompare (EName "parallax_snr") GtC (ENum "10")));
        SExpr (ECall (EName "len") [EName "ngc188_table_3d"] [])];
    Cell 50
      []
      [ SExpr
          (ECall
             (EName "Distance")
             []
             [(Some "parallax", EBinOp (ENum "1") Mult (EAttribute (EName "u") "mas"))])];
    Cell 52
      []
      [ SAssign
          [EName "gaia_dist"]
          (ECall
             (EName "Distance")
             []
             [ (Some "parallax",
                ECall
                  (EAttribute (ESubscript (EName "ngc188_table_3d") (EStr "parallax")) "filled")
                  [EAttribute (EName "np") "nan"]
                  [])])];
    Cell 54
      []
      [ SAssign
          [EName "ngc188_coords_3d"]
          (ECall
             (EName "SkyCoord")
             []
             [ (Some "ra", ESubscript (EName "ngc188_table_3d") (EStr "ra"));
               (Some "dec", ESubscript (EName "ngc188_table_3d") (EStr "dec"));
               (Some "distance", EName "gaia_dist")]);
        SExpr (EName "ngc188_coords_3d")];
    Cell 56
      []
      [ SAssign
          [ETuple [EName "fig"; EName "ax"]]
          (ECall
             (EAttribute (EName "plt") "subplots")
             []
             [ (Some "figsize", ETuple [ENum "6.5"; ENum "5.2"]);
               (Some "constrained_layout", EBool true)]);
        SAssign
          [EName "cs"]
          (ECall
             (EAttribute (EName "ax") "scatter")
             [ EAttribute (EAttribute (EName "ngc188_coords_3d") "ra") "degree";
               EAttribute (EAttribute (EName "ngc188_coords_3d") "dec") "degree"]
             [ (Some "c", EAttribute (EAttribute (EName "ngc188_coords_3d") "distance") "kpc");
               (Some "s", ENum "5");
               (Some "vmin", ENum "1.5");
               (Some "vmax", ENum "2.5");
               (Some "cmap", EStr "twilight")]);
        SAssign [EName "cb"] (ECall (EAttribute (EName "fig") "colorbar") [EName "cs"] []);
        SExpr
          (ECall
             (EAttribute (EName "cb") "set_label")
             [ EJoinedStr
                 [ EStr "distance [";
                   EFormattedValue (EAttribute (EName "u") "kpc") (Some "latex_inline");
                   EStr "]"]]
             []);
        SExpr (ECall (EAttribute (EName "ax") "set_xlabel") [EStr "RA [deg]"] []);
        SExpr (ECall (EAttribute (EName "ax") "set_ylabel") [EStr "Dec [deg]"] []);
        SExpr
          (ECall
             (EAttribute (EName "ax") "set_title")
             [EStr "Gaia DR2 sources near NGC 188"]
             [(Some "fontsize", ENum "18")])];
    Cell 58
      []
      [ SAssign
          [EName "sep3d"]
          (ECall
             (EAttribute (EName "ngc188_coords_3d") "separation_3d")
             [EName "ngc188_center_3d"]
             []);
        SExpr (EName "sep3d")];
    Cell 60
      []
      [ SAssign
          [EName "ngc188_3d_mask"]
          (ECompare
             (EName "sep3d")
             LtC
             (EBinOp (ENum "50") Mult (EAttribute (EName "u") "pc")));
        SExpr (ECall (EAttribute (EName "ngc188_3d_mask") "sum") [] [])] ].

(** [Coordinates_Transforms]: the code cells of src/2_Coordinates-Transforms.ipynb,
    in notebook order. *)
Definition Coordinates_Transforms : notebook :=
  [ Cell 2
      []
      [ SImport [("matplotlib", Some "mpl")];
        SImport [("matplotlib.pyplot", Some "plt")];
        SMagic "%matplotlib inline";
        SImport [("numpy", Some "np")];
        SImportFrom "astropy" [("units", Some "u")];
        SImportFrom "astropy.coordinates"
          [("SkyCoord", None); ("Galactic", None); ("EarthLocation", None); ("AltAz", None)];
        SImport [("astropy.coordinates", Some "coord")];
        SImportFrom "astropy.table" [("QTable", None)];
        SImportFrom "astropy.time" [("Time", None)]];
    Cell 4
      []
      [ SAssign
          [EName "c"]
          (ECall
             (EName "SkyCoord")
             []
             [ (Some "ra", EBinOp (ENum "15.9932") Mult (EAttribute (EName "u") "deg"));
               (Some "dec",
                EBinOp
                  (EUnaryOp USub (ENum "10.52351344"))
                  Mult
                  (EAttribute (EName "u") "deg"))]);
        SExpr (ECall (EName "print") [EAttribute (EAttribute (EName "c") "ra") "hourangle"] []);
        SExpr
          (ECall
             (EName "print")
             [ECall (EAttribute (EName "c") "to_string") [EStr "hmsdms"] []]
             []);
        SExpr
          (ECall
             (EName "print")
             [ ECall
                 (EAttribute (EAttribute (EName "c") "dec") "to_string")
                 []
                 [(Some "sep", EStr ":"); (Some "precision", ENum "5")]]
             [])];
    Cell 6 [] [SExpr (ECall (EAttribute (EName "c") "represent_as") [EStr "cartesian"] [])];
    Cell 8
      []
      [ SExpr
          (ECall
             (EAttribute (EName "c") "represent_as")
             [EAttribute (EName "coord") "CartesianRepresentation"]
             [])];
    Cell 10
      []
      [ SExpr
          (ECall
             (EName "print")
             [ EListComp
                 (EName "x")
                 (EName "x")
                 (ECall (EName "dir") [EName "coord"] [])
                 [ EBoolOp And
                     [ ECall (EAttribute (EName "x") "endswith") [EStr "Representation"] [];
                       EUnaryOp Not
                         (ECall (EAttribute (EName "x") "startswith") [EStr "Base"] [])]]]
             [])];
    Cell 12
      []
      [ SAssign
          [EName "c2"]
          (ECall
             (EName "SkyCoord")
             []
             [ (Some "ra", EBinOp (ENum "15.9932") Mult (EAttribute (EName "u") "deg"));
               (Some "dec",
                EBinOp
                  (EUnaryOp USub (ENum "10.52351344"))
                  Mult
                  (EAttribute (EName "u") "deg"));
               (Some "distance", EBinOp (ENum "127.4") Mult (EAttribute (EName "u") "pc"))])];
    Cell 13 [] [SExpr (ECall (EAttribute (EName "c2") "represent_as") [EStr "cartesian"] [])];
    Cell 15 [] [SExpr (ECall (EAttribute (EName "c2") "represent_as") [EStr "cylindrical"] [])];
    Cell 17
      []
      [ SAssign
          [EName "c3"]
          (ECall
             (EName "SkyCoord")
             []
             [ (Some "ra", EBinOp (ENum "15.9932") Mult (EAttribute (EName "u") "deg"));
               (Some "dec",
                EBinOp
                  (EUnaryOp USub (ENum "10.52351344"))
                  Mult
                  (EAttribute (EName "u") "deg"));
               (Some "distance", EBinOp (ENum "127.4") Mult (EAttribute (EName "u") "pc"))]);
        SExpr (ECall (EName "print") [EAttribute (EName "c3") "representation_type"] []);
        SExpr (EName "c3")];
    Cell 19
      []
      [ SAssign
          [EAttribute (EName "c3") "representation_type"]
          (EAttribute (EName "coord") "CylindricalRepresentation")];
    Cell 21 [] [SExpr (EName "c3")];
    Cell 23
      []
      [ SExpr
          (ETuple
             [ EAttribute (EName "c3") "rho";
               EAttribute (EName "c3") "phi";
               EAttribute (EName "c3") "z"])];
    Cell 25
      []
      [ SAssign
          [EName "tbl"]
          (ECall
             (EAttribute (EName "QTable") "read")
             [EStr "Cantat-Gaudin-open-clusters.ecsv"]
             [])];
    Cell 27
      []
      [ SAssign
          [EName "open_cluster_c"]
          (ECall
             (EName "SkyCoord")
             []
             [ (Some "ra", ESubscript (EName "tbl") (EStr "ra"));
               (Some "dec", ESubscript (EName "tbl") (EStr "dec"));
               (Some "distance", ESubscript (EName "tbl") (EStr "distance"));
               (Some "frame", EStr "icrs")]);
        SExpr (ECall (EName "len") [EName "open_cluster_c"] [])];
    Cell 29 [] [SExpr (ESubscript (EName "open_cluster_c") (ESlice None (Some (ENum "4"))))];
    Cell 31
      []
      [ SFunctionDef "coordinates_aitoff_plot"
          ["coords"]
          [ SAssign
              [ETuple [EName "fig"; EName "ax"]]
              (ECall
                 (EAttribute (EName "plt") "subplots")
                 []
                 [ (Some "figsize", ETuple [ENum "10"; ENum "4"]);
                   (Some "subplot_kw",
                    ECall (EName "dict") [] [(Some "projection", EStr "aitoff")])]);
            SAssign [EName "sph"] (EAttribute (EName "coords") "spherical");
            SAssign
              [EName "cs"]
              (ECall
                 (EAttribute (EName "ax") "scatter")
                 [ EUnaryOp USub
                     (EAttribute
                        (ECall
                           (EAttribute (EAttribute (EName "sph") "lon") "wrap_at")
                           [EBinOp (ENum "180") Mult (EAttribute (EName "u") "deg")]
                           [])
                        "radian");
                   EAttribute (EAttribute (EName "sph") "lat") "radian"]
                 [(Some "c", EAttribute (EAttribute (EName "sph") "distance") "value")]);
            SFunctionDef "fmt_func"
              ["x"; "pos"]
              [ SAssign
                  [EName "val"]
                  (EAttribute
                     (ECall
                        (EAttribute
                           (ECall
                              (EAttribute (EName "coord") "Angle")
                              [ EBinOp
                                  (EUnaryOp USub (EName "x"))
                                  Mult
                                  (EAttribute (EName "u") "radian")]
                              [])
                           "wrap_at")
                        [EBinOp (ENum "360") Mult (EAttribute (EName "u") "deg")]
                        [])
                     "degree");
                SReturn
                  (EBinOp
                     (EJoinedStr [EStr "$"; EFormattedValue (EName "val") (Some ".0f")])
                     Add
                     (EStr "^{\circ}$"))];
            SAssign
              [EName "ticker"]
              (ECall
                 (EAttribute (EAttribute (EName "mpl") "ticker") "FuncFormatter")
                 [EName "fmt_func"]
                 []);
            SExpr
              (ECall
                 (EAttribute (EAttribute (EName "ax") "xaxis") "set_major_formatter")
                 [EName "ticker"]
                 []);
            SExpr (ECall (EAttribute (EName "ax") "grid") [] []);
            SAssign [EName "cb"] (ECall (EAttribute (EName "fig") "colorbar") [EName "cs"] []);
            SExpr (ECall (EAttribute (EName "cb") "set_label") [EStr "distance [pc]"] []);
            SReturn (ETuple [EName "fig"; EName "ax"])]];
    Cell 33
      []
      [ SAssign
          [ETuple [EName "fig"; EName "ax"]]
          (ECall (EName "coordinates_aitoff_plot") [EName "open_cluster_c"] []);
        SExpr (ECall (EAttribute (EName "ax") "set_xlabel") [EStr "RA [deg]"] []);
        SExpr (ECall (EAttribute (EName "ax") "set_ylabel") [EStr "Dec [deg]"] [])];
    Cell 35
      []
      [ SAssign
          [EName "open_cluster_gal"]
          (ECall
             (EAttribute (EName "open_cluster_c") "transform_to")
             [ECall (EName "Galactic") [] []]
             [])];
    Cell 37
      []
      [SAssign [EName "open_cluster_gal"] (EAttribute (EName "open_cluster_c") "galactic")];
    Cell 39 [] [SExpr (ESubscript (EName "open_cluster_gal") (ESlice None (Some (ENum "4"))))];
    Cell 41
      []
      [ SExpr
          (ESubscript
             (EAttribute (EName "open_cluster_gal") "l")
             (ESlice None (Some (ENum "3"))))];
    Cell 42
      []
      [ SExpr
          (ESubscript
             (EAttribute (EName "open_cluster_gal") "b")
             (ESlice None (Some (ENum "3"))))];
    Cell 45
      []
      [ SAssign
          [ETuple [EName "fig"; EName "ax"]]
          (ECall (EName "coordinates_aitoff_plot") [EName "open_cluster_gal"] []);
        SExpr
          (ECall
             (EAttribute (EName "ax") "set_xlabel")
             [EStr "Galactic longitude, $l$ [deg]"]
             []);
        SExpr
          (ECall
             (EAttribute (EName "ax") "set_ylabel")
             [EStr "Galactic latitude, $b$ [deg]"]
             [])];
    Cell 48
      []
      [ SAssign
          [EName "demo_loc"]
          (ECall
             (EAttribute (EName "EarthLocation") "from_geodetic")
             []
             [ (Some "lon",
                EBinOp (EUnaryOp USub (ENum "74.32834")) Mult (EAttribute (EName "u") "deg"));
               (Some "lat", EBinOp (ENum "43.05885") Mult (EAttribute (EName "u") "deg"))])];
    Cell 50
      ["raises-exception"]
      [ SAssign
          [EName "demo_loc"]
          (ECall
             (EAttribute (EName "EarthLocation") "of_address")
             [EStr "162 Fifth Ave, New York, NY 10010"]
             [])];
    Cell 52
      []
      [ SAssign
          [EName "observing_location"]
          (ECall (EAttribute (EName "EarthLocation") "of_site") [EStr "Kitt Peak"] [])];
    Cell 54
      []
      [ SAssign [EName "observing_date"] (ECall (EName "Time") [EStr "2020-12-18 1:00"] []);
        SAssign
          [EName "time_grid"]
          (EBinOp
             (EName "observing_date")
             Add
             (EBinOp
                (ECall
                   (EAttribute (EName "np") "linspace")
                   [ENum "0"; ENum "14"; ENum "256"]
                   [])
                Mult
                (EAttribute (EName "u") "hour")))];
    Cell 56
      []
      [ SAssign
          [EName "altaz"]
          (ECall
             (EName "AltAz")
             []
             [ (Some "location", EName "observing_location");
               (Some "obstime", EName "time_grid")])];
    Cell 58
      []
      [ SAssign
          [EName "oc_altaz"]
          (ECall
             (EAttribute (ESubscript (EName "open_cluster_c") (ENum "0")) "transform_to")
             [EName "altaz"]
             []);
        SExpr (EName "oc_altaz")];
    Cell 60
      []
      [ SExpr
          (ECall
             (EAttribute (EName "plt") "figure")
             []
             [(Some "figsize", ETuple [ENum "6"; ENum "5"])]);
        SExpr
          (ECall
             (EAttribute (EName "plt") "plot")
             [ EAttribute (EName "time_grid") "datetime";
               EAttribute (EAttribute (EName "oc_altaz") "alt") "degree"]
             [(Some "marker", EStr "")]);
        SExpr
          (ECall
             (EAttribute (EName "plt") "axhline")
             [ENum "0"]
             [ (Some "zorder", EUnaryOp USub (ENum "10"));
               (Some "linestyle", EStr "--");
               (Some "color", EStr "tab:red")]);
        SExpr (ECall (EAttribute (EName "plt") "xlabel") [EStr "Date/Time [UTC]"] []);
        SExpr (ECall (EAttribute (EName "plt") "ylabel") [EStr "Altitude [deg]"] []);
        SExpr
          (ECall
             (EAttribute (EName "plt") "setp")
             [ ECall
                 (EAttribute
                    (EAttribute (ECall (EAttribute (EName "plt") "gca") [] []) "xaxis")
                    "get_majorticklabels")
                 []
                 []]
             [(Some "rotation", ENum "45")]);
        SExpr (ECall (EAttribute (EName "plt") "tight_layout") [] [])];
    Cell 62
      []
      [ SExpr
          (ETuple
             [ ECall (EName "len") [EName "open_cluster_c"] [];
               ECall (EName "len") [EAttribute (EName "altaz") "obstime"] []])];
    Cell 64
      []
      [ SAssign
          [EName "open_cluster_altaz"]
          (ECall
             (EAttribute
                (ESubscript
                   (EName "open_cluster_c")
                   (ETuple [ESlice None None; EAttribute (EName "np") "newaxis"]))
                "transform_to")
             [ESubscript (EName "altaz") (EAttribute (EName "np") "newaxis")]
             [])];
    Cell 66
      []
      [ SExpr
          (ECall
             (EAttribute (EName "plt") "figure")
             []
             [(Some "figsize", ETuple [ENum "6"; ENum "5"])]);
        SExpr
          (ECall
             (EAttribute (EName "plt") "plot")
             [ EAttribute (EName "time_grid") "datetime";
               EAttribute
                 (EAttribute
                    (EAttribute
                       (ESubscript
                          (EName "open_cluster_altaz")
                          (ESlice None (Some (ENum "10"))))
                       "alt")
                    "degree")
                 "T"]
             [(Some "marker", EStr ""); (Some "alpha", ENum "0.5")]);
        SExpr
          (ECall
             (EAttribute (EName "plt") "axhline")
             [ENum "0"]
             [ (Some "zorder", EUnaryOp USub (ENum "10"));
               (Some "linestyle", EStr "--");
               (Some "color", EStr "tab:red")]);
        SExpr (ECall (EAttribute (EName "plt") "xlabel") [EStr "Date/Time [UTC]"] []);
        SExpr (ECall (EAttribute (EName "plt") "ylabel") [EStr "Altitude [deg]"] []);
        SExpr
          (ECall
             (EAttribute (EName "plt") "setp")
             [ ECall
                 (EAttribute
                    (EAttribute (ECall (EAttribute (EName "plt") "gca") [] []) "xaxis")
                    "get_majorticklabels")
                 []
                 []]
             [(Some "rotation", ENum "45")]);
        SExpr (ECall (EAttribute (EName "plt") "tight_layout") [] [])];
    Cell 69
      []
      [ SAssign
          [EName "icrs_c"]
          (ECall
             (EAttribute (EName "coord") "SkyCoord")
             [ EBinOp (ENum "150.4") Mult (EAttribute (EName "u") "deg");
               EBinOp (EUnaryOp USub (ENum "11")) Mult (EAttribute (EName "u") "deg")]
             []);
        SExpr
          (ECall
             (EAttribute (EName "icrs_c") "transform_to")
             [ECall (EAttribute (EName "coord") "FK5") [] []]
             [])];
    Cell 71
      ["raises-exception"]
      [ SExpr
          (ECall
             (EAttribute (EName "icrs_c") "transform_to")
             [ECall (EAttribute (EName "coord") "Galactocentric") [] []]
             [])];
    Cell 75 [] [];
    Cell 77 [] [];
    Cell 79 [] [] ].

(** [Coordinates_Velocities]: the code cells of src/unnamed/part_000,
    in notebook order. *)
Definition Coordinates_Velocities : notebook :=
  [ Cell 2
      []
      [ SImport [("warnings", None)];
        SImport [("matplotlib.pyplot", Some "plt")];
        SMagic "%matplotlib inline";
        SImport [("numpy", Some "np")];
        SImportFrom "astropy" [("units", Some "u")];
        SImportFrom "astropy.coordinates"
          [("SkyCoord", None); ("Distance", None); ("Galactic", None)];
        SImport [("astropy.coordinates", Some "coord")];
        SImportFrom "astropy.io" [("fits", None)];
        SImportFrom "astropy.table" [("QTable", None)];
        SImportFrom "astropy.time" [("Time", None)];
        SImportFrom "astropy.utils.data" [("download_file", None)];
        SImportFrom "astropy.wcs" [("WCS", None)];
        SImportFrom "astroquery.gaia" [("Gaia", None)]];
    Cell 4
      []
      [ SExpr
          (ECall
             (EName "SkyCoord")
             []
             [ (Some "ra", EBinOp (ENum "10") Mult (EAttribute (EName "u") "deg"));
               (Some "dec", EBinOp (ENum "20") Mult (EAttribute (EName "u") "deg"));
               (Some "pm_ra_cosdec",
                EBinOp
                  (EBinOp (ENum "1") Mult (EAttribute (EName "u") "mas"))
                  Div
                  (EAttribute (EName "u") "yr"));
               (Some "pm_dec",
                EBinOp
                  (EBinOp (ENum "2") Mult (EAttribute (EName "u") "mas"))
                  Div
                  (EAttribute (EName "u") "yr"))])];
    Cell 6
      []
      [ SExpr
          (ECall
             (EName "SkyCoord")
             []
             [ (Some "ra",
                EBinOp
                  (ECall
                     (EAttribute (EName "np") "linspace")
                     [ENum "0"; ENum "10"; ENum "5"]
                     [])
                  Mult
                  (EAttribute (EName "u") "deg"));
               (Some "dec",
                EBinOp
                  (ECall
                     (EAttribute (EName "np") "linspace")
                     [ENum "5"; ENum "20"; ENum "5"]
                     [])
                  Mult
                  (EAttribute (EName "u") "deg"));
               (Some "pm_ra_cosdec",
                EBinOp
                  (EBinOp
                     (ECall
                        (EAttribute (EName "np") "linspace")
                        [EUnaryOp USub (ENum "5"); ENum "5"; ENum "5"]
                        [])
                     Mult
                     (EAttribute (EName "u") "mas"))
                  Div
                  (EAttribute (EName "u") "yr"));
               (Some "pm_dec",
                EBinOp
                  (EBinOp
                     (ECall
                        (EAttribute (EName "np") "linspace")
                        [EUnaryOp USub (ENum "5"); ENum "5"; ENum "5"]
                        [])
                     Mult
                     (EAttribute (EName "u") "mas"))
                  Div
                  (EAttribute (EName "u") "yr"))])];
    Cell 8
      []
      [ SAssign
          [EName "velocity_coord"]
          (ECall
             (EName "SkyCoord")
             []
             [ (Some "ra", EBinOp (ENum "10") Mult (EAttribute (EName "u") "deg"));
               (Some "dec", EBinOp (ENum "20") Mult (EAttribute (EName "u") "deg"));
               (Some "pm_ra_cosdec",
                EBinOp
                  (EBinOp (ENum "1") Mult (EAttribute (EName "u") "mas"))
                  Div
                  (EAttribute (EName "u") "yr"));
               (Some "pm_dec",
                EBinOp
                  (EBinOp (ENum "2") Mult (EAttribute (EName "u") "mas"))
                  Div
                  (EAttribute (EName "u") "yr"));
               (Some "radial_velocity",
                EBinOp
                  (EBinOp (ENum "100") Mult (EAttribute (EName "u") "km"))
                  Div
                  (EAttribute (EName "u") "s"))]);
        SExpr (EName "velocity_coord")];
    Cell 10 [] [SExpr (EAttribute (EName "velocity_coord") "pm_ra_cosdec")];
    Cell 11 [] [SExpr (EAttribute (EName "velocity_coord") "radial_velocity")];
    Cell 13
      []
      [ SAssign
          [EName "velocity_coord_gal"]
          (ECall
             (EAttribute (EName "velocity_coord") "transform_to")
             [ECall (EName "Galactic") [] []]
             []);
        SExpr (EName "velocity_coord_gal")];
    Cell 15 [] [SExpr (EAttribute (EName "velocity_coord_gal") "pm_l_cosb")];
    Cell 16 [] [SExpr (EAttribute (EName "velocity_coord_gal") "pm_b")];
    Cell 18
      ["raises-exception"]
      [ SAssign
          [EName "test_coord_1"]
          (ECall
             (EName "SkyCoord")
             []
             [ (Some "ra", EBinOp (ENum "10") Mult (EAttribute (EName "u") "deg"));
               (Some "dec", EBinOp (ENum "20") Mult (EAttribute (EName "u") "deg"));
               (Some "pm_ra_cosdec",
                EBinOp
                  (EBinOp (ENum "1") Mult (EAttribute (EName "u") "mas"))
                  Div
                  (EAttribute (EName "u") "yr"));
               (Some "pm_dec",
                EBinOp
                  (EBinOp (ENum "2") Mult (EAttribute (EName "u") "mas"))
                  Div
                  (EAttribute (EName "u") "yr"))]);
        SExpr
          (ECall
             (EAttribute (EName "test_coord_1") "transform_to")
             [ECall (EAttribute (EName "coord") "Galactocentric") [] []]
             [])];
    Cell 20
      []
      [ SAssign
          [EName "test_coord_2"]
          (ECall
             (EName "SkyCoord")
             []
             [ (Some "ra", EBinOp (ENum "10") Mult (EAttribute (EName "u") "deg"));
               (Some "dec", EBinOp (ENum "20") Mult (EAttribute (EName "u") "deg"));
               (Some "distance", EBinOp (ENum "10") Mult (EAttribute (EName "u") "pc"));
               (Some "pm_ra_cosdec",
                EBinOp
                  (EBinOp (ENum "1") Mult (EAttribute (EName "u") "mas"))
                  Div
                  (EAttribute (EName "u") "yr"));
               (Some "pm_dec",
                EBinOp
                  (EBinOp (ENum "2") Mult (EAttribute (EName "u") "mas"))
                  Div
                  (EAttribute (EName "u") "yr"));
               (Some "radial_velocity",
                EBinOp
                  (EBinOp (ENum "100") Mult (EAttribute (EName "u") "km"))
                  Div
                  (EAttribute (EName "u") "s"))]);
        SExpr
          (ECall
             (EAttribute (EName "test_coord_2") "transform_to")
             [ECall (EAttribute (EName "coord") "Galactocentric") [] []]
             [])];
    Cell 22
      []
      [ SAssign
          [EName "gaia_tbl"]
          (ECall
             (EAttribute (EName "Gaia") "query_object")
             [ECall (EAttribute (EName "SkyCoord") "from_name") [EStr "HD 219829"] []]
             [(Some "radius", EBinOp (ENum "1") Mult (EAttribute (EName "u") "arcmin"))])];
    Cell 23
      []
      [ SWith
          [ECall (EAttribute (EName "warnings") "catch_warnings") [] []]
          [ SExpr
              (ECall
                 (EAttribute (EName "warnings") "simplefilter")
                 [EStr "ignore"; EName "UserWarning"]
                 []);
            SAssign
              [EName "gaia_tbl"]
              (ECall
                 (EAttribute (EName "QTable") "read")
                 [EStr "HD_219829_query_results.ecsv"]
                 [])]];
    Cell 25
      []
      [ SAssign
          [EName "hd219829_row"]
          (ESubscript
             (EName "gaia_tbl")
             (ECall
                (EAttribute (ESubscript (EName "gaia_tbl") (EStr "phot_g_mean_mag")) "argmin")
                []
                []));
        SExpr
          (ESubscript
             (EName "hd219829_row")
             (ETuple [EStr "source_id"; EStr "pmra"; EStr "pmdec"]))];
    Cell 27
      []
      [ SAssign
          [EName "hd219829_coord"]
          (ECall
             (EName "SkyCoord")
             []
             [ (Some "ra", ESubscript (EName "hd219829_row") (EStr "ra"));
               (Some "dec", ESubscript (EName "hd219829_row") (EStr "dec"));
               (Some "distance",
                ECall
                  (EName "Distance")
                  []
                  [(Some "parallax", ESubscript (EName "hd219829_row") (EStr "parallax"))]);
               (Some "pm_ra_cosdec", ESubscript (EName "hd219829_row") (EStr "pmra"));
               (Some "pm_dec", ESubscript (EName "hd219829_row") (EStr "pmdec"));
               (Some "obstime",
                ECall
                  (EName "Time")
                  [ESubscript (EName "hd219829_row") (EStr "ref_epoch")]
                  [(Some "format", EStr "jyear")])]);
        SExpr (EName "hd219829_coord")];
    Cell 29
      []
      [ SAssign
          [EName "dss_cutout_filename"]
          (ECall
             (EName "download_file")
             [ EJoinedStr
                 [ EStr "http://archive.stsci.edu/cgi-bin/dss_search?f=FITS&ra=";
                   EFormattedValue
                     (EAttribute (EAttribute (EName "hd219829_coord") "ra") "degree")
                     None;
                   EStr "&dec=";
                   EFormattedValue
                     (EAttribute (EAttribute (EName "hd219829_coord") "dec") "degree")
                     None;
                   EStr "&width=4&height=4"]]
             [])];
    Cell 30 [] [SAssign [EName "dss_cutout_filename"] (EStr "dss_hd219829.fits")];
    Cell 32
      []
      [ SAssign
          [EName "hdu"]
          (ESubscript
             (ECall (EAttribute (EName "fits") "open") [EName "dss_cutout_filename"] [])
             (ENum "0"));
        SAssign [EName "wcs"] (ECall (EName "WCS") [EAttribute (EName "hdu") "header"] []);
        SAssign
          [ETuple [EName "fig"; EName "ax"]]
          (ECall
             (EAttribute (EName "plt") "subplots")
             [ENum "1"; ENum "1"]
             [ (Some "figsize", ETuple [ENum "8"; ENum "8"]);
               (Some "subplot_kw",
                ECall (EName "dict") [] [(Some "projection", EName "wcs")])]);
        SExpr
          (ECall
             (EAttribute (EName "ax") "imshow")
             [EAttribute (EName "hdu") "data"]
             [(Some "origin", EStr "lower"); (Some "cmap", EStr "Greys_r")]);
        SExpr (ECall (EAttribute (EName "ax") "set_xlabel") [EStr "RA"] []);
        SExpr (ECall (EAttribute (EName "ax") "set_ylabel") [EStr "Dec"] []);
        SExpr (ECall (EAttribute (EName "ax") "set_autoscale_on") [EBool false] []);
        SExpr
          (ECall
             (EAttribute (EName "ax") "scatter")
             [ EAttribute (EAttribute (EName "hd219829_coord") "ra") "degree";
               EAttribute (EAttribute (EName "hd219829_coord") "dec") "degree"]
             [ (Some "s", ENum "500");
               (Some "transform",
                ECall (EAttribute (EName "ax") "get_transform") [EStr "world"] []);
               (Some "facecolor", EStr "none");
               (Some "linewidth", ENum "2");
               (Some "color", EStr "tab:red")])];
    Cell 34 [] [SExpr (EAttribute (EName "hd219829_coord") "obstime")];
    Cell 36
      []
      [ SWith
          [ECall (EAttribute (EName "warnings") "catch_warnings") [] []]
          [ SExpr
              (ECall
                 (EAttribute (EName "warnings") "simplefilter")
                 [EStr "ignore"; EName "UserWarning"]
                 []);
            SAssign
              [EName "hd219829_coord_1950"]
              (ECall
                 (EAttribute (EName "hd219829_coord") "apply_space_motion")
                 []
                 [(Some "new_obstime", ECall (EName "Time") [EStr "J1950"] [])])]];
    Cell 38
      []
      [ SAssign
          [ETuple [EName "fig"; EName "ax"]]
          (ECall
             (EAttribute (EName "plt") "subplots")
             [ENum "1"; ENum "1"]
             [ (Some "figsize", ETuple [ENum "8"; ENum "8"]);
               (Some "subplot_kw",
                ECall (EName "dict") [] [(Some "projection", EName "wcs")])]);
        SExpr
          (ECall
             (EAttribute (EName "ax") "imshow")
             [EAttribute (EName "hdu") "data"]
             [(Some "origin", EStr "lower"); (Some "cmap", EStr "Greys_r")]);
        SExpr (ECall (EAttribute (EName "ax") "set_xlabel") [EStr "RA"] []);
        SExpr (ECall (EAttribute (EName "ax") "set_ylabel") [EStr "Dec"] []);
        SExpr (ECall (EAttribute (EName "ax") "set_autoscale_on") [EBool false] []);
        SExpr
          (ECall
             (EAttribute (EName "ax") "scatter")
             [ EAttribute (EAttribute (EName "hd219829_coord") "ra") "degree";
               EAttribute (EAttribute (EName "hd219829_coord") "dec") "degree"]
             [ (Some "s", ENum "500");
               (Some "transform",
                ECall (EAttribute (EName "ax") "get_transform") [EStr "world"] []);
               (Some "facecolor", EStr "none");
               (Some "linewidth", ENum "2");
               (Some "color", EStr "tab:red")]);
        SExpr
          (ECall
             (EAttribute (EName "ax") "scatter")
             [ EAttribute (EAttribute (EName "hd219829_coord_1950") "ra") "degree";
               EAttribute (EAttribute (EName "hd219829_coord_1950") "dec") "degree"]
             [ (Some "s", ENum "500");
               (Some "transform",
                ECall (EAttribute (EName "ax") "get_transform") [EStr "world"] []);
               (Some "facecolor", EStr "none");
               (Some "linewidth", ENum "2");
               (Some "color", EStr "tab:blue")])];
    Cell 43 [] [] ].

(** [Coordinates_Crossmatch]: the code cells of src/4_Coordinates-Crossmatch.ipynb,
    in notebook order. *)
Definition Coordinates_Crossmatch : notebook :=
  [ Cell 2
      []
      [ SImport [("warnings", None)];
        SImport [("matplotlib.pyplot", Some "plt")];
        SMagic "%matplotlib inline";
        SImport [("numpy", Some "np")];
        SImportFrom "astropy" [("units", Some "u")];
        SImportFrom "astropy.coordinates" [("SkyCoord", None); ("Distance", None)];
        SImportFrom "astropy.table" [("QTable", None)];
        SImportFrom "astropy.time" [("Time", None)];
        SImportFrom "astroquery.vizier" [("Vizier", None)]];
    Cell 4
      []
      [ SAssign
          [EName "ngc188_table"]
          (ECall (EAttribute (EName "QTable") "read") [EStr "gaia_results.fits"] []);
        SAssign
          [EName "ngc188_table"]
          (ESubscript
             (EName "ngc188_table")
             (ECompare
                (ESubscript (EName "ngc188_table") (EStr "parallax"))
                GtC
                (EBinOp (ENum "0.25") Mult (EAttribute (EName "u") "mas"))));
        SAssign
          [EName "ngc188_center_3d"]
          (ECall
             (EName "SkyCoord")
             [ EBinOp (ENum "12.11") Mult (EAttribute (EName "u") "deg");
               EBinOp (ENum "85.26") Mult (EAttribute (EName "u") "deg")]
             [ (Some "distance", EBinOp (ENum "1.96") Mult (EAttribute (EName "u") "kpc"));
               (Some "pm_ra_cosdec",
                EBinOp
                  (EBinOp (EUnaryOp USub (ENum "2.3087")) Mult (EAttribute (EName "u") "mas"))
                  Div
                  (EAttribute (EName "u") "yr"));
               (Some "pm_dec",
                EBinOp
                  (EBinOp (EUnaryOp USub (ENum "0.9565")) Mult (EAttribute (EName "u") "mas"))
                  Div
                  (EAttribute (EName "u") "yr"))]);
        SAssign [EName "parallax"] (ESubscript (EName "ngc188_table") (EStr "parallax"));
        SIf
          (ECall (EName "hasattr") [EName "parallax"; EStr "mask"] [])
          [ SAssign
              [EName "parallax"]
              (ECall
                 (EAttribute (EName "parallax") "filled")
                 [EAttribute (EName "np") "nan"]
                 [])]
          [];
        SAssign
          [EName "velocity_data"]
          (EDict
             [EStr "pm_ra_cosdec"; EStr "pm_dec"; EStr "radial_velocity"]
             [ ESubscript (EName "ngc188_table") (EStr "pmra");
               ESubscript (EName "ngc188_table") (EStr "pmdec");
               ESubscript (EName "ngc188_table") (EStr "radial_velocity")]);
        SFor
          (ETuple [EName "k"; EName "v"])
          (ECall (EAttribute (EName "velocity_data") "items") [] [])
          [ SIf
              (ECall (EName "hasattr") [EName "v"; EStr "mask"] [])
              [ SAssign
                  [ESubscript (EName "velocity_data") (EName "k")]
                  (ECall (EAttribute (EName "v") "filled") [ENum "0.0"] [])]
              [];
            SAssign
              [ ESubscript
                  (ESubscript (EName "velocity_data") (EName "k"))
                  (ECall
                     (EAttribute (EName "np") "isnan")
                     [ESubscript (EName "velocity_data") (EName "k")]
                     [])]
              (ENum "0.0")];
        SAssign
          [EName "ngc188_coords_3d"]
          (ECall
             (EName "SkyCoord")
             []
             [ (Some "ra", ESubscript (EName "ngc188_table") (EStr "ra"));
               (Some "dec", ESubscript (EName "ngc188_table") (EStr "dec"));
               (Some "distance",
                ECall (EName "Distance") [] [(Some "parallax", EName "parallax")]);
               (Some "obstime", ECall (EName "Time") [EStr "J2015.5"] []);
               (None, EName "velocity_data")]);
        SAssign
          [EName "sep3d"]
          (ECall
             (EAttribute (EName "ngc188_coords_3d") "separation_3d")
             [EName "ngc188_center_3d"]
             []);
        SAssign
          [EName "pm_diff"]
          (ECall
             (EAttribute (EName "np") "sqrt")
             [ EBinOp
                 (EBinOp
                    (EBinOp
                       (ESubscript (EName "ngc188_table") (EStr "pmra"))
                       Sub
                       (EAttribute (EName "ngc188_center_3d") "pm_ra_cosdec"))
                    Pow
                    (ENum "2"))
                 Add
                 (EBinOp
                    (EBinOp
                       (ESubscript (EName "ngc188_table") (EStr "pmdec"))
                       Sub
                       (EAttribute (EName "ngc188_center_3d") "pm_dec"))
                    Pow
                    (ENum "2"))]
             []);
        SAssign
          [EName "ngc188_members_mask"]
          (EBinOp
             (ECompare
                (EName "sep3d")
                LtC
                (EBinOp (ENum "50") Mult (EAttribute (EName "u") "pc")))
             BitAnd
             (ECompare
                (EName "pm_diff")
                LtC
                (EBinOp
                   (EBinOp (ENum "1.5") Mult (EAttribute (EName "u") "mas"))
                   Div
                   (EAttribute (EName "u") "yr"))));
        SAssign
          [EName "ngc188_members"]
          (ESubscript (EName "ngc188_table") (EName "ngc188_members_mask"));
        SAssign
          [EName "ngc188_members_coords"]
          (ESubscript (EName "ngc188_coords_3d") (EName "ngc188_members_mask"));
        SExpr (ECall (EName "len") [EName "ngc188_members"] [])];
    Cell 7
      []
      [ SAssign
          [EName "v"]
          (ECall
             (EName "Vizier")
             []
             [ (Some "catalog", EStr "II/246");
               (Some "columns", EList [EStr "*"; EStr "Date"])]);
        SAssign [EAttribute (EName "v") "ROW_LIMIT"] (EUnaryOp USub (ENum "1"));
        SAssign
          [EName "result"]
          (ECall
             (EAttribute (EName "v") "query_region")
             [EName "ngc188_center_3d"]
             [(Some "radius", EBinOp (ENum "0.5") Mult (EAttribute (EName "u") "deg"))]);
        SAssign [EName "tmass_table"] (ESubscript (EName "result") (ENum "0"))];
    Cell 9
      []
      [ SWith
          [ECall (EAttribute (EName "warnings") "catch_warnings") [] []]
          [ SExpr
              (ECall
                 (EAttribute (EName "warnings") "simplefilter")
                 [EStr "ignore"; EName "UserWarning"]
                 []);
            SAssign
              [EName "tmass_table"]
              (ECall (EAttribute (EName "QTable") "read") [EStr "2MASS_results.ecsv"] [])]];
    Cell 11 [] [SExpr (ESubscript (EName "tmass_table") (ESlice None (Some (ENum "3"))))];
    Cell 13
      []
      [ SAssign
          [EName "tmass_coords"]
          (ECall
             (EName "SkyCoord")
             [ ESubscript (EName "tmass_table") (EStr "RAJ2000");
               ESubscript (EName "tmass_table") (EStr "DEJ2000")]
             []);
        SExpr (ECall (EName "len") [EName "tmass_coords"] [])];
    Cell 15
      []
      [ SExpr
          (ECall
             (EAttribute (EName "np") "unique")
             [ESubscript (EName "tmass_table") (EStr "Date")]
             [])];
    Cell 17
      []
      [ SAssign
          [EName "tmass_epoch"]
          (ECall
             (EName "Time")
             [ ECall
                 (EAttribute (EName "np") "unique")
                 [ESubscript (EName "tmass_table") (EStr "Date")]
                 []]
             [])];
    Cell 19
      []
      [ SAssign
          [EName "ngc188_members_coords_1999"]
          (ECall
             (EAttribute (EName "ngc188_members_coords") "apply_space_motion")
             [EName "tmass_epoch"]
             [])];
    Cell 21
      []
      [ SAssign
          [ETuple [EName "idx_gaia"; EName "sep2d_gaia"; EName "_"]]
          (ECall
             (EAttribute (EName "ngc188_members_coords_1999") "match_to_catalog_sky")
             [EName "tmass_coords"]
             [])];
    Cell 23
      []
      [ SExpr
          (ECall
             (EAttribute (EName "plt") "hist")
             [EAttribute (EName "sep2d_gaia") "arcsec"]
             [ (Some "histtype", EStr "step");
               (Some "bins",
                ECall
                  (EAttribute (EName "np") "logspace")
                  [EUnaryOp USub (ENum "2"); ENum "2.0"; ENum "64"]
                  [])]);
        SExpr (ECall (EAttribute (EName "plt") "xlabel") [EStr "separation [arcsec]"] []);
        SExpr (ECall (EAttribute (EName "plt") "xscale") [EStr "log"] []);
        SExpr (ECall (EAttribute (EName "plt") "yscale") [EStr "log"] []);
        SExpr (ECall (EAttribute (EName "plt") "tight_layout") [] [])];
    Cell 25
      []
      [ SExpr
          (ETuple
             [ ECall
                 (EAttribute
                    (ECompare
                       (EName "sep2d_gaia")
                       LtC
                       (EBinOp (ENum "2") Mult (EAttribute (EName "u") "arcsec")))
                    "sum")
                 []
                 [];
               ECall (EName "len") [EName "ngc188_members"] []])];
    Cell 27
      []
      [ SAssign
          [EName "Jmag"]
          (ESubscript (ESubscript (EName "tmass_table") (EStr "Jmag")) (EName "idx_gaia"));
        SAssign [EName "Gmag"] (ESubscript (EName "ngc188_members") (EStr "phot_g_mean_mag"));
        SAssign [EName "Bmag"] (ESubscript (EName "ngc188_members") (EStr "phot_bp_mean_mag"))];
    Cell 28
      []
      [ SAssign
          [ETuple [EName "fig"; EName "axes"]]
          (ECall
             (EAttribute (EName "plt") "subplots")
             [ENum "1"; ENum "2"]
             [(Some "figsize", ETuple [ENum "10"; ENum "5"])]);
        SAssign [EName "ax"] (ESubscript (EName "axes") (ENum "0"));
        SExpr
          (ECall
             (EAttribute (EName "ax") "scatter")
             [EBinOp (EName "Gmag") Sub (EName "Jmag"); EName "Gmag"]
             [ (Some "marker", EStr "o");
               (Some "color", EStr "k");
               (Some "linewidth", ENum "0");
               (Some "alpha", ENum "0.5")]);
        SExpr (ECall (EAttribute (EName "ax") "set_xlabel") [EStr "$G - J$"] []);
        SExpr (ECall (EAttribute (EName "ax") "set_ylabel") [EStr "$G$"] []);
        SExpr (ECall (EAttribute (EName "ax") "set_xlim") [ENum "0"; ENum "3"] []);
        SExpr (ECall (EAttribute (EName "ax") "set_ylim") [ENum "19"; ENum "10"] []);
        SAssign [EName "ax"] (ESubscript (EName "axes") (ENum "1"));
        SExpr
          (ECall
             (EAttribute (EName "ax") "scatter")
             [EBinOp (EName "Bmag") Sub (EName "Gmag"); EName "Jmag"]
             [ (Some "marker", EStr "o");
               (Some "color", EStr "k");
               (Some "linewidth", ENum "0");
               (Some "alpha", ENum "0.5")]);
        SExpr (ECall (EAttribute (EName "ax") "set_xlabel") [EStr "$G_{BP} - G$"] []);
        SExpr (ECall (EAttribute (EName "ax") "set_ylabel") [EStr "$J$"] []);
        SExpr (ECall (EAttribute (EName "ax") "set_xlim") [ENum "0.2"; ENum "1"] []);
        SExpr (ECall (EAttribute (EName "ax") "set_ylim") [ENum "17"; ENum "8"] []);
        SExpr (ECall (EAttribute (EName "fig") "tight_layout") [] [])];
    Cell 30 [] [] ].

End Notebooks.

(** ** What the notebooks author: structure, arithmetic, network calls *)

Module Authored.
Import Py Notebooks.

Definition all_notebooks : list notebook :=
  [Coordinates_Intro; Coordinates_Transforms; Coordinates_Velocities;
   Coordinates_Crossmatch].

(** *** Functions, classes, loops, branches, handlers *)

Definition is_function_def (s : stmt) : bool :=
  match s with SFunctionDef _ _ _ => true | _ => false end.
Definition is_class_def (s : stmt) : bool :=
  match s with SClassDef _ _ => true | _ => false end.
Definition is_loop (s : stmt) : bool :=
  match s with SFor _ _ _ | SWhile _ _ => true | _ => false end.
Definition is_branch (s : stmt) : bool :=
  match s with SIf _ _ _ => true | _ => false end.
Definition is_try (s : stmt) : bool :=
  match s with STry _ _ _ => true | _ => false end.
Definition is_with (s : stmt) : bool :=
  match s with SWith _ _ => true | _ => false end.
Definition is_comprehension (e : expr) : bool :=
  match e with EListComp _ _ _ _ => true | _ => false end.

Definition is_for (s : stmt) : bool :=
  match s with SFor _ _ _ => true | _ => false end.
Definition is_while (s : stmt) : bool :=
  match s with SWhile _ _ => true | _ => false end.

(** [if hasattr(x, "mask"): ...], without an [else]. *)
Definition is_hasattr_mask_branch (s : stmt) : bool :=
  match s with
  | SIf (ECall (EName "hasattr") [EName _; EStr "mask"] []) _ [] => true
  | _ => false
  end.

(** [for k, v in velocity_data.items(): ...] *)
Definition is_velocity_data_loop (s : stmt) : bool :=
  match s with
  | SFor (ETuple [EName "k"; EName "v"])
         (ECall (EAttribute (EName "velocity_data") "items") [] []) _ => true
  | _ => false
  end.

(** [with warnings.catch_warnings(): ...], whose body starts by
    silencing [UserWarning]. *)
Definition is_catch_warnings (s : stmt) : bool :=
  match s with
  | SWith [ECall (EAttribute (EName "warnings") "catch_warnings") [] []]
          (SExpr (ECall (EAttribute (EName "warnings") "simplefilter")
                        [EStr "ignore"; EName "UserWarning"] []) :: _) => true
  | _ => false
  end.

(** A statement that is a definition or a control structure of the
    notebook's own, rather than a plain call, assignment or import. *)
Definition is_structure (s : stmt) : bool :=
  is_function_def s || is_class_def s || is_loop s || is_branch s || is_try s.

(** A notebook is straight-line when no cell holds a function or class
    definition, a loop, a branch, a handler or a comprehension. *)
Definition straight_line (nb : notebook) : bool :=
  forallb (fun s => negb (is_structure s)) (stmts nb)
  && forallb (fun e => negb (is_comprehension e)) (exprs nb).

(** The names of the functions a notebook defines. *)
Definition defined_functions (nb : notebook) : list string :=
  flat_map (fun s => match s with SFunctionDef f _ _ => [f] | _ => [] end) (stmts nb).

(** The functions defined at the top of a cell, and the functions
    defined inside another function, each with the function around
    it. *)
Definition top_level_functions (nb : notebook) : list string :=
  flat_map (fun c => flat_map (fun s => match s with
                                        | SFunctionDef f _ _ => [f]
                                        | _ => []
                                        end) (source c)) nb.

Definition nested_functions (nb : notebook) : list (string * string) :=
  flat_map (fun s => match s with
                     | SFunctionDef f _ body =>
                         flat_map (fun s' => match s' with
                                             | SFunctionDef g _ _ => [(f, g)]
                                             | _ => []
                                             end) (flat_map substmts body)
                     | _ => []
                     end) (stmts nb).

(** *** Arithmetic written in the cells *)

(** [u.<unit>]: a unit of the units package, imported as [u]. *)
Definition is_unit (e : expr) : bool :=
  match e with EAttribute (EName "u") _ => true | _ => false end.

Definition is_literal (e : expr) : bool :=
  match e with ENum _ | EUnaryOp USub (ENum _) => true | _ => false end.

(** Arithmetic of the notebook's own on data: an arithmetic operator
    that does not merely attach a unit ([12.11 * u.deg],
    [1 * u.mas / u.yr]), or a negation of something other than a
    literal. *)
Definition is_arithmetic (e : expr) : bool :=
  match e with
  | EBinOp _ BitAnd _ => false
  | EBinOp _ _ r => negb (is_unit r)
  | EUnaryOp USub a => negb (is_literal a)
  | _ => false
  end.

Definition is_comparison (e : expr) : bool :=
  match e with ECompare _ _ _ => true | _ => false end.

(** The variables a statement assigns from an expression holding
    arithmetic of the notebook's own. *)
Definition computed_names (s : stmt) : list string :=
  match s with
  | SAssign ts v =>
      if existsb is_arithmetic (subexprs v)
      then flat_map (fun t => match t with EName x => [x] | _ => [] end) ts
      else []
  | _ => []
  end.

Definition computed_variables (nb : notebook) : list string :=
  flat_map computed_names (stmts nb).

Definition mentions (x : string) (e : expr) : bool :=
  existsb (fun e' => match e' with EName y => String.eqb x y | _ => false end)
          (subexprs e).

(** The variables assigned from a comparison whose operand is a
    variable computed by the notebook's own arithmetic. *)
Definition compared_from_own_arithmetic (nb : notebook) : list string :=
  flat_map
    (fun s =>
       match s with
       | SAssign [EName m] v =>
           if existsb
                (fun e => match e with
                          | ECompare l _ _ =>
                              existsb (fun x => mentions x l) (computed_variables nb)
                          | _ => false
                          end)
                (subexprs v)
           then [m] else []
       | _ => []
       end)
    (stmts nb).

(** A notebook delegates its computations when no cell holds
    arithmetic of the notebook's own. *)
Definition delegates_arithmetic (nb : notebook) : bool :=
  forallb (fun e => negb (is_arithmetic e)) (exprs nb).

(** *** Calls that reach the network *)

(** The archive query clients the notebooks use: the Gaia archive
    ([Gaia.cone_search_async], [Gaia.query_object]) and VizieR
    ([Vizier(...).query_region]). *)
Definition archive_queries : list string :=
  ["cone_search_async"; "query_object"; "query_region"].

(** Other calls that need the network: the SESAME name resolver
    ([SkyCoord.from_name], "requires an internet connection"), the
    STScI DSS cutout service ([download_file], "Skip this cell if you
    are not connected to the internet"), the OpenStreetMap API
    ([EarthLocation.of_address]) and the observatory registry
    ([EarthLocation.of_site], which fetches the list of sites). *)
Definition other_remote_calls : list string :=
  ["from_name"; "download_file"; "of_address"; "of_site"].

Definition is_call_to (names : list string) (e : expr) : bool :=
  existsb (fun n => calls n e) names.

Definition is_remote (e : expr) : bool :=
  is_call_to archive_queries e || is_call_to other_remote_calls e.

(** The names the calls of a notebook go to, each once. *)
Definition called_names (nb : notebook) : list string :=
  nodup string_dec
    (flat_map (fun e => match called e with Some f => [f] | None => [] end) (exprs nb)).

(** [job.get_results()]: the table of the job an archive query
    started; part of the archive access. *)
Definition archive_results : list string := ["get_results"].

(** The other calls of the notebooks, none of which names a remote
    service: constructors and conversions of the coordinate library,
    reads and writes of local files, numerical and plotting calls,
    builtins, the notebook's own helper.  ([Vizier] builds the client
    whose [query_region] is the query.)  What the library fetches by
    itself inside such a call is no call of the notebooks and is not
    listed. *)
Definition local_calls : list string :=
  [ "SkyCoord"; "Distance"; "Time"; "Galactic"; "FK5"; "Galactocentric"; "AltAz";
    "Angle"; "WCS"; "Vizier"; "from_geodetic"; "to"; "to_string"; "represent_as";
    "transform_to"; "separation"; "separation_3d"; "apply_space_motion";
    "match_to_catalog_sky"; "wrap_at"; "filled"; "read"; "write";
    "open"; "argmin"; "sum"; "items"; "sqrt"; "isnan"; "unique"; "linspace";
    "logspace"; "len"; "print"; "dir"; "type"; "dict"; "hasattr"; "endswith";
    "startswith"; "catch_warnings"; "simplefilter"; "coordinates_aitoff_plot";
    "subplots"; "scatter"; "colorbar"; "set_label"; "set_xlabel"; "set_ylabel";
    "set_title"; "set_xlim"; "set_ylim"; "set_autoscale_on"; "set_major_formatter";
    "FuncFormatter"; "grid"; "imshow"; "get_transform"; "figure"; "plot"; "axhline";
    "xlabel"; "ylabel"; "xscale"; "yscale"; "setp"; "gca"; "get_majorticklabels";
    "tight_layout"; "hist" ].

(** The calls of a notebook that are neither a listed remote call nor
    a listed local one. *)
Definition unclassified_calls (nb : notebook) : list string :=
  List.filter
    (fun f => negb (existsb (String.eqb f)
                      (archive_queries ++ archive_results ++ other_remote_calls
                       ++ local_calls)%list))
    (called_names nb).

(** Every remote access of the notebook goes through an archive query
    client. *)
Definition remote_only_through_archives (nb : notebook) : bool :=
  forallb (fun e => implb (is_remote e) (is_call_to archive_queries e)) (exprs nb).

(** The query-client modules a notebook imports. *)
Definition query_clients (nb : notebook) : list string :=
  flat_map (fun s => match s with
                     | SImportFrom m _ => if String.prefix "astroquery" m then [m] else []
                     | _ => []
                     end) (stmts nb).


(** The reads of local catalog snapshots. *)
Definition snapshot_reads (nb : notebook) : list string :=
  flat_map (fun e => match e with
                     | ECall (EAttribute (EName "QTable") "read") [EStr f] _ => [f]
                     | _ => []
                     end) (exprs nb).

End Authored.


(** ** Python exceptions *)

Module Python.

Inductive exn :=
| ConvertError | ValueError | KeyError | IndexError | NameError
| AttributeError | FileNotFoundError | ConnectionError.

(** The outcome of evaluating an expression: a value, or a raised
    exception. *)
Inductive result (A : Type) := Ok (a : A) | Raise (e : exn).
Arguments Ok {A} a.
Arguments Raise {A} e.

Definition bind {A B} (r : result A) (k : A -> result B) : result B :=
  match r with Ok a => k a | Raise e => Raise e end.

Notation "'let*' x ':=' r 'in' k" := (bind r (fun x => k))
  (at level 10, x name, r at level 100, k at level 200).

Fixpoint mapM {A B} (f : A -> result B) (l : list A) : result (list B) :=
  match l with
  | [] => Ok []
  | a :: l' => let* b := f a in let* bs := mapM f l' in Ok (b :: bs)
  end.

End Python.

(** ** numpy: binary64 numbers and (masked) arrays

    Modelled from the spec: the numerical library is outside [src/]; the
    spec names it only as part of the external library consumed by the
    cells.  Numbers are IEEE binary64 values ([spec_float] at precision
    53), arrays are lists, and a masked array carries one mask bit per
    entry.  The operations are the ones the cells call, with numpy's
    element-wise meaning. *)

Module Numpy.
Import Python.

Definition float := spec_float.
Definition prec : Z := 53.
Definition emax : Z := 1024.

Definition add : float -> float -> float := SFadd prec emax.
Definition sub : float -> float -> float := SFsub prec emax.
Definition mul : float -> float -> float := SFmul prec emax.
Definition div : float -> float -> float := SFdiv prec emax.
Definition sqrt : float -> float := SFsqrt prec emax.
Definition square (x : float) : float := mul x x.
Definition lt (x y : float) : bool := SFltb x y.
Definition gt (x y : float) : bool := SFltb y x.

Definition nan : float := S754_nan.
Definition zero : float := S754_zero false.

Definition isnan (x : float) : bool :=
  match x with S754_nan => true | _ => false end.
Definition isfinite (x : float) : bool :=
  match x with S754_zero _ | S754_finite _ _ _ => true | _ => false end.
(** Strictly positive: [+inf] or a positive finite number. *)
Definition positive (x : float) : bool :=
  match x with S754_infinity false | S754_finite false _ _ => true | _ => false end.
Definition sign_bit (x : float) : bool :=
  match x with
  | S754_zero s | S754_infinity s | S754_finite s _ _ => s
  | S754_nan => false
  end.

(** The binary64 values of the decimal literals written in the cells. *)
Definition f0_25 : float := S754_finite false 4503599627370496 (-54).
Definition f0_5 : float := S754_finite false 4503599627370496 (-53).
Definition f1_5 : float := S754_finite false 6755399441055744 (-52).
Definition f10 : float := S754_finite false 5629499534213120 (-49).
Definition f19 : float := S754_finite false 5348024557502464 (-48).
Definition f50 : float := S754_finite false 7036874417766400 (-47).
Definition f12_11 : float := S754_finite false 6817323935932088 (-49).
Definition f85_26 : float := S754_finite false 5999639128587633 (-46).
Definition f1960 : float := S754_finite false 8620171161763840 (-42).
Definition fm2_3087 : float := S754_finite true 5198730229855132 (-51).
Definition fm0_9565 : float := S754_finite true 8615386087159759 (-53).
Definition f1 : float := S754_finite false 4503599627370496 (-52).
Definition f2 : float := S754_finite false 4503599627370496 (-51).
Definition f20 : float := S754_finite false 5629499534213120 (-48).
Definition f100 : float := S754_finite false 7036874417766400 (-46).
Definition f150_4 : float := S754_finite false 5291729562160333 (-45).
Definition fm11 : float := S754_finite true 6192449487634432 (-49).
Definition fm1 : float := S754_finite true 4503599627370496 (-52).
Definition f1000 : float := S754_finite false 8796093022208000 (-43).

(** An array without a mask, or a masked array: each entry with its
    mask bit ([true]: the entry is masked out). *)
Inductive array (A : Type) :=
| Plain (values : list A)
| Masked (entries : list (A * bool)).
Arguments Plain {A} values.
Arguments Masked {A} entries.

Definition data {A} (a : array A) : list A :=
  match a with Plain d => d | Masked es => map fst es end.

(** Every entry with its mask bit; nothing is masked in an array
    without a mask. *)
Definition entries {A} (a : array A) : list (A * bool) :=
  match a with Plain d => map (fun x => (x, false)) d | Masked es => es end.

(** [hasattr(a, "mask")] *)
Definition has_mask {A} (a : array A) : bool :=
  match a with Plain _ => false | Masked _ => true end.

Definition size {A} (a : array A) : nat := length (data a).

(** A function applied entry by entry; mask bits are kept. *)
Definition amap {A B} (f : A -> B) (a : array A) : array B :=
  match a with
  | Plain d => Plain (map f d)
  | Masked es => Masked (map (fun e => (f (fst e), snd e)) es)
  end.

(** Modelled from the spec: element-wise operators are the library's
    (not under [src/]).  A binary operation on two arrays of one
    shape; an entry of the result is masked when either operand's
    entry is. *)
Definition amap2 {A B C} (f : A -> B -> C) (a : array A) (b : array B)
  : result (array C) :=
  if Nat.eqb (size a) (size b) then
    Ok match a, b with
       | Plain da, Plain db => Plain (map (fun p => f (fst p) (snd p)) (combine da db))
       | Plain da, Masked eb =>
           Masked (map (fun p => (f (fst p) (fst (snd p)), snd (snd p))) (combine da eb))
       | Masked ea, Plain db =>
           Masked (map (fun p => (f (fst (fst p)) (snd p), snd (fst p))) (combine ea db))
       | Masked ea, Masked eb =>
           Masked (map (fun p => (f (fst (fst p)) (fst (snd p)),
                                  snd (fst p) || snd (snd p))) (combine ea eb))
       end
  else Raise ValueError.

(** Modelled from the spec: [filled] is the library's (masked
    quantities; not under [src/]).  [a.filled(fill)] is a fresh
    unmasked array in which every masked entry is [fill]; an array
    without a mask has no such method. *)
Definition filled {A} (fill : A) (a : array A) : result (array A) :=
  match a with
  | Masked es => Ok (Plain (map (fun e : A * bool => if snd e then fill else fst e) es))
  | Plain _ => Raise AttributeError
  end.

(** The entries of [xs] at the positions where [m] is [true]. *)
Fixpoint compress {A} (m : list bool) (xs : list A) : list A :=
  match m, xs with
  | b :: m', x :: xs' => if b then x :: compress m' xs' else compress m' xs'
  | _, _ => []
  end.

(** Modelled from the spec: boolean-mask indexing is the library's
    (not under [src/]).  [a[m]] for a boolean array [m]: the shapes
    must agree; a masked boolean array selects by its stored values. *)
Definition getitem_bool {A} (a : array A) (m : array bool) : result (array A) :=
  if Nat.eqb (size m) (size a) then
    Ok match a with
       | Plain d => Plain (compress (data m) d)
       | Masked es => Masked (compress (data m) es)
       end
  else Raise IndexError.

(** Modelled from the spec: boolean-mask assignment is the library's
    (not under [src/]).  [a[m] = v] for a boolean array [m] writes [v]
    at the positions where [m] holds. *)
Definition setitem_bool {A} (a : array A) (m : array bool) (v : A) : result (array A) :=
  if Nat.eqb (size m) (size a) then
    Ok match a with
       | Plain d =>
           Plain (map (fun p : bool * A => if fst p then v else snd p) (combine (data m) d))
       | Masked es =>
           Masked (map (fun p : bool * (A * bool) => if fst p then (v, false) else snd p)
                       (combine (data m) es))
       end
  else Raise IndexError.

(** [a[i]] for an integer [i]. *)
Definition getitem_int {A} (a : array A) (i : nat) : result (array A) :=
  match a with
  | Plain d => match nth_error d i with
               | Some x => Ok (Plain [x]) | None => Raise IndexError end
  | Masked es => match nth_error es i with
                 | Some e => Ok (Masked [e]) | None => Raise IndexError end
  end.

(** [a[idx]] for an array of integers [idx]. *)
Definition getitem_ints {A} (a : array A) (idx : list nat) : result (array A) :=
  match a with
  | Plain d =>
      let* r := mapM (fun i => match nth_error d i with
                               | Some x => Ok x | None => Raise IndexError end) idx in
      Ok (Plain r)
  | Masked es =>
      let* r := mapM (fun i => match nth_error es i with
                               | Some x => Ok x | None => Raise IndexError end) idx in
      Ok (Masked r)
  end.

(** [argmin]: the position of the first smallest entry, a NaN
    counting as smallest; the masked entries of a masked array do not
    compete (see [competing]). *)
Fixpoint argmin_from (best : float) (ibest i : nat) (xs : list float) : nat :=
  match xs with
  | [] => ibest
  | x :: xs' =>
      if isnan best then ibest
      else if isnan x || lt x best then argmin_from x i (S i) xs'
      else argmin_from best ibest (S i) xs'
  end.

(** The numbers that compete for a minimum: a masked entry counts as
    [+inf], the value masked arrays put in its place. *)
Definition competing (a : array float) : list float :=
  map (fun e : float * bool => if snd e then S754_infinity false else fst e) (entries a).

Definition argmin (a : array float) : result nat :=
  match competing a with
  | [] => Raise ValueError
  | x :: xs => Ok (argmin_from x 0 1 xs)
  end.

(** The positions at which a boolean list is [true]. *)
Fixpoint nonzero_from (i : nat) (m : list bool) : list nat :=
  match m with
  | [] => []
  | b :: m' => if b then i :: nonzero_from (S i) m' else nonzero_from (S i) m'
  end.
Definition nonzero (m : list bool) : list nat := nonzero_from 0 m.

End Numpy.

(** ** astropy: tables, sky coordinates, frames, distances

    Modelled from the spec: the coordinate library is outside [src/];
    the spec calls it "a coordinate/units/time astronomical library
    providing coordinate representation, frame transformation, and
    space-motion propagation" and says it signals an error "for
    operations lacking sufficient information (e.g., frame conversions
    requiring distance and velocity data that are absent)".  The
    notebooks' own prose says which conversions those are; the
    numerical work of the library stays abstract (section variables). *)

Module Astropy.
Import Python Numpy.

(** *** QTable: named columns of one length *)

Definition column := array float.
Definition table := list (string * column).

(** [t[name]] *)
Fixpoint getitem (t : table) (name : string) : result column :=
  match t with
  | [] => Raise KeyError
  | (n, c) :: t' => if String.eqb n name then Ok c else getitem t' name
  end.

(** [t[names]]: the named columns, in the order asked for. *)
Definition select (t : table) (names : list string) : result table :=
  mapM (fun n => let* c := getitem t n in Ok (n, c)) names.

(** Modelled from the spec: row selection is the library's (not under
    [src/]).  [t[m]] for a boolean array [m]: the rows where [m]
    holds, column by column. *)
Definition rows (t : table) (m : array bool) : result table :=
  mapM (fun nc => let* c := getitem_bool (snd nc) m in Ok (fst nc, c)) t.

(** [t[i]]: one row. *)
Definition row (t : table) (i : nat) : result table :=
  mapM (fun nc => let* c := getitem_int (snd nc) i in Ok (fst nc, c)) t.

(** Every column of the table has [n] entries. *)
Definition rectangular (n : nat) (t : table) : Prop :=
  Forall (fun nc => size (snd nc) = n) t.

(** The table has the named columns. *)
Definition has_columns (names : list string) (t : table) : Prop :=
  Forall (fun name => exists c, getitem t name = Ok c) names.

(** [t[name] = c]: replaces the column in place (or appends it). *)
Fixpoint setitem (t : table) (name : string) (c : column) : table :=
  match t with
  | [] => [(name, c)]
  | (n, c') :: t' =>
      if String.eqb n name then (n, c) :: t' else (n, c') :: setitem t' name c
  end.

(** *** SkyCoord *)

Inductive frame := ICRS | FK5 | Galactic | Galactocentric | AltAz.

(** [Time("J2015.5")], [Time(x, format="jyear")] *)
Inductive epoch := Epoch (label : string) | JYear (year : float).

(** A (scalar or array) coordinate: longitude and latitude always,
    distance, proper motion and radial velocity when they were given. *)
Record SkyCoord := {
  frame_of : frame;
  lon : list float;
  lat : list float;
  distance : option (list float);
  proper_motion : option (list float * list float);
  radial_velocity : option (list float);
  obstime : option epoch }.

Definition sc_size (c : SkyCoord) : nat := length (lon c).

Definition same_length (n : nat) (o : option (list float)) : bool :=
  match o with Some l => Nat.eqb (length l) n | None => true end.

(** Modelled from the spec: the [SkyCoord] initializer is the
    library's (not under [src/]).  [SkyCoord(lon, lat, distance=...,
    pm_*=..., radial_velocity=..., obstime=..., frame=...)]: the
    components must have one shape. *)
Definition SkyCoord_new (f : frame) (lo la : list float)
    (d : option (list float)) (pm : option (list float * list float))
    (rv : option (list float)) (t : option epoch) : result SkyCoord :=
  let n := length lo in
  if Nat.eqb (length la) n && same_length n d
     && same_length n (option_map fst pm) && same_length n (option_map snd pm)
     && same_length n rv
  then Ok {| frame_of := f; lon := lo; lat := la; distance := d;
             proper_motion := pm; radial_velocity := rv; obstime := t |}
  else Raise ValueError.

(** Modelled from the spec: indexing a coordinate array is the
    library's (not under [src/]).  [c[m]] for a boolean array [m]
    selects in every component. *)
Definition sc_getitem_bool (c : SkyCoord) (m : array bool) : result SkyCoord :=
  if Nat.eqb (size m) (sc_size c) then
    let pick := compress (data m) in
    Ok {| frame_of := frame_of c;
          lon := pick (lon c);
          lat := pick (lat c);
          distance := option_map pick (distance c);
          proper_motion :=
            option_map (fun pm => (pick (fst pm), pick (snd pm))) (proper_motion c);
          radial_velocity := option_map pick (radial_velocity c);
          obstime := obstime c |}
  else Raise IndexError.

(** The proper-motion and radial-velocity numbers a coordinate holds. *)
Definition kinematics (c : SkyCoord) : list float :=
  (match proper_motion c with Some pm => fst pm ++ snd pm | None => [] end
   ++ match radial_velocity c with Some rv => rv | None => [] end)%list.

(** One source of a coordinate array. *)
Record point := {
  p_lon : float;
  p_lat : float;
  p_distance : option float;
  p_pm : option (float * float);
  p_rv : option float }.

Definition point_at (c : SkyCoord) (i : nat) : point :=
  {| p_lon := nth i (lon c) nan;
     p_lat := nth i (lat c) nan;
     p_distance := option_map (fun l => nth i l nan) (distance c);
     p_pm := option_map (fun pm => (nth i (fst pm) nan, nth i (snd pm) nan))
                        (proper_motion c);
     p_rv := option_map (fun l => nth i l nan) (radial_velocity c) |}.

Definition points (c : SkyCoord) : list point :=
  map (point_at c) (seq 0 (sc_size c)).

(** The coordinate array the library builds from the moved sources
    [ps]: the components of [c], and a radial velocity for every
    source (the library takes a missing one as 0.0 and returns the
    moved one). *)
Definition with_points (c : SkyCoord) (t : option epoch) (ps : list point)
  : SkyCoord :=
  let get {A} (f : point -> option A) (d : A) (p : point) : A :=
    match f p with Some x => x | None => d end in
  {| frame_of := frame_of c;
     lon := map p_lon ps;
     lat := map p_lat ps;
     distance := option_map (fun _ => map (get p_distance nan) ps) (distance c);
     proper_motion :=
       option_map (fun _ => (map (fun p => fst (get p_pm (nan, nan) p)) ps,
                             map (fun p => snd (get p_pm (nan, nan) p)) ps))
                  (proper_motion c);
     radial_velocity := Some (map (get p_rv zero) ps);
     obstime := t |}.

(** *** Frame transformation *)

(** Modelled from the spec: which conversions need more information
    is decided inside the library (not under [src/]); the notebooks'
    prose says: "some transformations include a change of origin, and
    therefore require that the source data [...] has defined distance
    information".  Among the frames the notebooks use, the prose names
    [Galactocentric] ("a shift of origin from the solar system
    barycenter to the Galactic center"); ICRS to Galactic "amounts to a
    3D rotation, but no change of origin", and ICRS to FK5 is shown on a
    position without distance. *)
Definition shifts_origin (target : frame) : bool :=
  match target with Galactocentric => true | _ => false end.

Definition has_velocity (c : SkyCoord) : bool :=
  match proper_motion c, radial_velocity c with
  | None, None => false
  | _, _ => true
  end.

(** "the full velocity vectors (i.e. proper motion components and
    radial velocity)" *)
Definition full_velocity (c : SkyCoord) : bool :=
  match proper_motion c, radial_velocity c with
  | Some _, Some _ => true
  | _, _ => false
  end.

(** Modelled from the spec: "frame conversions requiring distance and
    velocity data that are absent" lack information: a conversion that
    shifts the origin, of a coordinate without distance or with only
    part of its velocity. *)
Definition lacks_information (c : SkyCoord) (target : frame) : bool :=
  shifts_origin target
  && (match distance c with None => true | Some _ => false end
      || (has_velocity c && negb (full_velocity c))).

Section Library.

(** The numerical work of the library. *)
Variable frame_math : frame -> SkyCoord -> SkyCoord.
Variable parallax_to_pc : float -> float.
Variable separation_pc : point -> point -> float.
Variable space_motion : option epoch -> epoch -> point -> point.
Variable nearest : point -> list point -> nat.
Variable separation_sky : point -> point -> float.

(** Modelled from the spec: [SkyCoord.transform_to] is the
    library's; a conversion that lacks information raises
    [ConvertError], any other returns the coordinate in the target
    frame. *)
Definition transform_to (c : SkyCoord) (target : frame) : result SkyCoord :=
  if lacks_information c target then Raise ConvertError
  else
    let c' := frame_math target c in
    Ok {| frame_of := target; lon := lon c'; lat := lat c';
          distance := distance c'; proper_motion := proper_motion c';
          radial_velocity := radial_velocity c'; obstime := obstime c' |}.

(** Modelled from the spec: [Distance(parallax=...)] is the
    library's parallax-to-distance conversion; it rejects a negative
    parallax that is not masked with [ValueError] and converts the
    others (a NaN passes the check, and so does whatever stands
    under a mask).  Coordinates carry no masks here: the distance of
    a masked entry is the one of its stored number. *)
Definition Distance (parallax : array float) : result (list float) :=
  if existsb (fun e : float * bool => negb (snd e) && lt (fst e) zero)
             (entries parallax)
  then Raise ValueError
  else Ok (map parallax_to_pc (data parallax)).

(** Modelled from the spec: [separation_3d] is the library's (not
    under [src/]).  [c.separation_3d(other)] for a scalar [other]:
    both need a distance; one number per source of [c]. *)
Definition separation_3d (c other : SkyCoord) : result (array float) :=
  match distance c, distance other, points other with
  | Some _, Some _, [o] => Ok (Plain (map (fun p => separation_pc p o) (points c)))
  | _, _, _ => Raise ValueError
  end.

(** Modelled from the spec: "space-motion propagation" is the
    library's (not under [src/]).  [c.apply_space_motion(new_obstime)]
    needs velocity data; each source is moved on its own. *)
Definition apply_space_motion (c : SkyCoord) (new_obstime : epoch)
  : result SkyCoord :=
  if has_velocity c
  then Ok (with_points c (Some new_obstime)
             (map (space_motion (obstime c) new_obstime) (points c)))
  else Raise ValueError.

(** Modelled from the spec: the "catalog cross-match
    nearest-neighbor search" is the library's (not under [src/]).
    [c.match_to_catalog_sky(catalog)]: for each source of [c], the
    index of the closest catalog source and the angular separation
    to it. *)
Definition match_to_catalog_sky (c catalog : SkyCoord)
  : result (list nat * list float) :=
  match points catalog with
  | [] => Raise ValueError
  | cat =>
      let idx := map (fun p => nearest p cat) (points c) in
      Ok (idx, map (fun p => separation_sky p (nth (nearest p cat) cat
                               (point_at catalog 0))) (points c))
  end.

End Library.

End Astropy.

(** ** The notebook kernel: namespace, working directory, network *)

Module Kernel.
Import Python Numpy Astropy.

(** The objects the modelled cells bind to names. *)
Inductive value :=
| VCoord (c : SkyCoord)
| VTable (t : table)
| VTableList (ts : list table)
| VJob (results : table)
| VVizier (catalog : string) (columns : list string) (row_limit : Z)
| VStrings (l : list string)
| VStr (s : string).

(** The kernel's global namespace and the catalog files of the working
    directory (a file holds the table that was written to it). *)
Record state := {
  namespace : gmap string value;
  files : gmap string table }.

(** Modelled from the spec: the "remote catalog-query clients" and the
    name resolver are external (not under [src/]).  What the remote
    services answer during one run; [None] when the service cannot be
    reached.  A radius is a number with its unit. *)
Record network := {
  sesame : string -> option SkyCoord;
  gaia_cone_search : SkyCoord -> float * string -> option table;
  gaia_query_object : SkyCoord -> float * string -> option table;
  vizier_query_region :
    string -> SkyCoord -> float * string -> option (list table);
  dss_search : list float * list float -> option string }.

(** No connection at all. *)
Definition offline : network :=
  {| sesame := fun _ => None;
     gaia_cone_search := fun _ _ => None;
     gaia_query_object := fun _ _ => None;
     vizier_query_region := fun _ _ _ => None;
     dss_search := fun _ => None |}.

(** A cell, or a part of one: it reads the network, changes the state
    and yields a value or raises.  What was bound before an exception
    stays bound. *)
Definition M (A : Type) : Type := network -> state -> state * result A.

Definition ret {A} (a : A) : M A := fun _ st => (st, Ok a).

Definition bindM {A B} (c : M A) (k : A -> M B) : M B :=
  fun net st =>
    match c net st with
    | (st', Ok a) => k a net st'
    | (st', Raise e) => (st', Raise e)
    end.

Notation "'let!' x ':=' c 'in' k" := (bindM c (fun x => k))
  (at level 10, x name, c at level 100, k at level 200).

Definition lift {A} (r : result A) : M A := fun _ st => (st, r).

(** Reading a name: [NameError] when it is not bound. *)
Definition load (x : string) : M value :=
  fun _ st =>
    match namespace st !! x with
    | Some v => (st, Ok v)
    | None => (st, Raise NameError)
    end.

(** [x = v] *)
Definition store (x : string) (v : value) : M unit :=
  fun _ st =>
    ({| namespace := <[x := v]> (namespace st); files := files st |}, Ok tt).

Definition as_coord (v : value) : result SkyCoord :=
  match v with VCoord c => Ok c | _ => Raise AttributeError end.
Definition as_table (v : value) : result table :=
  match v with VTable t => Ok t | _ => Raise AttributeError end.
Definition as_strings (v : value) : result (list string) :=
  match v with VStrings l => Ok l | _ => Raise AttributeError end.

(** A call that needs the network. *)
Definition remote {A} (ask : network -> option A) : M A :=
  fun net st =>
    match ask net with
    | Some a => (st, Ok a)
    | None => (st, Raise ConnectionError)
    end.

(** Modelled from the spec: reading a "local flat-file catalog
    snapshot" is the library's (not under [src/]).
    [QTable.read(name)] yields the table the file holds. *)
Definition QTable_read (name : string) : M table :=
  fun _ st =>
    match files st !! name with
    | Some t => (st, Ok t)
    | None => (st, Raise FileNotFoundError)
    end.

(** Modelled from the spec: writing a table is the library's (not
    under [src/]).  [t.write(name, overwrite=True)] replaces what the
    file holds. *)
Definition write (t : table) (name : string) : M unit :=
  fun _ st =>
    ({| namespace := namespace st; files := <[name := t]> (files st) |}, Ok tt).

(** A cell run for its effects: what it displays is dropped. *)
Definition cell {A} (c : M A) : M unit := let! _ := c in ret tt.

(** Running cells one after the other, going on after a cell that
    raised (its exception is shown under the cell); the exceptions
    shown, in order. *)
Fixpoint run (cells : list (M unit)) (net : network) (st : state)
  : state * list exn :=
  match cells with
  | [] => (st, [])
  | c :: cells' =>
      match c net st with
      | (st', Ok _) => run cells' net st'
      | (st', Raise e) =>
          let (st'', es) := run cells' net st' in (st'', e :: es)
      end
  end.

End Kernel.

(** ** The cells, embedded

    Units are not modelled: a quantity is its number in the unit of its
    column (mas, mas/yr, km/s, deg), and distances are in parsec. *)

Module Cells.
Import Python Numpy Astropy Kernel.

Section Library.

Variable frame_math : frame -> SkyCoord -> SkyCoord.
Variable parallax_to_pc : float -> float.
Variable separation_pc : point -> point -> float.
Variable space_motion : option epoch -> epoch -> point -> point.
Variable nearest : point -> list point -> nat.
Variable separation_sky : point -> point -> float.

(** *** Notebook 2 (Coordinates-Transforms) *)

(** Cell 25: [tbl = QTable.read("Cantat-Gaudin-open-clusters.ecsv")] *)
Definition read_open_clusters : M unit :=
  let! tbl := QTable_read "Cantat-Gaudin-open-clusters.ecsv" in
  store "tbl" (VTable tbl).

(** Cell 27: [open_cluster_c = SkyCoord(ra=tbl["ra"], dec=tbl["dec"],
    distance=tbl["distance"], frame="icrs")] *)
Definition make_open_cluster_c : M unit :=
  let! v := load "tbl" in
  let! tbl := lift (as_table v) in
  let! ra := lift (getitem tbl "ra") in
  let! dec := lift (getitem tbl "dec") in
  let! dist := lift (getitem tbl "distance") in
  let! c := lift (SkyCoord_new ICRS (data ra) (data dec) (Some (data dist))
                    None None None) in
  store "open_cluster_c" (VCoord c).

(** A cell of the form [name = obj.transform_to(Frame())] (cell 35:
    [open_cluster_gal = open_cluster_c.transform_to(Galactic())]). *)
Definition assign_transform (name obj : string) (target : frame) : M unit :=
  let! v := load obj in
  let! c := lift (as_coord v) in
  let! c' := lift (transform_to frame_math c target) in
  store name (VCoord c').

Definition transform_open_clusters : M unit :=
  assign_transform "open_cluster_gal" "open_cluster_c" Galactic.

(** A cell ending in the expression [obj.transform_to(Frame())]: its
    value is what the cell displays. *)
Definition show_transform (obj : string) (target : frame) : M SkyCoord :=
  let! v := load obj in
  let! c := lift (as_coord v) in
  lift (transform_to frame_math c target).

(** Cell 69: [icrs_c = coord.SkyCoord(150.4 * u.deg, -11 * u.deg)]
    then [icrs_c.transform_to(coord.FK5())] *)
Definition icrs_to_fk5 : M SkyCoord :=
  let! icrs_c := lift (SkyCoord_new ICRS [f150_4] [fm11] None None None None) in
  let! _ := store "icrs_c" (VCoord icrs_c) in
  show_transform "icrs_c" FK5.

(** Cell 71 ("This cell will raise an exception and will not work
    (you will see a `ConvertError` exception) - this is expected!"):
    [icrs_c.transform_to(coord.Galactocentric())] *)
Definition icrs_to_galactocentric : M SkyCoord :=
  show_transform "icrs_c" Galactocentric.

(** *** Notebook 3 (velocities, src/unnamed/part_000) *)

(** Cell 18 ("This cell will NOT work (you will receive an
    ConvertError warning) - this is expected!"):
    [test_coord_1 = SkyCoord(ra=10 * u.deg, dec=20 * u.deg,
    pm_ra_cosdec=1 * u.mas / u.yr, pm_dec=2 * u.mas / u.yr)] then
    [test_coord_1.transform_to(coord.Galactocentric())] *)
Definition test_coord_1_cell : M SkyCoord :=
  let! c := lift (SkyCoord_new ICRS [f10] [f20] None (Some ([f1], [f2])) None None) in
  let! _ := store "test_coord_1" (VCoord c) in
  show_transform "test_coord_1" Galactocentric.

(** Cell 20: [test_coord_2 = SkyCoord(ra=10 * u.deg, dec=20 * u.deg,
    distance=10 * u.pc, pm_ra_cosdec=1 * u.mas / u.yr,
    pm_dec=2 * u.mas / u.yr, radial_velocity=100 * u.km / u.s)] then
    [test_coord_2.transform_to(coord.Galactocentric())] *)
Definition test_coord_2_cell : M SkyCoord :=
  let! c := lift (SkyCoord_new ICRS [f10] [f20] (Some [f10]) (Some ([f1], [f2]))
                    (Some [f100]) None) in
  let! _ := store "test_coord_2" (VCoord c) in
  show_transform "test_coord_2" Galactocentric.



(** Cells 25 and 27: [hd219829_row = gaia_tbl[gaia_tbl["phot_g_mean_mag"].argmin()]]
    then [hd219829_coord = SkyCoord(ra=hd219829_row["ra"],
    dec=hd219829_row["dec"],
    distance=Distance(parallax=hd219829_row["parallax"]),
    pm_ra_cosdec=hd219829_row["pmra"], pm_dec=hd219829_row["pmdec"],
    obstime=Time(hd219829_row["ref_epoch"], format="jyear"))] *)
Definition hd219829_coord (gaia_tbl : table) : result SkyCoord :=
  let* mag := getitem gaia_tbl "phot_g_mean_mag" in
  let* i := argmin mag in
  let* hd219829_row := row gaia_tbl i in
  let* ra := getitem hd219829_row "ra" in
  let* dec := getitem hd219829_row "dec" in
  let* parallax := getitem hd219829_row "parallax" in
  let* dist := Distance parallax_to_pc parallax in
  let* pmra := getitem hd219829_row "pmra" in
  let* pmdec := getitem hd219829_row "pmdec" in
  let* ref_epoch := getitem hd219829_row "ref_epoch" in
  SkyCoord_new ICRS (data ra) (data dec) (Some dist)
    (Some (data pmra, data pmdec)) None
    (option_map JYear (head (data ref_epoch))).



(** *** Notebook 1 (introduction, src/unnamed/part_001) *)

(** The centre of NGC 188 as the notebook states it, (12.11, 85.26)
    degrees in the ICRS. *)
Definition known_center : SkyCoord :=
  {| frame_of := ICRS; lon := [f12_11]; lat := [f85_26]; distance := None;
     proper_motion := None; radial_velocity := None; obstime := None |}.



(** Cell 28: [job = Gaia.cone_search_async(ngc188_center, radius=0.5 * u.deg)],
    [ngc188_table = job.get_results()],
    [ngc188_table = ngc188_table[ngc188_table["phot_g_mean_mag"] < 19 * u.mag]] *)
Definition query_gaia : M unit :=
  let! v := load "ngc188_center" in
  let! ngc188_center := lift (as_coord v) in
  let! results := remote (fun net => gaia_cone_search net ngc188_center (f0_5, "deg")) in
  let! _ := store "job" (VJob results) in
  let! _ := store "ngc188_table" (VTable results) in
  let! mag := lift (getitem results "phot_g_mean_mag") in
  let! bright := lift (rows results (amap (fun x => lt x f19) mag)) in
  store "ngc188_table" (VTable bright).

(** Cell 29: [cols = [...]] then
    [ngc188_table[cols].write("gaia_results.fits", overwrite=True)] *)
Definition cols : list string :=
  ["source_id"; "ra"; "dec"; "parallax"; "parallax_error"; "pmra"; "pmdec";
   "radial_velocity"; "phot_g_mean_mag"; "phot_bp_mean_mag"; "phot_rp_mean_mag"].

Definition write_gaia_results : M unit :=
  let! _ := store "cols" (VStrings cols) in
  let! v := load "ngc188_table" in
  let! ngc188_table := lift (as_table v) in
  let! w := load "cols" in
  let! names := lift (as_strings w) in
  let! chosen := lift (select ngc188_table names) in
  write chosen "gaia_results.fits".

(** What cell 29 of notebook 1 writes for an answer of the archive. *)
Definition archive_of (response : table) : result table :=
  let* mag := getitem response "phot_g_mean_mag" in
  let* bright := rows response (amap (fun x => lt x f19) mag) in
  select bright cols.

(** Cell 31: [ngc188_table = QTable.read("gaia_results.fits")] *)
Definition read_gaia_results : M unit :=
  let! t := QTable_read "gaia_results.fits" in
  store "ngc188_table" (VTable t).

(** Cells 48, 52 and 54:
    [parallax_snr = ngc188_table["parallax"] / ngc188_table["parallax_error"]],
    [ngc188_table_3d = ngc188_table[parallax_snr > 10]],
    [gaia_dist = Distance(parallax=ngc188_table_3d["parallax"].filled(np.nan))],
    [ngc188_coords_3d = SkyCoord(ra=ngc188_table_3d["ra"],
    dec=ngc188_table_3d["dec"], distance=gaia_dist)] *)
Definition snr_selection (ngc188_table : table) : result (table * array float) :=
  let* parallax := getitem ngc188_table "parallax" in
  let* parallax_error := getitem ngc188_table "parallax_error" in
  let* parallax_snr := amap2 div parallax parallax_error in
  let* ngc188_table_3d := rows ngc188_table (amap (fun x => gt x f10) parallax_snr) in
  let* p := getitem ngc188_table_3d "parallax" in
  let* p_filled := filled nan p in
  Ok (ngc188_table_3d, p_filled).

Definition intro_coords_3d (ngc188_table : table) : result SkyCoord :=
  let* sel := snr_selection ngc188_table in
  let* gaia_dist := Distance parallax_to_pc (snd sel) in
  let* ra := getitem (fst sel) "ra" in
  let* dec := getitem (fst sel) "dec" in
  SkyCoord_new ICRS (data ra) (data dec) (Some gaia_dist) None None None.

(** *** Notebook 4 (Coordinates-Crossmatch) *)

(** Cell 4, the missing-data block.
    [if hasattr(parallax, "mask"): parallax = parallax.filled(np.nan)] *)
Definition fill_parallax (parallax : array float) : result (array float) :=
  if has_mask parallax then filled nan parallax else Ok parallax.

(** The body of [for k, v in velocity_data.items()]:
    [if hasattr(v, "mask"): velocity_data[k] = v.filled(0.0)] then
    [velocity_data[k][np.isnan(velocity_data[k])] = 0.0] *)
Definition fill_velocity (v : array float) : result (array float) :=
  let* vk := if has_mask v then filled zero v else Ok v in
  setitem_bool vk (amap isnan vk) zero.

(** [velocity_data = {"pm_ra_cosdec": ngc188_table["pmra"],
    "pm_dec": ngc188_table["pmdec"],
    "radial_velocity": ngc188_table["radial_velocity"]}]: each value
    is a column object of the table, identified here by its column
    name. *)
Definition velocity_columns : list (string * string) :=
  [("pm_ra_cosdec", "pmra"); ("pm_dec", "pmdec");
   ("radial_velocity", "radial_velocity")].

Definition make_velocity_data (t : table)
  : result (list (string * (string * array float))) :=
  mapM (fun kc => let* v := getitem t (snd kc) in Ok (fst kc, (snd kc, v)))
       velocity_columns.

(** The loop over [velocity_data.items()].  A masked column is
    replaced in the dictionary by its filled copy, and the table
    keeps its column; a column without a mask is the very object the
    dictionary holds, so the assignment of 0.0 also changes the
    table's column. *)
Fixpoint fill_loop (items : list (string * (string * array float))) (t : table)
  : result (list (string * array float) * table) :=
  match items with
  | [] => Ok ([], t)
  | (k, (c, v)) :: items' =>
      let* vk := fill_velocity v in
      let t' := if has_mask v then t else setitem t c vk in
      let* rest := fill_loop items' t' in
      Ok ((k, vk) :: fst rest, snd rest)
  end.

Definition lookup_key (d : list (string * array float)) (k : string)
  : result (array float) := getitem d k.

(** The names bound by cell 4. *)
Record selection := {
  ngc188_table : table;
  ngc188_center_3d : SkyCoord;
  parallax : array float;
  velocity_data : list (string * array float);
  ngc188_coords_3d : SkyCoord;
  sep3d : array float;
  pm_diff : array float;
  ngc188_members_mask : array bool;
  ngc188_members : table;
  ngc188_members_coords : SkyCoord }.

(** [np.sqrt((ngc188_table["pmra"] - ngc188_center_3d.pm_ra_cosdec) ** 2
    + (ngc188_table["pmdec"] - ngc188_center_3d.pm_dec) ** 2)] *)
Definition proper_motion_distance (pmra pmdec : array float) (c_pmra c_pmdec : float)
  : result (array float) :=
  let dra := amap square (amap (fun x => sub x c_pmra) pmra) in
  let ddec := amap square (amap (fun x => sub x c_pmdec) pmdec) in
  let* s := amap2 add dra ddec in
  Ok (amap sqrt s).

(** The columns cell 4 reads. *)
Definition selection_columns : list string :=
  ["parallax"; "pmra"; "pmdec"; "radial_velocity"; "ra"; "dec"].

(** Cell 4, from the table read from ["gaia_results.fits"].  The
    centre's distance, [1.96 * u.kpc], is 1960 pc. *)
Definition select_members (gaia_results : table) : result selection :=
  let* p0 := getitem gaia_results "parallax" in
  let* t0 := rows gaia_results (amap (fun x => gt x f0_25) p0) in
  let* center := SkyCoord_new ICRS [f12_11] [f85_26] (Some [f1960])
                   (Some ([fm2_3087], [fm0_9565])) None None in
  let* p := getitem t0 "parallax" in
  let* p' := fill_parallax p in
  let* items := make_velocity_data t0 in
  let* filled_t := fill_loop items t0 in
  let vd := fst filled_t in
  let t := snd filled_t in
  let* ra := getitem t "ra" in
  let* dec := getitem t "dec" in
  let* dist := Distance parallax_to_pc p' in
  let* pm1 := lookup_key vd "pm_ra_cosdec" in
  let* pm2 := lookup_key vd "pm_dec" in
  let* rv := lookup_key vd "radial_velocity" in
  let* coords := SkyCoord_new ICRS (data ra) (data dec) (Some dist)
                   (Some (data pm1, data pm2)) (Some (data rv))
                   (Some (Epoch "J2015.5")) in
  let* sep := separation_3d separation_pc coords center in
  let* pmra := getitem t "pmra" in
  let* pmdec := getitem t "pmdec" in
  let* diff := match proper_motion center with
               | Some ([pm_ra_cosdec], [pm_dec]) =>
                   proper_motion_distance pmra pmdec pm_ra_cosdec pm_dec
               | _ => Raise AttributeError
               end in
  let* mask := amap2 andb (amap (fun x => lt x f50) sep)
                          (amap (fun x => lt x f1_5) diff) in
  let* members := rows t mask in
  let* members_coords := sc_getitem_bool coords mask in
  Ok {| ngc188_table := t; ngc188_center_3d := center; parallax := p';
        velocity_data := vd; ngc188_coords_3d := coords; sep3d := sep;
        pm_diff := diff; ngc188_members_mask := mask;
        ngc188_members := members; ngc188_members_coords := members_coords |}.

(** Cell 7: [v = Vizier(catalog="II/246", columns=["*", "Date"])],
    [v.ROW_LIMIT = -1],
    [result = v.query_region(ngc188_center_3d, radius=0.5 * u.deg)],
    [tmass_table = result[0]] *)
Definition query_2mass : M unit :=
  let! _ := store "v" (VVizier "II/246" ["*"; "Date"] 50) in
  let! _ := store "v" (VVizier "II/246" ["*"; "Date"] (-1)) in (* v.ROW_LIMIT = -1 *)
  let! c := load "ngc188_center_3d" in
  let! center := lift (as_coord c) in
  let! result := remote (fun net => vizier_query_region net "II/246" center
                                      (f0_5, "deg")) in
  let! _ := store "result" (VTableList result) in
  let! first := lift (match result with
                      | t :: _ => Ok t
                      | [] => Raise IndexError
                      end) in
  store "tmass_table" (VTable first).


(** The names bound by cells 13 to 27. *)
Record crossmatch := {
  tmass_coords : SkyCoord;
  ngc188_members_coords_1999 : SkyCoord;
  idx_gaia : list nat;
  sep2d_gaia : list float;
  Jmag : array float;
  Gmag : array float;
  Bmag : array float }.

(** Cell 13: [tmass_coords = SkyCoord(tmass_table["RAJ2000"],
    tmass_table["DEJ2000"])]; cell 19: [ngc188_members_coords_1999 =
    ngc188_members_coords.apply_space_motion(tmass_epoch)]; cell 21:
    [idx_gaia, sep2d_gaia, _ =
    ngc188_members_coords_1999.match_to_catalog_sky(tmass_coords)];
    cell 27: [Jmag = tmass_table["Jmag"][idx_gaia]],
    [Gmag = ngc188_members["phot_g_mean_mag"]],
    [Bmag = ngc188_members["phot_bp_mean_mag"]] *)
Definition cross_match (s : selection) (tmass_table : table) (tmass_epoch : epoch)
  : result crossmatch :=
  let* ra := getitem tmass_table "RAJ2000" in
  let* dec := getitem tmass_table "DEJ2000" in
  let* tmass := SkyCoord_new ICRS (data ra) (data dec) None None None None in
  let* moved := apply_space_motion space_motion (ngc188_members_coords s)
                  tmass_epoch in
  let* matched := match_to_catalog_sky nearest separation_sky moved tmass in
  let* jcol := getitem tmass_table "Jmag" in
  let* j := getitem_ints jcol (fst matched) in
  let* g := getitem (ngc188_members s) "phot_g_mean_mag" in
  let* b := getitem (ngc188_members s) "phot_bp_mean_mag" in
  Ok {| tmass_coords := tmass; ngc188_members_coords_1999 := moved;
        idx_gaia := fst matched; sep2d_gaia := snd matched;
        Jmag := j; Gmag := g; Bmag := b |}.

End Library.

End Cells.

(** ** Sample data *)

Module Samples.
Import Python Numpy Astropy Kernel Cells.

Definition ngc188_center : SkyCoord := known_center.

Definition with_proper_motion : SkyCoord :=
  {| frame_of := ICRS; lon := [f10]; lat := [f20]; distance := None;
     proper_motion := Some ([f1], [f2]); radial_velocity := None; obstime := None |}.

Definition with_full_velocity : SkyCoord :=
  {| frame_of := ICRS; lon := [f10]; lat := [f20]; distance := Some [f10];
     proper_motion := Some ([f1], [f2]); radial_velocity := Some [f100];
     obstime := None |}.

(** Two answers of the Gaia archive: one source each, of magnitude 10
    and of magnitude 1. *)
Definition answer_a : table := [("phot_g_mean_mag", Plain [f10])].
Definition answer_b : table := [("phot_g_mean_mag", Plain [f1])].

Definition answering (gaia : table) (vizier : list table) : network :=
  {| sesame := fun _ => Some ngc188_center;
     gaia_cone_search := fun _ _ => Some gaia;
     gaia_query_object := fun _ _ => Some gaia;
     vizier_query_region := fun _ _ _ => Some vizier;
     dss_search := fun _ => Some "cached.fits" |}.



(** A kernel in which the cluster centre is bound, in a directory
    without catalog files. *)
Definition bare : state :=
  {| namespace := {["ngc188_center" := VCoord ngc188_center;
                   "ngc188_center_3d" := VCoord ngc188_center]};
     files := ∅ |}.

(** A kernel in which [test_coord_1] is bound as in cell 18 of
    notebook 3. *)
Definition after_cell_18 : state :=
  {| namespace := {["test_coord_1" := VCoord with_proper_motion]}; files := ∅ |}.

(** A full row of the Gaia columns, all with the same number. *)
Definition gaia_row (x : float) : table := map (fun n => (n, Plain [x])) cols.


Definition identity_frame_math (_ : frame) (c : SkyCoord) : SkyCoord := c.

(** Stand-ins for the numerical work of the library. *)
Definition parallax_to_pc (p : float) : float := div f1000 p.
Definition separation_pc (_ _ : point) : float := f10.
Definition space_motion (_ : option epoch) (_ : epoch) (p : point) : point := p.
Definition nearest (_ : point) (_ : list point) : nat := 0.
Definition separation_sky (_ _ : point) : float := zero.

(** Three Gaia sources: the first with the cluster's proper motion and
    no radial velocity, the second with too small a parallax, the
    third without proper motion. *)
Definition gaia_sample : table :=
  [ ("source_id", Plain [f1; f2; f10]);
    ("ra", Plain [f12_11; f10; f20]);
    ("dec", Plain [f85_26; f20; f10]);
    ("parallax", Masked [(f0_5, false); (f0_25, false); (f1, false)]);
    ("parallax_error", Masked [(f0_25, false); (f0_25, false); (f0_25, false)]);
    ("pmra", Masked [(fm2_3087, false); (f1, false); (nan, true)]);
    ("pmdec", Plain [fm0_9565; f2; nan]);
    ("radial_velocity", Masked [(nan, true); (f100, false); (f100, false)]);
    ("phot_g_mean_mag", Plain [f10; f19; f10]);
    ("phot_bp_mean_mag", Plain [f10; f19; f10]);
    ("phot_rp_mean_mag", Plain [f10; f19; f10]) ].

Definition tmass_sample : table :=
  [ ("RAJ2000", Plain [f12_11; f10]);
    ("DEJ2000", Plain [f85_26; f20]);
    ("Jmag", Plain [f10; f19]) ].

(** A source with negative parallax and negative parallax error: its
    signal-to-noise ratio is 11. *)
Definition negative_snr_table : table :=
  [ ("ra", Plain [f10]); ("dec", Plain [f20]);
    ("parallax", Masked [(fm11, false)]);
    ("parallax_error", Plain [fm1]) ].

(** A one-source answer for HD 219829 with a negative parallax. *)
Definition negative_parallax_table : table :=
  [ ("source_id", Plain [f1]);
    ("ra", Plain [f10]); ("dec", Plain [f20]); ("parallax", Plain [fm11]);
    ("pmra", Plain [f1]); ("pmdec", Plain [f2]); ("ref_epoch", Plain [f2]);
    ("phot_g_mean_mag", Plain [f10]) ].

End Samples.

(** ** Names: what a cell binds and what it reads *)

Module Scopes.
Import Py.
Local Open Scope list_scope.

(** The names an assignment target binds: a name, or the names of a
  tuple or list of targets; an attribute or subscript target
  ([obj.a = ...], [d[k] = ...]) binds none. *)
Fixpoint target_names (e : expr) : list string :=
match e with
| EName x => [x]
| ETuple es | EList es => flat_map target_names es
| _ => []
end.

Definition without (bound names : list string) : list string :=
List.filter (fun x => negb (existsb (String.eqb x) bound)) names.

(** The names an expression reads; the variable of a comprehension is
  its own. *)
Fixpoint reads (e : expr) : list string :=
match e with
| EName x => [x]
| ENum _ | EStr _ | EBool _ => []
| EJoinedStr vs => flat_map reads vs
| EFormattedValue v _ => reads v
| EAttribute v _ => reads v
| ESubscript v s => reads v ++ reads s
| ESlice lo hi =>
    match lo with Some a => reads a | None => [] end ++
    match hi with Some a => reads a | None => [] end
| ECall f args kws =>
    reads f ++ flat_map reads args ++ flat_map (fun kw => reads (snd kw)) kws
| EBinOp l _ r => reads l ++ reads r
| EUnaryOp _ a => reads a
| EBoolOp _ vs => flat_map reads vs
| ECompare l _ r => reads l ++ reads r
| ETuple es | EList es => flat_map reads es
| EDict ks vs => flat_map reads ks ++ flat_map reads vs
| EListComp elt tgt it ifs =>
    reads it ++ without (target_names tgt) (reads elt ++ flat_map reads ifs)
end.

(** The names an assignment target reads ([velocity_data] and [k] in
  [velocity_data[k] = ...]). *)
Fixpoint target_reads (e : expr) : list string :=
match e with
| EName _ => []
| ETuple es | EList es => flat_map target_reads es
| other => reads other
end.

(** [import a.b] binds [a]. *)
Fixpoint top_package (s : string) : string :=
match s with
| EmptyString => EmptyString
| String c s' =>
    if String.eqb (String c EmptyString) "." then EmptyString
    else String c (top_package s')
end.

Definition import_binds (names : list (string * option string)) : list string :=
map (fun na => match snd na with Some a => a | None => top_package (fst na) end) names.

Definition from_import_binds (names : list (string * option string)) : list string :=
map (fun na => match snd na with Some a => a | None => fst na end) names.

(** One statement run in a scope where the names [env] are bound: the
  names it reads that are not bound at that point, and the names
  bound after it.  A function body is looked at where the function is
  defined, with its parameters bound; what only a branch, a loop body
  or a function body binds does not count as bound afterwards. *)
Fixpoint scan (s : stmt) (env : list string) : list string * list string :=
let block :=
  fix block (b : list stmt) (env : list string) : list string * list string :=
    match b with
    | [] => ([], env)
    | s' :: b' =>
        let r := scan s' env in
        let r' := block b' (snd r) in
        (fst r ++ fst r', snd r')
    end in
match s with
| SImport names => ([], import_binds names ++ env)
| SImportFrom _ names => ([], from_import_binds names ++ env)
| SMagic _ => ([], env)
| SExpr v | SReturn v | SRaise v => (without env (reads v), env)
| SAssign ts v =>
    (without env (reads v ++ flat_map target_reads ts), flat_map target_names ts ++ env)
| SFunctionDef f args body => (fst (block body (args ++ f :: env)), f :: env)
| SClassDef c body => (fst (block body env), c :: env)
| SFor t it body =>
    (without env (reads it) ++ fst (block body (target_names t ++ env)), env)
| SWhile t body => (without env (reads t) ++ fst (block body env), env)
| SIf t b o => (without env (reads t) ++ fst (block b env) ++ fst (block o env), env)
| SWith items body =>
    let r := block body env in (without env (flat_map reads items) ++ fst r, snd r)
| STry b hs f =>
    (fst (block b env) ++ flat_map (fun h => fst (block h env)) hs ++ fst (block f env),
     env)
end.

(** The cells of a notebook run from top to bottom in a fresh kernel
  that knows the names [builtins]: for each cell, the names it reads
  before anything has bound them. *)
Fixpoint unbound_reads (env : list string) (nb : notebook) : list (nat * list string) :=
match nb with
| [] => []
| c :: nb' =>
    let r := fold_left (fun acc s => let r := scan s (snd acc) in
                                     (fst acc ++ fst r, snd r))
                       (source c) ([], env) in
    match fst r with
    | [] => unbound_reads (snd r) nb'
    | names => (index c, names) :: unbound_reads (snd r) nb'
    end
end.

(** The builtin names the notebooks use. *)
Definition builtins : list string :=
["len"; "print"; "dir"; "type"; "dict"; "hasattr"; "UserWarning"].

(** The notebook without the cells at the given positions. *)
Definition skip (cells : list nat) (nb : notebook) : notebook :=
List.filter (fun c => negb (existsb (Nat.eqb (index c)) cells)) nb.

(** The definition of a function, wherever it stands in the notebook. *)
Definition find_def (f : string) (nb : notebook) : option stmt :=
List.find (fun s => match s with SFunctionDef g _ _ => String.eqb f g | _ => false end)
          (stmts nb).

(** The names a function reads from outside itself. *)
Definition free_names (f : string) (nb : notebook) : list string :=
match find_def f nb with
| Some s => nodup string_dec (fst (scan s []))
| None => []
end.

(** The parameters a function reads. *)
Definition used_parameters (f : string) (nb : notebook) : list string :=
match find_def f nb with
| Some (SFunctionDef _ args body) =>
    List.filter (fun a => existsb (fun e => match e with
                                            | EName x => String.eqb a x
                                            | _ => false
                                            end)
                                  (flat_map stmt_exprs (flat_map substmts body)))
                args
| _ => []
end.

End Scopes.

(** ** More cells, embedded *)

Module MoreCells.
Import Python Numpy Astropy Kernel Cells.

(** The place of a number that is not a NaN in the order of binary64
  numbers: its class, then exponent and mantissa. *)
Definition rank (x : float) : Z * Z * Z :=
match x with
| S754_infinity true => (-2, 0, 0)
| S754_finite true m e => (-1, - e, - Z.pos m)
| S754_zero _ | S754_nan => (0, 0, 0)
| S754_finite false m e => (1, e, Z.pos m)
| S754_infinity false => (2, 0, 0)
end%Z.

Definition lexlt (p q : Z * Z * Z) : Prop :=
(fst (fst p) < fst (fst q)
 \/ (fst (fst p) = fst (fst q)
     /\ (snd (fst p) < snd (fst q)
         \/ (snd (fst p) = snd (fst q) /\ snd p < snd q))))%Z.

(** *** Notebook 1 (introduction, src/unnamed/part_001) *)




(** *** Notebook 2 (Coordinates-Transforms) *)

(** [s.startswith(p)] *)
Definition startswith (s p : string) : bool := String.prefix p s.

(** [s.endswith(p)]: [p] is [s] or the end of [s] after some of its
  characters. *)
Fixpoint endswith (s p : string) : bool :=
String.eqb s p
|| match s with
   | EmptyString => false
   | String _ s' => endswith s' p
   end.

(** Cell 10: [[x for x in dir(coord) if x.endswith("Representation")
  and not x.startswith("Base")]], as a function of the names that
  [dir(coord)] lists. *)
Definition representation_names (dir_coord : list string) : list string :=
List.filter (fun x => endswith x "Representation" && negb (startswith x "Base"))
            dir_coord.

(** *** Notebook 3 (velocities, src/unnamed/part_000) *)

(** Cell 25, first statement:
  [hd219829_row = gaia_tbl[gaia_tbl["phot_g_mean_mag"].argmin()]] *)
Definition hd219829_row (gaia_tbl : table) : result table :=
let* mag := getitem gaia_tbl "phot_g_mean_mag" in
let* i := argmin mag in
row gaia_tbl i.

(** Cell 25, second statement: [hd219829_row["source_id", "pmra", "pmdec"]],
  the three values the cell shows. *)
Definition show_hd219829_row (hd219829_row : table) : result table :=
select hd219829_row ["source_id"; "pmra"; "pmdec"].

(** Cell 36: [hd219829_coord_1950 =
  hd219829_coord.apply_space_motion(new_obstime=Time("J1950"))]
  (inside [with warnings.catch_warnings()]) *)
Definition hd219829_coord_1950 (space_motion : option epoch -> epoch -> point -> point)
  (c : SkyCoord) : result SkyCoord :=
apply_space_motion space_motion c (Epoch "J1950").

(** The columns the assignments of cells 25 and 27 read; the second
  statement of cell 25 reads [source_id] besides. *)
Definition hd219829_columns : list string :=
["phot_g_mean_mag"; "ra"; "dec"; "parallax"; "pmra"; "pmdec"; "ref_epoch"].

(** Two sources near HD 219829: the star, of magnitude 1, and a
  fainter one. *)
Definition hd219829_sample : table :=
[ ("source_id", Plain [f1; f2]);
  ("phot_g_mean_mag", Plain [f10; f1]);
  ("ra", Plain [f10; f20]); ("dec", Plain [f20; f10]);
  ("parallax", Plain [f1; f50]);
  ("pmra", Plain [f1; f100]); ("pmdec", Plain [f2; fm11]);
  ("ref_epoch", Plain [f1960; f1960]) ].

(** *** Notebook 4 (Coordinates-Crossmatch) *)

(** [len(t)]: the number of rows. *)
Definition len (t : table) : nat :=
match t with
| [] => 0
| (_, c) :: _ => size c
end.

(** Cell 25: [(sep2d_gaia < 2 * u.arcsec).sum(), len(ngc188_members)],
  the separations being in arcsec: the two numbers shown. *)
Definition close_matches (x : crossmatch) (s : selection) : nat * nat :=
(length (List.filter (fun d => lt d f2) (sep2d_gaia x)), len (ngc188_members s)).

(** Cell 28: the colours on the horizontal axes, [Gmag - Jmag] and
  [Bmag - Gmag]. *)
Definition colours (x : crossmatch) : result (array float * array float) :=
let* g_j := amap2 sub (Gmag x) (Jmag x) in
let* bp_g := amap2 sub (Bmag x) (Gmag x) in
Ok (g_j, bp_g).

(** The stored number of a column at a row, if the table has both. *)
Definition entry (t : table) (name : string) (i : nat) : option float :=
match getitem t name with
| Ok c => nth_error (data c) i
| Raise _ => None
end.

End MoreCells.

(** * Properties *)

Import Py Notebooks Authored.
Import Python Numpy Astropy Kernel Cells.

(** ** Structure of the notebooks *)

(** C3, as stated, fails: the transforms notebook defines a function and
    the cross-match notebook has a loop and branches, so these two
    notebooks are not straight-line. *)
Lemma C3_not_straight_line :
  ~ (forall nb, In nb all_notebooks -> straight_line nb = true)
  /\ straight_line Coordinates_Transforms = false
  /\ straight_line Coordinates_Crossmatch = false.
Proof.
  split; [|split; vm_compute; reflexivity].
  intros H.
  assert (Hin : In Coordinates_Transforms all_notebooks) by (simpl; auto).
  apply H in Hin. vm_compute in Hin. discriminate.
Qed.

(** C3, amended: no notebook defines a class or has a [try] statement
    or a [while] loop, and notebooks 1 and 3 are straight-line.
    Notebook 2 defines one function, [coordinates_aitoff_plot] (cell 31),
    with one function nested in it, [fmt_func]; cells 33 and 45 call the
    outer one; its one comprehension is in cell 10.  Notebook 4 has, all
    in cell 4, one loop, which is [for k, v in velocity_data.items()],
    and two branches, both [if hasattr(x, "mask")] without an [else].
    The three [with] statements of notebooks 3 and 4 are
    [with warnings.catch_warnings()] blocks that silence [UserWarning].
    Every definition, loop, branch and [with] of the notebooks is one of
    these. *)
Theorem C3_authored_structure :
  straight_line Coordinates_Intro = true
  /\ straight_line Coordinates_Velocities = true
  /\ map (cells_with_stmt is_class_def) all_notebooks = [[]; []; []; []]
  /\ map (cells_with_stmt is_try) all_notebooks = [[]; []; []; []]
  /\ map (cells_with_stmt is_while) all_notebooks = [[]; []; []; []]
  /\ map defined_functions all_notebooks
     = [[]; ["coordinates_aitoff_plot"; "fmt_func"]; []; []]
  /\ map (cells_with_stmt is_function_def) all_notebooks = [[]; [31]; []; []]
  /\ map top_level_functions all_notebooks
     = [[]; ["coordinates_aitoff_plot"]; []; []]
  /\ map nested_functions all_notebooks
     = [[]; [("coordinates_aitoff_plot", "fmt_func")]; []; []]
  /\ map (cells_with_expr (calls "coordinates_aitoff_plot")) all_notebooks
     = [[]; [33; 45]; []; []]
  /\ map (cells_with_expr is_comprehension) all_notebooks = [[]; [10]; []; []]
  /\ map (fun nb => length (List.filter is_comprehension (exprs nb))) all_notebooks
     = [0; 1; 0; 0]
  /\ map (cells_with_stmt is_with) all_notebooks = [[]; []; [23; 36]; [9]]
  /\ map (fun nb => length (List.filter is_with (stmts nb))) all_notebooks = [0; 0; 2; 1]
  /\ forallb (fun s => implb (is_with s) (is_catch_warnings s))
             (flat_map stmts all_notebooks) = true
  /\ map (cells_with_stmt is_loop) all_notebooks = [[]; []; []; [4]]
  /\ map (cells_with_stmt is_for) all_notebooks = [[]; []; []; [4]]
  /\ map (fun nb => length (List.filter is_loop (stmts nb))) all_notebooks = [0; 0; 0; 1]
  /\ forallb (fun s => implb (is_loop s) (is_velocity_data_loop s))
             (flat_map stmts all_notebooks) = true
  /\ map (cells_with_stmt is_branch) all_notebooks = [[]; []; []; [4]]
  /\ map (fun nb => length (List.filter is_branch (stmts nb))) all_notebooks
     = [0; 0; 0; 2]
  /\ forallb (fun s => implb (is_branch s) (is_hasattr_mask_branch s))
             (flat_map stmts all_notebooks) = true.
Proof. repeat split; vm_compute; reflexivity. Qed.

(** ** Arithmetic of the notebooks' own *)

(** C4, as stated, fails: the cross-match notebook computes the
    proper-motion distance [pm_diff] with its own arithmetic and compares
    it in the mask that selects the members. *)
Lemma C4_own_arithmetic :
  ~ (forall nb, In nb all_notebooks -> delegates_arithmetic nb = true)
  /\ In "pm_diff" (computed_variables Coordinates_Crossmatch)
  /\ In "ngc188_members_mask" (compared_from_own_arithmetic Coordinates_Crossmatch).
Proof.
  split.
  - intros H.
    assert (Hin : In Coordinates_Crossmatch all_notebooks) by (simpl; auto).
    apply H in Hin. vm_compute in Hin. discriminate.
  - split; vm_compute; auto.
Qed.

(** C4, amended: frame transformation, parallax-to-distance conversion,
    the nearest-neighbour cross-match and space-motion propagation are
    calls into the library ([transform_to], [Distance(parallax=...)],
    [match_to_catalog_sky], [apply_space_motion]) in the listed cells;
    the notebooks' own arithmetic is confined to cells 48 (notebook 1),
    31 and 54 (notebook 2) and 4 and 28 (notebook 4); of the variables
    it computes, [parallax_snr] and [pm_diff] are compared and the
    comparisons select [ngc188_table_3d] and [ngc188_members_mask]. *)
Theorem C4_delegation_inventory :
  map (cells_with_expr (calls "transform_to")) all_notebooks
  = [[]; [35; 58; 64; 69; 71]; [13; 18; 20]; []]
  /\ map (cells_with_expr (fun e => calls "Distance" e && has_keyword "parallax" e))
         all_notebooks = [[50; 52]; []; [27]; [4]]
  /\ map (cells_with_expr (calls "match_to_catalog_sky")) all_notebooks
     = [[]; []; []; [21]]
  /\ map (cells_with_expr (calls "apply_space_motion")) all_notebooks
     = [[]; []; [36]; [19]]
  /\ map (cells_with_expr is_arithmetic) all_notebooks = [[48]; [31; 54]; []; [4; 28]]
  /\ map computed_variables all_notebooks
     = [["parallax_snr"]; ["cs"; "val"; "time_grid"]; []; ["pm_diff"]]
  /\ map compared_from_own_arithmetic all_notebooks
     = [["ngc188_table_3d"]; []; []; ["ngc188_members_mask"]].
Proof. repeat split; vm_compute; reflexivity. Qed.

(** ** Network access *)

(** C6, as stated, fails: cells reach the network through calls other
    than the archive query clients. *)
Lemma C6_other_remote_access :
  ~ (forall nb, In nb all_notebooks -> remote_only_through_archives nb = true).
Proof.
  intros H.
  assert (Hin : In Coordinates_Velocities all_notebooks) by (simpl; auto).
  apply H in Hin. vm_compute in Hin. discriminate.
Qed.

(** C6, amended: the notebooks import two archive query clients (Gaia,
    VizieR); the archive queries are in cell 28 of notebook 1 (with the
    [get_results] of its job) and cell 22 of notebook 3 (Gaia) and in
    cell 7 of notebook 4 (VizieR); besides them the notebooks reach the
    network through [SkyCoord.from_name] (cells 13 and 40 of notebook 1,
    cell 22 of notebook 3), [download_file] (cell 29 of notebook 3),
    [EarthLocation.of_address] (cell 50 of notebook 2) and
    [EarthLocation.of_site] (cell 52 of notebook 2); every other call
    written in the notebooks goes to one of the names of [local_calls],
    which address no remote service; the catalog snapshots read are the
    four listed files. *)
Theorem C6_network_inventory :
  map (cells_with_expr (is_call_to archive_queries)) all_notebooks
  = [[28]; []; [22]; [7]]
  /\ map (cells_with_expr (is_call_to archive_results)) all_notebooks
     = [[28]; []; []; []]
  /\ map (cells_with_expr (calls "from_name")) all_notebooks = [[13; 40]; []; [22]; []]
  /\ map (cells_with_expr (calls "download_file")) all_notebooks = [[]; []; [29]; []]
  /\ map (cells_with_expr (calls "of_address")) all_notebooks = [[]; [50]; []; []]
  /\ map (cells_with_expr (calls "of_site")) all_notebooks = [[]; [52]; []; []]
  /\ map (cells_with_expr is_remote) all_notebooks
     = [[13; 28; 40]; [50; 52]; [22; 29]; [7]]
  /\ map unclassified_calls all_notebooks = [[]; []; []; []]
  /\ List.filter (fun f => existsb (String.eqb f)
                             (archive_queries ++ archive_results ++ other_remote_calls)%list)
                 local_calls = []
  /\ List.filter (fun f => negb (existsb (String.eqb f) (flat_map called_names all_notebooks)))
                 (archive_queries ++ archive_results ++ other_remote_calls
                  ++ local_calls)%list = []
  /\ map query_clients all_notebooks
     = [["astroquery.gaia"]; []; ["astroquery.gaia"]; ["astroquery.vizier"]]
  /\ map remote_only_through_archives all_notebooks = [false; false; false; true]
  /\ map snapshot_reads all_notebooks
     = [["gaia_results.fits"]; ["Cantat-Gaudin-open-clusters.ecsv"];
        ["HD_219829_query_results.ecsv"]; ["gaia_results.fits"; "2MASS_results.ecsv"]].
Proof. repeat split; vm_compute; reflexivity. Qed.

(** ** Frame conversions that lack information *)

Lemma lacks_information_no_distance c :
  distance c = None -> lacks_information c Galactocentric = true.
Proof. intros H. unfold lacks_information. rewrite H. reflexivity. Qed.

Lemma show_transform_Raise frame_math name target c net st :
  namespace st !! name = Some (VCoord c) ->
  lacks_information c target = true ->
  show_transform frame_math name target net st = (st, Raise ConvertError).
Proof.
  intros Hname Hlack.
  unfold show_transform, bindM, load, lift, as_coord, transform_to.
  rewrite Hname. cbn. rewrite Hlack. reflexivity.
Qed.

Lemma show_transform_Ok frame_math name target c net st :
  namespace st !! name = Some (VCoord c) ->
  lacks_information c target = false ->
  exists c', show_transform frame_math name target net st = (st, Ok c')
             /\ frame_of c' = target.
Proof.
  intros Hname Hlack.
  unfold show_transform, bindM, load, lift, as_coord, transform_to.
  rewrite Hname. cbn. rewrite Hlack. eexists. split; reflexivity.
Qed.

Lemma load_after_store x v net st :
  load x net (fst (store x v net st)) = (fst (store x v net st), Ok v).
Proof. unfold load, store. cbn. rewrite lookup_insert_eq. reflexivity. Qed.

(** C1: a coordinate built without distance and without radial velocity
    (position only, or position and proper motion) cannot be converted
    to [Galactocentric]: the call raises [ConvertError], the cell that
    makes the call ends with that exception (cell 18 of notebook 3, cell
    71 of notebook 2, and any cell of that form), and no notebook
    contains a [try] statement: both cells call [transform_to] in a
    plain expression statement and are tagged as raising. *)
Theorem C1_convert_error_surfaces
    (frame_math : frame -> SkyCoord -> SkyCoord) (net : network) (st : state)
    (name : string) (c : SkyCoord) :
  distance c = None ->
  radial_velocity c = None ->
  namespace st !! name = Some (VCoord c) ->
  transform_to frame_math c Galactocentric = Raise ConvertError
  /\ show_transform frame_math name Galactocentric net st = (st, Raise ConvertError)
  /\ snd (run [cell (show_transform frame_math name Galactocentric)] net st)
     = [ConvertError]
  /\ snd (test_coord_1_cell frame_math net st) = Raise ConvertError
  /\ snd (bindM (icrs_to_fk5 frame_math) (fun _ => icrs_to_galactocentric frame_math) net st)
     = Raise ConvertError
  /\ map (cells_with_stmt is_try) all_notebooks = [[]; []; []; []]
  /\ map (cells_with_stmt
            (fun s => match s with
                      | SExpr (ECall (EAttribute _ "transform_to")
                                 [ECall (EAttribute _ "Galactocentric") [] []] []) => true
                      | _ => false
                      end)) all_notebooks = [[]; [71]; [18; 20]; []]
  /\ map (fun nb => map index
                      (List.filter (fun c => existsb (String.eqb "raises-exception") (tags c))
                                   nb)) all_notebooks = [[]; [50; 71]; [18]; []].
Proof.
  intros Hd Hrv Hname.
  pose proof (lacks_information_no_distance c Hd) as Hlack.
  pose proof (show_transform_Raise frame_math name Galactocentric c net st Hname Hlack) as Hshow.
  split; [unfold transform_to; rewrite Hlack; reflexivity|].
  split; [exact Hshow|].
  split; [unfold cell, bindM; cbn; rewrite Hshow; reflexivity|].
  split.
  { unfold test_coord_1_cell, bindM. cbn.
    erewrite show_transform_Raise; [reflexivity| |].
    - cbn. apply lookup_insert_eq.
    - reflexivity. }
  split.
  { unfold icrs_to_fk5, icrs_to_galactocentric, bindM. cbn.
    destruct (show_transform_Ok frame_math "icrs_c" FK5
                {| frame_of := ICRS; lon := [f150_4]; lat := [fm11]; distance := None;
                   proper_motion := None; radial_velocity := None; obstime := None |}
                net
                {| namespace := <["icrs_c" := VCoord
                       {| frame_of := ICRS; lon := [f150_4]; lat := [fm11];
                          distance := None; proper_motion := None;
                          radial_velocity := None; obstime := None |}]> (namespace st);
                   files := files st |}) as (c' & Hc' & _).
    - cbn. apply lookup_insert_eq.
    - reflexivity.
    - rewrite Hc'. erewrite show_transform_Raise; [reflexivity| |].
      + cbn. apply lookup_insert_eq.
      + reflexivity. }
  repeat split; vm_compute; reflexivity.
Qed.

Lemma open_clusters_run frame_math net st tbl ra dec dist :
  files st !! "Cantat-Gaudin-open-clusters.ecsv" = Some tbl ->
  getitem tbl "ra" = Ok ra -> getitem tbl "dec" = Ok dec ->
  getitem tbl "distance" = Ok dist ->
  size dec = size ra -> size dist = size ra ->
  exists g,
    run [read_open_clusters; make_open_cluster_c; transform_open_clusters frame_math]
        net st
    = ({| namespace :=
            <["open_cluster_gal" := VCoord g]>
              (<["open_cluster_c" :=
                   VCoord {| frame_of := ICRS; lon := data ra; lat := data dec;
                             distance := Some (data dist); proper_motion := None;
                             radial_velocity := None; obstime := None |}]>
                 (<["tbl" := VTable tbl]> (namespace st)));
          files := files st |}, [])
    /\ frame_of g = Galactic.
Proof.
  intros Hfile Hra Hdec Hdist Hsd Hsdist.
  unfold run, read_open_clusters, make_open_cluster_c, transform_open_clusters,
    assign_transform, bindM, QTable_read, load, lift, store, as_table, as_coord.
  assert (Hnew : SkyCoord_new ICRS (data ra) (data dec) (Some (data dist)) None None None
                 = Ok {| frame_of := ICRS; lon := data ra; lat := data dec;
                         distance := Some (data dist); proper_motion := None;
                         radial_velocity := None; obstime := None |}).
  { unfold SkyCoord_new, size in *. cbn. rewrite Hsd, Hsdist, !Nat.eqb_refl.
    reflexivity. }
  rewrite Hfile. cbn -[SkyCoord_new]. rewrite lookup_insert_eq. cbn -[SkyCoord_new].
  rewrite Hra, Hdec, Hdist. cbn -[SkyCoord_new]. rewrite Hnew. cbn.
  rewrite lookup_insert_eq. cbn. eexists. split; reflexivity.
Qed.

(** C2: conversions fail only for lack of information.  A coordinate
    with distance, proper motion and radial velocity converts to
    [Galactocentric]; any coordinate, in particular a position alone,
    converts to [FK5] and to [Galactic]; every failure is a
    [ConvertError] of a conversion that shifts the origin and misses the
    distance or part of the velocity; cells 20 (notebook 3) and 69
    (notebook 2) succeed, and so does cell 35 of notebook 2 on any
    coordinate bound to [open_cluster_c], in particular on the one
    cells 25 and 27 build from the shipped catalogue. *)
Theorem C2_conversion_succeeds_with_information
    (frame_math : frame -> SkyCoord -> SkyCoord) (net : network) (st : state)
    (c : SkyCoord) (d rv : list float) (pm : list float * list float) :
  distance c = Some d ->
  proper_motion c = Some pm ->
  radial_velocity c = Some rv ->
  (exists c', transform_to frame_math c Galactocentric = Ok c'
              /\ frame_of c' = Galactocentric)
  /\ (forall p target, target = FK5 \/ target = Galactic ->
        exists p', transform_to frame_math p target = Ok p' /\ frame_of p' = target)
  /\ (forall p target e, transform_to frame_math p target = Raise e ->
        e = ConvertError /\ shifts_origin target = true
        /\ (distance p = None
            \/ (proper_motion p = None /\ radial_velocity p <> None)
            \/ (proper_motion p <> None /\ radial_velocity p = None)))
  /\ (exists c', snd (test_coord_2_cell frame_math net st) = Ok c'
                 /\ frame_of c' = Galactocentric)
  /\ (exists c', snd (icrs_to_fk5 frame_math net st) = Ok c' /\ frame_of c' = FK5)
  /\ (forall oc, namespace st !! "open_cluster_c" = Some (VCoord oc) ->
        exists g, transform_open_clusters frame_math net st
                  = ({| namespace := <["open_cluster_gal" := VCoord g]> (namespace st);
                        files := files st |}, Ok tt)
                  /\ frame_of g = Galactic)
  /\ (forall tbl ra dec dist,
        files st !! "Cantat-Gaudin-open-clusters.ecsv" = Some tbl ->
        getitem tbl "ra" = Ok ra -> getitem tbl "dec" = Ok dec ->
        getitem tbl "distance" = Ok dist ->
        size dec = size ra -> size dist = size ra ->
        exists g,
          namespace
            (fst (run [read_open_clusters; make_open_cluster_c;
                       transform_open_clusters frame_math] net st))
            !! "open_cluster_gal" = Some (VCoord g)
          /\ frame_of g = Galactic
          /\ snd (run [read_open_clusters; make_open_cluster_c;
                       transform_open_clusters frame_math] net st) = []).
Proof.
  intros Hd Hpm Hrv.
  split.
  { unfold transform_to, lacks_information, has_velocity, full_velocity.
    rewrite Hd, Hpm, Hrv. cbn. eexists. split; reflexivity. }
  split.
  { intros p target [-> | ->]; unfold transform_to; cbn; eexists; split; reflexivity. }
  split.
  { intros p target e. unfold transform_to.
    destruct (lacks_information p target) eqn:Hlack; [|discriminate].
    intros [= <-]. split; [reflexivity|].
    unfold lacks_information, has_velocity, full_velocity in Hlack.
    apply andb_true_iff in Hlack as [Hshift Hmiss]. split; [exact Hshift|].
    destruct (distance p); [|left; reflexivity]. right.
    destruct (proper_motion p), (radial_velocity p); cbn in Hmiss; try discriminate.
    - right. split; [discriminate | reflexivity].
    - left. split; [reflexivity | discriminate]. }
  split.
  { unfold test_coord_2_cell, bindM. cbn.
    edestruct show_transform_Ok as (c' & Hc' & Hf); [| |rewrite Hc'; eauto].
    - cbn. apply lookup_insert_eq.
    - reflexivity. }
  split.
  { unfold icrs_to_fk5, bindM. cbn.
    edestruct show_transform_Ok as (c' & Hc' & Hf); [| |rewrite Hc'; eauto].
    - cbn. apply lookup_insert_eq.
    - reflexivity. }
  split.
  { intros oc Hoc.
    unfold transform_open_clusters, assign_transform, bindM, load, lift, store, as_coord,
      transform_to.
    rewrite Hoc. cbn. eexists. split; reflexivity. }
  intros tbl ra dec dist Hfile Hra Hdec Hdist Hsd Hsdist.
  destruct (open_clusters_run frame_math net st tbl ra dec dist
              Hfile Hra Hdec Hdist Hsd Hsdist) as (g & Hrun & Hg).
  exists g. rewrite Hrun. cbn. split; [apply lookup_insert_eq | split; [exact Hg | reflexivity]].
Qed.

(** ** Remote queries and their local snapshots *)






Lemma query_gaia_online net st c response mag bright :
  namespace st !! "ngc188_center" = Some (VCoord c) ->
  gaia_cone_search net c (f0_5, "deg") = Some response ->
  getitem response "phot_g_mean_mag" = Ok mag ->
  rows response (amap (fun x => lt x f19) mag) = Ok bright ->
  fst (query_gaia net st)
  = {| namespace := <["ngc188_table" := VTable bright]>
                      (<["job" := VJob response]> (namespace st));
       files := files st |}.
Proof.
  intros Hc Hq Hmag Hrows.
  unfold query_gaia, bindM, load, lift, remote, store.
  rewrite Hc. cbn. rewrite Hq. cbn. rewrite Hmag. cbn. rewrite Hrows. cbn.
  rewrite insert_insert_eq. reflexivity.
Qed.




Lemma select_getitem (t t' : table) (names : list string) (n : string) :
  select t names = Ok t' -> In n names -> getitem t' n = getitem t n.
Proof.
  unfold select. revert t'.
  induction names as [|n0 names IH]; intros t' Hsel Hin; [destruct Hin|].
  cbn in Hsel.
  destruct (getitem t n0) as [c0|] eqn:Hc0; cbn in Hsel; [|discriminate].
  match type of Hsel with
  | bind ?r _ = _ => destruct r as [rest|] eqn:Hrest; cbn in Hsel; [|discriminate]
  end.
  injection Hsel as <-. cbn.
  destruct (String.eqb n0 n) eqn:Hn.
  - apply String.eqb_eq in Hn. subst n0. symmetry. exact Hc0.
  - destruct Hin as [-> | Hin]; [rewrite String.eqb_refl in Hn; discriminate|].
    apply (IH rest); [reflexivity | exact Hin].
Qed.



Lemma run_nil_fst net st : fst (run [] net st) = st.
Proof. reflexivity. Qed.







Lemma query_2mass_result net st c t ts :
  namespace st !! "ngc188_center_3d" = Some (VCoord c) ->
  vizier_query_region net "II/246" c (f0_5, "deg") = Some (t :: ts) ->
  namespace (fst (query_2mass net st)) !! "tmass_table" = Some (VTable t).
Proof.
  intros Hc Hq.
  unfold query_2mass, bindM, load, lift, remote, store. cbn.
  rewrite !lookup_insert_ne by discriminate. rewrite Hc. cbn. rewrite Hq. cbn.
  apply lookup_insert_eq.
Qed.



(** ** Dependence on the network *)

Lemma query_gaia_result gaia vizier st c mag bright :
  namespace st !! "ngc188_center" = Some (VCoord c) ->
  getitem gaia "phot_g_mean_mag" = Ok mag ->
  rows gaia (amap (fun x => lt x f19) mag) = Ok bright ->
  namespace (fst (query_gaia (Samples.answering gaia vizier) st)) !! "ngc188_table"
  = Some (VTable bright).
Proof.
  intros Hc Hmag Hrows.
  rewrite (query_gaia_online _ st c gaia mag bright) by (assumption || reflexivity).
  cbn. apply lookup_insert_eq.
Qed.

(** C7: what the archive-query cells bind depends on what the remote
    service answers: from one kernel state and one working directory,
    cell 28 of notebook 1 and cell 7 of notebook 4 bind different tables
    under two different answers, so the table bound is not a function of
    the local files. *)
Theorem C7_results_depend_on_the_network :
  (exists st net1 net2,
      namespace (fst (query_gaia net1 st)) !! "ngc188_table"
      <> namespace (fst (query_gaia net2 st)) !! "ngc188_table")
  /\ (exists st net1 net2,
         namespace (fst (query_2mass net1 st)) !! "tmass_table"
         <> namespace (fst (query_2mass net2 st)) !! "tmass_table")
  /\ ~ (exists f : gmap string table -> option value,
           forall net st,
             namespace (fst (query_gaia net st)) !! "ngc188_table" = f (files st)).
Proof.
  assert (Ha : namespace (fst (query_gaia (Samples.answering Samples.answer_a []) Samples.bare))
               !! "ngc188_table" = Some (VTable Samples.answer_a)).
  { eapply query_gaia_result; reflexivity. }
  assert (Hb : namespace (fst (query_gaia (Samples.answering Samples.answer_b []) Samples.bare))
               !! "ngc188_table" = Some (VTable Samples.answer_b)).
  { eapply query_gaia_result; reflexivity. }
  split.
  { exists Samples.bare, (Samples.answering Samples.answer_a []),
      (Samples.answering Samples.answer_b []).
    rewrite Ha, Hb. discriminate. }
  split.
  { exists Samples.bare, (Samples.answering [] [Samples.answer_a]),
      (Samples.answering [] [Samples.answer_b]).
    erewrite !query_2mass_result by reflexivity. discriminate. }
  intros [f Hf].
  pose proof (Hf (Samples.answering Samples.answer_a []) Samples.bare) as H1.
  pose proof (Hf (Samples.answering Samples.answer_b []) Samples.bare) as H2.
  rewrite Ha in H1. rewrite Hb in H2. rewrite <- H2 in H1. discriminate.
Qed.

(** ** Arrays: sizes and selections *)

Lemma size_amap {A B} (f : A -> B) (a : array A) : size (amap f a) = size a.
Proof.
  destruct a as [d|es]; unfold size; cbn; rewrite ?map_map, !length_map; reflexivity.
Qed.

Lemma data_amap {A B} (f : A -> B) (a : array A) : data (amap f a) = map f (data a).
Proof. destruct a as [d|es]; cbn; [reflexivity|]. rewrite !map_map. reflexivity. Qed.

Lemma map_combine_self {A B} (f : A -> bool) (g : bool -> A -> B) (d : list A) :
  map (fun p : bool * A => g (fst p) (snd p)) (combine (map f d) d)
  = map (fun x => g (f x) x) d.
Proof. induction d as [|x d IH]; cbn; [reflexivity | rewrite IH; reflexivity]. Qed.

Lemma compress_map_self {A} (f : A -> bool) (d : list A) :
  Forall (fun x => f x = true) (compress (map f d) d).
Proof.
  induction d as [|x d IH]; cbn; [constructor|].
  destruct (f x) eqn:Hx; [constructor; assumption | assumption].
Qed.

Lemma compress_Forall {A} (P : A -> Prop) (m : list bool) (d : list A) :
  Forall P d -> Forall P (compress m d).
Proof.
  intros H. revert m. induction H as [|x d Hx _ IH]; intros [|b m]; cbn; try constructor.
  destruct b; [constructor; auto | auto].
Qed.

Lemma compress_map {A B} (f : A -> B) (m : list bool) (d : list A) :
  compress m (map f d) = map f (compress m d).
Proof.
  revert m. induction d as [|x d IH]; intros [|b m]; cbn; try reflexivity.
  destruct b; cbn; rewrite IH; reflexivity.
Qed.

(** The selected entries are the entries at the positions where the
    mask holds, in order. *)
Lemma compress_nonzero_from {A} (k : nat) (m : list bool) (d pre : list A) :
  length pre = k -> length m = length d ->
  Forall2 (fun j x => nth_error (pre ++ d)%list j = Some x) (nonzero_from k m) (compress m d).
Proof.
  revert k m pre. induction d as [|x d IH]; intros k [|b m] pre Hk Hlen;
    cbn in *; try discriminate; try constructor.
  assert (Hnext : Forall2 (fun j y => nth_error (pre ++ x :: d)%list j = Some y)
                          (nonzero_from (S k) m) (compress m d)).
  { replace (pre ++ x :: d)%list with ((pre ++ [x]) ++ d)%list
      by (rewrite <- app_assoc; reflexivity).
    apply IH; [rewrite length_app; cbn; lia | lia]. }
  destruct b; [constructor; [|exact Hnext] | exact Hnext].
  rewrite nth_error_app2 by lia. replace (k - length pre) with 0 by lia. reflexivity.
Qed.

Lemma compress_nonzero {A} (m : list bool) (d : list A) :
  length m = length d ->
  Forall2 (fun j x => nth_error d j = Some x) (nonzero m) (compress m d).
Proof. intros H. exact (compress_nonzero_from 0 m d [] eq_refl H). Qed.

(** ** Missing kinematics in the cross-match notebook *)

(** What the missing-data block makes of one entry. *)
Lemma fill_velocity_eq (v : array float) :
  fill_velocity v
  = Ok (Plain (map (fun e => if snd e || isnan (fst e) then zero else fst e) (entries v))).
Proof.
  unfold fill_velocity. destruct v as [d|es]; cbn [has_mask filled bind];
    unfold setitem_bool; rewrite size_amap, Nat.eqb_refl; cbn [amap data entries].
  - rewrite (map_combine_self isnan (fun b x => if b then zero else x)).
    rewrite map_map. reflexivity.
  - rewrite (map_combine_self isnan (fun b x => if b then zero else x)).
    rewrite map_map. f_equal. f_equal. apply map_ext. intros [x [|]]; reflexivity.
Qed.

Lemma fill_velocity_no_nan v r :
  fill_velocity v = Ok r ->
  has_mask r = false /\ size r = size v /\ Forall (fun x => isnan x = false) (data r).
Proof.
  rewrite fill_velocity_eq. intros [= <-]. split; [reflexivity|]. split.
  - unfold size. cbn. rewrite length_map. destruct v; cbn; rewrite !length_map; reflexivity.
  - cbn. apply Forall_map. apply Forall_forall. intros [x m] _. cbn.
    destruct m; [reflexivity|]. cbn. destruct (isnan x) eqn:Hx; [reflexivity | exact Hx].
Qed.

(** ** Tables: a row selection acts on every column *)

Lemma getitem_bool_data {A} (a a' : array A) (m : array bool) :
  getitem_bool a m = Ok a' ->
  length (data m) = length (data a)
  /\ data a' = compress (data m) (data a)
  /\ entries a' = compress (data m) (entries a)
  /\ has_mask a' = has_mask a.
Proof.
  unfold getitem_bool, size.
  destruct (Nat.eqb_spec (length (data m)) (length (data a))) as [Hlen|]; [|discriminate].
  intros [= <-]. split; [exact Hlen|].
  destruct a as [d|es]; cbn; repeat split; rewrite ?compress_map; reflexivity.
Qed.

Lemma rows_cons (n : string) (c0 : column) (t : table) (m : array bool) :
  rows ((n, c0) :: t) m
  = (let* c := getitem_bool c0 m in let* bs := rows t m in Ok ((n, c) :: bs)).
Proof. unfold rows. cbn. destruct (getitem_bool c0 m); reflexivity. Qed.

Lemma rows_getitem (t t' : table) (m : array bool) (name : string) (c : column) :
  rows t m = Ok t' ->
  getitem t name = Ok c ->
  exists c', getitem t' name = Ok c' /\ getitem_bool c m = Ok c'.
Proof.
  revert t'.
  induction t as [|[n c0] t IH]; intros t' Hrows Hget; [discriminate|].
  rewrite rows_cons in Hrows. cbn in Hget.
  destruct (getitem_bool c0 m) as [c0'|] eqn:Hc0; cbn in Hrows; [|discriminate].
  destruct (rows t m) as [t0|] eqn:Ht; cbn in Hrows; [|discriminate].
  injection Hrows as <-. cbn.
  destruct (String.eqb n name).
  - injection Hget as <-. eauto.
  - apply (IH t0); [reflexivity | exact Hget].
Qed.

Lemma rows_getitem_inv (t t' : table) (m : array bool) (name : string) (c' : column) :
  rows t m = Ok t' ->
  getitem t' name = Ok c' ->
  exists c, getitem t name = Ok c /\ getitem_bool c m = Ok c'.
Proof.
  revert t'.
  induction t as [|[n c0] t IH]; intros t' Hrows Hget.
  - cbn in Hrows. injection Hrows as <-. discriminate.
  - rewrite rows_cons in Hrows.
    destruct (getitem_bool c0 m) as [c0'|] eqn:Hc0; cbn in Hrows; [|discriminate].
    destruct (rows t m) as [t0|] eqn:Ht; cbn in Hrows; [|discriminate].
    injection Hrows as <-. cbn in Hget |- *.
    destruct (String.eqb n name).
    + injection Hget as <-. eauto.
    + apply (IH t0); [reflexivity | exact Hget].
Qed.

Lemma getitem_setitem_other (t : table) (n name : string) (c : column) :
  String.eqb n name = false -> getitem (setitem t n c) name = getitem t name.
Proof.
  intros Hne. induction t as [|[n0 c0] t IH]; cbn.
  - rewrite Hne. reflexivity.
  - destruct (String.eqb n0 n) eqn:Hn0; cbn.
    + apply String.eqb_eq in Hn0. subst n0. rewrite Hne. reflexivity.
    + destruct (String.eqb n0 name); [reflexivity | exact IH].
Qed.

Lemma length_compress_nonzero {A} (m : list bool) (d : list A) :
  length m = length d -> length (compress m d) = length (nonzero m).
Proof. intros H. symmetry. exact (Forall2_length _ _ _ (compress_nonzero m d H)). Qed.

(** ** Numbers: what passes a comparison *)

Lemma gt_quarter_positive (x : float) : gt x f0_25 = true -> positive x = true.
Proof. destruct x as [[|]|[|]| |[|] m e]; cbn; intros H; try discriminate; reflexivity. Qed.

Lemma positive_not_negative (x : float) : positive x = true -> lt x zero = false.
Proof. destruct x as [[|]|[|]| |[|] m e]; cbn; intros H; try discriminate; reflexivity. Qed.

Lemma nan_not_negative (x : float) : isnan x = true -> lt x zero = false.
Proof. destruct x; cbn; intros H; try discriminate; reflexivity. Qed.

Lemma Distance_accepts (f : float -> float) (p : array float) :
  Forall (fun x => lt x zero = false) (data p) ->
  Distance f p = Ok (map f (data p)).
Proof.
  intros H. unfold Distance.
  replace (existsb (fun e : float * bool => negb (snd e) && lt (fst e) zero) (entries p))
    with false; [reflexivity|].
  symmetry. apply not_true_is_false. intros Hex.
  apply existsb_exists in Hex as ([x m] & Hin & Hx). cbn in Hx.
  apply andb_true_iff in Hx as [_ Hx].
  assert (Hd : In x (data p)).
  { destruct p as [d|es]; cbn in *.
    - apply in_map_iff in Hin as (y & [= <- _] & Hy). exact Hy.
    - apply in_map_iff. exists (x, m). auto. }
  rewrite List.Forall_forall in H. rewrite (H x Hd) in Hx. discriminate.
Qed.

(** The result of a binary64 rounding has the sign it was given, unless
    it is a NaN. *)
Lemma binary_round_aux_sign (s : bool) (m e : Z) (l : location) :
  isnan (binary_round_aux prec emax s m e l) = true
  \/ sign_bit (binary_round_aux prec emax s m e l) = s.
Proof.
  unfold binary_round_aux.
  destruct (shr_fexp prec emax m e l) as [mrs' e'].
  destruct (shr_fexp prec emax _ e' loc_Exact) as [mrs'' e''].
  destruct (shr_m mrs'') as [|p|p]; cbn; auto.
  destruct (Z.leb e'' (emax - prec)); cbn; auto.
Qed.

(** A ratio above 10 with a denominator whose sign bit is clear has a
    positive numerator. *)
Lemma snr_positive (p e : float) :
  sign_bit e = false -> isnan e = false -> gt (div p e) f10 = true -> positive p = true.
Proof.
  intros He Hn Hgt.
  assert (Hsign : isnan (div p e) = false /\ sign_bit (div p e) = false
                  /\ positive (div p e) = true).
  { unfold gt, SFltb in Hgt. destruct (div p e) as [[|]|[|]| |[|] m' e']; cbn in *;
      try discriminate; auto. }
  destruct Hsign as (Hnn & Hs & Hpos).
  destruct p as [sp|sp| |sp mp ep], e as [se|se| |se me ee]; cbn in *;
    try discriminate; subst; try (destruct sp; cbn in *; try discriminate; reflexivity).
  unfold div, SFdiv in Hnn, Hs.
  destruct (SFdiv_core_binary prec emax (Z.pos mp) ep (Z.pos me) ee) as [[mz ez] lz].
  destruct (binary_round_aux_sign (xorb sp false) mz ez lz) as [H|H].
  - rewrite H in Hnn. discriminate.
  - rewrite Hs in H. destruct sp; cbn in H; [discriminate | reflexivity].
Qed.

(** A ratio above 10: neither number is a NaN, and the numerator has
    the sign of the denominator, positive when the sign bit of the
    denominator is clear and negative when it is set. *)
Lemma snr_sign (p e : float) :
  gt (div p e) f10 = true ->
  isnan p = false /\ isnan e = false
  /\ (sign_bit e = false -> positive p = true)
  /\ (sign_bit e = true -> lt p zero = true).
Proof.
  intros Hgt.
  assert (Hsign : isnan (div p e) = false /\ sign_bit (div p e) = false).
  { unfold gt, SFltb in Hgt. destruct (div p e) as [[|]|[|]| |[|] m' e']; cbn in *;
      try discriminate; auto. }
  destruct Hsign as (Hnn & Hs).
  destruct p as [sp|sp| |sp mp ep], e as [se|se| |se me ee]; cbn in *;
    try discriminate;
    try (destruct sp, se; cbn in *; try discriminate; repeat split; congruence).
  unfold div, SFdiv in Hnn, Hs.
  destruct (SFdiv_core_binary prec emax (Z.pos mp) ep (Z.pos me) ee) as [[mz ez] lz].
  destruct (binary_round_aux_sign (xorb sp se) mz ez lz) as [H|H].
  - rewrite H in Hnn. discriminate.
  - rewrite Hs in H. destruct sp, se; cbn in H; try discriminate; repeat split;
      congruence.
Qed.

(** ** Rectangular tables *)

Lemma getitem_rectangular (n : nat) (t : table) (name : string) (c : column) :
  rectangular n t -> getitem t name = Ok c -> size c = n.
Proof.
  intros Hrect. induction Hrect as [|[n0 c0] t Hc0 _ IH]; cbn; [discriminate|].
  destruct (String.eqb n0 name); [intros [= <-]; exact Hc0 | exact IH].
Qed.

Lemma getitem_bool_total {A} (a : array A) (m : array bool) :
  size m = size a ->
  exists a', getitem_bool a m = Ok a' /\ size a' = length (nonzero (data m)).
Proof.
  intros Hsize. unfold getitem_bool. rewrite Hsize, Nat.eqb_refl.
  eexists. split; [reflexivity|]. unfold size in *.
  destruct a as [d|es]; cbn in *.
  - apply length_compress_nonzero. exact Hsize.
  - rewrite <- compress_map. apply length_compress_nonzero.
    rewrite length_map in *. exact Hsize.
Qed.

Lemma rows_total (n : nat) (t : table) (m : array bool) :
  rectangular n t -> size m = n ->
  exists t', rows t m = Ok t' /\ rectangular (length (nonzero (data m))) t'.
Proof.
  intros Hrect Hm. induction Hrect as [|[n0 c0] t Hc0 _ (t' & Ht' & Hrect')].
  - exists []. split; [reflexivity | constructor].
  - cbn in Hc0. destruct (getitem_bool_total c0 m) as (c' & Hc' & Hsize); [congruence|].
    exists ((n0, c') :: t'). rewrite rows_cons, Hc', Ht'. cbn.
    split; [reflexivity | constructor; assumption].
Qed.

Lemma getitem_setitem (t : table) (n name : string) (c : column) :
  getitem (setitem t n c) name = if String.eqb n name then Ok c else getitem t name.
Proof.
  induction t as [|[n0 c0] t IH]; cbn.
  - destruct (String.eqb n name); reflexivity.
  - destruct (String.eqb n0 n) eqn:Hn0; cbn.
    + apply String.eqb_eq in Hn0. subst n0. destruct (String.eqb n name); reflexivity.
    + destruct (String.eqb n0 name) eqn:Hname; [|exact IH].
      destruct (String.eqb n name) eqn:Hn; [|reflexivity].
      apply String.eqb_eq in Hname, Hn. subst. rewrite String.eqb_refl in Hn0.
      discriminate.
Qed.

Lemma setitem_rectangular (n : nat) (t : table) (name : string) (c : column) :
  rectangular n t -> size c = n -> rectangular n (setitem t name c).
Proof.
  intros Hrect Hc. induction Hrect as [|[n0 c0] t Hc0 Hrect IH]; cbn.
  - constructor; [exact Hc | constructor].
  - destruct (String.eqb n0 name); constructor; assumption.
Qed.

Lemma amap2_total {A B C} (f : A -> B -> C) (a : array A) (b : array B) :
  size a = size b -> exists c, amap2 f a b = Ok c /\ size c = size a.
Proof.
  intros Hsize. unfold amap2. rewrite Hsize, Nat.eqb_refl.
  eexists. split; [reflexivity|]. unfold size in *.
  destruct a as [da|ea], b as [db|eb]; cbn in *;
    rewrite ?length_map in *; rewrite length_combine; lia.
Qed.

Lemma fill_parallax_total (p : array float) :
  exists p', fill_parallax p = Ok p' /\ size p' = size p.
Proof.
  unfold fill_parallax. destruct p as [d|es]; cbn; eexists; (split; [reflexivity|]).
  - reflexivity.
  - unfold size. cbn. rewrite !length_map. reflexivity.
Qed.

Lemma size_filled_velocity (v : array float) :
  size (Plain (map (fun e : float * bool => if snd e || isnan (fst e) then zero else fst e)
                   (entries v))) = size v.
Proof. unfold size. destruct v; cbn; rewrite !length_map; reflexivity. Qed.

Lemma same_length_Some (n : nat) (l : list float) :
  length l = n -> same_length n (Some l) = true.
Proof. intros <-. cbn. apply Nat.eqb_refl. Qed.

(** ** The member selection of the cross-match notebook, step by step *)

Ltac bind_inv H :=
  repeat match type of H with
         | bind ?r _ = Ok _ =>
             let E := fresh "E" in
             destruct r eqn:E; cbn [bind] in H; [|discriminate H]
         end.

Ltac ok_inj :=
  repeat match goal with
         | H : Ok _ = Ok _ |- _ => injection H; clear H; intros; subst
         end.

Ltac bind_inv_all :=
  repeat match goal with
         | H : bind ?r _ = Ok _ |- _ =>
             let E := fresh "E" in
             destruct r eqn:E; cbn [bind] in H; [|discriminate H]
         | H : Ok _ = Ok _ |- _ => injection H; clear H; intros; subst
         end.

Lemma SkyCoord_new_Ok f lo la d pm rv t c :
  SkyCoord_new f lo la d pm rv t = Ok c ->
  c = {| frame_of := f; lon := lo; lat := la; distance := d; proper_motion := pm;
         radial_velocity := rv; obstime := t |}
  /\ length la = length lo.
Proof.
  unfold SkyCoord_new.
  destruct (Nat.eqb_spec (length la) (length lo)) as [Hlen|]; cbn; [|discriminate].
  destruct (_ && _); [|discriminate]. intros [= <-]. split; [reflexivity | exact Hlen].
Qed.

Lemma select_members_inv parallax_to_pc separation_pc gaia s :
  select_members parallax_to_pc separation_pc gaia = Ok s ->
  exists p0 t0 p v1 v2 v3 r1 r2 r3 ra dec dist,
    getitem gaia "parallax" = Ok p0
    /\ rows gaia (amap (fun x => gt x f0_25) p0) = Ok t0
    /\ getitem t0 "parallax" = Ok p
    /\ fill_parallax p = Ok (parallax s)
    /\ Distance parallax_to_pc (parallax s) = Ok dist
    /\ (getitem t0 "pmra" = Ok v1 /\ getitem t0 "pmdec" = Ok v2
        /\ getitem t0 "radial_velocity" = Ok v3)
    /\ (fill_velocity v1 = Ok r1 /\ fill_velocity v2 = Ok r2 /\ fill_velocity v3 = Ok r3)
    /\ velocity_data s
       = [("pm_ra_cosdec", r1); ("pm_dec", r2); ("radial_velocity", r3)]
    /\ (getitem (ngc188_table s) "ra" = Ok ra /\ getitem (ngc188_table s) "dec" = Ok dec)
    /\ ngc188_coords_3d s
       = {| frame_of := ICRS; lon := data ra; lat := data dec; distance := Some dist;
            proper_motion := Some (data r1, data r2); radial_velocity := Some (data r3);
            obstime := Some (Epoch "J2015.5") |}
    /\ length (data dec) = length (data ra)
    /\ (forall name c, getitem t0 name = Ok c ->
          exists c', getitem (ngc188_table s) name = Ok c')
    /\ rows (ngc188_table s) (ngc188_members_mask s) = Ok (ngc188_members s)
    /\ sc_getitem_bool (ngc188_coords_3d s) (ngc188_members_mask s)
       = Ok (ngc188_members_coords s).
Proof.
  intros H. unfold select_members in H.
  change (SkyCoord_new ICRS [f12_11] [f85_26] (Some [f1960])
            (Some ([fm2_3087], [fm0_9565])) None None)
    with (Ok {| frame_of := ICRS; lon := [f12_11]; lat := [f85_26];
                distance := Some [f1960];
                proper_motion := Some ([fm2_3087], [fm0_9565]);
                radial_velocity := None; obstime := None |}) in H.
  cbn [proper_motion] in H. bind_inv H.
  match goal with E : make_velocity_data _ = Ok _ |- _ =>
    unfold make_velocity_data, velocity_columns in E; cbn [mapM bind fst snd] in E end.
  bind_inv_all.
  match goal with E : fill_loop _ _ = Ok _ |- _ => cbn [fill_loop] in E end.
  bind_inv_all.
  cbn [fst snd] in *.
  unfold lookup_key in *. cbn [getitem String.eqb Ascii.eqb Bool.eqb] in *. ok_inj.
  match goal with H : SkyCoord_new _ (data _) _ _ _ _ _ = Ok _ |- _ =>
    apply SkyCoord_new_Ok in H as [-> Hlen] end.
  cbn [ngc188_table ngc188_center_3d parallax velocity_data ngc188_coords_3d
       ngc188_members_mask ngc188_members ngc188_members_coords].
  do 12 eexists. repeat split; try (eassumption || reflexivity).
  intros name c Hc.
  repeat match goal with
         | |- context [if has_mask ?v then _ else _] => destruct (has_mask v)
         end;
    rewrite ?getitem_setitem;
    repeat match goal with
           | |- context [String.eqb ?a ?b] => destruct (String.eqb a b)
           end;
    eauto.
Qed.

Lemma mapM_Forall2 {A B} (f : A -> result B) (l : list A) (r : list B) :
  mapM f l = Ok r -> Forall2 (fun a b => f a = Ok b) l r.
Proof.
  revert r. induction l as [|a l IH]; intros r H; cbn in H.
  - injection H as <-. constructor.
  - destruct (f a) as [b|] eqn:Hb; cbn in H; [|discriminate].
    destruct (mapM f l) as [bs|]; cbn in H; [|discriminate].
    injection H as <-. constructor; [exact Hb | apply IH; reflexivity].
Qed.

Lemma getitem_ints_data {A} (a r : array A) (idx : list nat) :
  getitem_ints a idx = Ok r ->
  Forall2 (fun i x => nth_error (data a) i = Some x) idx (data r).
Proof.
  unfold getitem_ints. destruct a as [d|es]; intros H; bind_inv_all; cbn.
  - apply mapM_Forall2 in E. induction E as [|i x idx r Hi _ IH]; constructor; [|exact IH].
    destruct (nth_error d i); [injection Hi as <-; reflexivity | discriminate].
  - apply mapM_Forall2 in E. induction E as [|i x idx r Hi _ IH]; cbn; constructor;
      [|exact IH].
    rewrite nth_error_map. destruct (nth_error es i); [injection Hi as <-; reflexivity
                                                      | discriminate].
Qed.

Lemma sc_getitem_bool_Ok (c c' : SkyCoord) (m : array bool) :
  sc_getitem_bool c m = Ok c' ->
  length (data m) = length (lon c)
  /\ lon c' = compress (data m) (lon c)
  /\ lat c' = compress (data m) (lat c)
  /\ proper_motion c'
     = option_map (fun pm => (compress (data m) (fst pm), compress (data m) (snd pm)))
                  (proper_motion c)
  /\ radial_velocity c' = option_map (compress (data m)) (radial_velocity c).
Proof.
  unfold sc_getitem_bool, sc_size, size.
  destruct (Nat.eqb_spec (length (data m)) (length (lon c))) as [Hlen|]; [|discriminate].
  intros [= <-]. cbn. repeat split. exact Hlen.
Qed.

Lemma length_points (c : SkyCoord) : length (points c) = sc_size c.
Proof. unfold points. rewrite length_map, length_seq. reflexivity. Qed.

Lemma apply_space_motion_size space_motion c t c' :
  apply_space_motion space_motion c t = Ok c' -> sc_size c' = sc_size c.
Proof.
  unfold apply_space_motion. destruct (has_velocity c); [|discriminate].
  intros [= <-]. unfold sc_size, with_points. cbn.
  rewrite !length_map. apply length_points.
Qed.

Lemma match_to_catalog_sky_length nearest separation_sky c catalog idx sep :
  match_to_catalog_sky nearest separation_sky c catalog = Ok (idx, sep) ->
  length idx = sc_size c /\ length sep = sc_size c.
Proof.
  unfold match_to_catalog_sky. destruct (points catalog); [discriminate|].
  intros [= <- <-]. rewrite !length_map, length_points. split; reflexivity.
Qed.

(** ** Zipped masks *)

Lemma data_amap2 {A B C} (f : A -> B -> C) (a : array A) (b : array B) (c : array C) :
  amap2 f a b = Ok c ->
  length (data a) = length (data b)
  /\ data c = map (fun p => f (fst p) (snd p)) (combine (data a) (data b)).
Proof.
  unfold amap2, size.
  destruct (Nat.eqb_spec (length (data a)) (length (data b))) as [Hlen|]; [|discriminate].
  intros [= <-]. split; [exact Hlen|].
  destruct a as [da|ea], b as [db|eb]; cbn; rewrite ?map_map.
  - reflexivity.
  - clear Hlen. revert da. induction eb as [|e eb IH]; intros [|x da]; cbn;
      try reflexivity. rewrite IH. reflexivity.
  - clear Hlen. revert db. induction ea as [|e ea IH]; intros [|y db]; cbn;
      try reflexivity. rewrite IH. reflexivity.
  - clear Hlen. revert eb. induction ea as [|e ea IH]; intros [|y eb]; cbn;
      try reflexivity. rewrite IH. reflexivity.
Qed.

Lemma compress_zip_Forall {A B C} (h : A -> C) (g : C -> B -> bool)
    (P : A -> Prop) (Q : B -> Prop) (es : list A) (ys : list B) :
  Forall Q ys ->
  (forall e y, Q y -> g (h e) y = true -> P e) ->
  Forall P (compress (map (fun p => g (fst p) (snd p)) (combine (map h es) ys)) es).
Proof.
  intros HQ Hg. revert ys HQ.
  induction es as [|e es IH]; intros ys HQ; cbn; [constructor|].
  destruct HQ as [|y ys Hy HQ]; cbn; [constructor|].
  destruct (g (h e) y) eqn:Hgy; [constructor; eauto | eauto].
Qed.

(** ** Parallaxes handed to [Distance] *)

Lemma filtered_parallax gaia p0 t0 p :
  getitem gaia "parallax" = Ok p0 ->
  rows gaia (amap (fun x => gt x f0_25) p0) = Ok t0 ->
  getitem t0 "parallax" = Ok p ->
  Forall (fun e => gt (fst e) f0_25 = true) (entries p).
Proof.
  intros Hp0 Hrows Hp.
  destruct (rows_getitem _ _ _ _ _ Hrows Hp0) as (p1 & Hp1 & Hsel).
  rewrite Hp in Hp1. injection Hp1 as <-.
  apply getitem_bool_data in Hsel as (_ & _ & Hentries & _).
  rewrite Hentries, data_amap.
  destruct p0 as [d|es]; cbn.
  - rewrite compress_map. apply Forall_map.
    apply (compress_map_self (fun x : float => gt x f0_25)).
  - rewrite map_map.
    apply (compress_map_self (fun e : (float * bool)%type => gt (fst e) f0_25)).
Qed.

Lemma fill_parallax_data p p' :
  fill_parallax p = Ok p' ->
  data p' = map (fun e : float * bool => if snd e then nan else fst e) (entries p).
Proof.
  unfold fill_parallax. destruct p as [d|es]; cbn; intros [= <-]; cbn.
  - rewrite map_map. cbn. rewrite map_id. reflexivity.
  - reflexivity.
Qed.

Lemma Distance_after_filter parallax_to_pc gaia t0 p0 p p' :
  getitem gaia "parallax" = Ok p0 ->
  rows gaia (amap (fun x => gt x f0_25) p0) = Ok t0 ->
  getitem t0 "parallax" = Ok p ->
  fill_parallax p = Ok p' ->
  Forall (fun x => isnan x = true \/ (gt x f0_25 = true /\ positive x = true)) (data p')
  /\ Distance parallax_to_pc p' = Ok (map parallax_to_pc (data p')).
Proof.
  intros Hp0 Hrows Hp Hfill.
  assert (Hdata : Forall (fun x => isnan x = true \/ (gt x f0_25 = true /\ positive x = true))
                         (data p')).
  { rewrite (fill_parallax_data p p' Hfill). apply Forall_map.
    eapply Forall_impl; [exact (filtered_parallax gaia p0 t0 p Hp0 Hrows Hp)|].
    intros [x m] Hx. cbn in *. destruct m; [left; reflexivity|].
    right. split; [exact Hx | apply gt_quarter_positive; exact Hx]. }
  split; [exact Hdata|].
  apply Distance_accepts. eapply Forall_impl; [exact Hdata|].
  intros x [Hx | [_ Hx]];
    [apply nan_not_negative | apply positive_not_negative]; exact Hx.
Qed.

(** C8, as stated, fails: in notebook 1 a source with negative parallax
    and negative parallax error passes the filter [parallax_snr > 10],
    and in notebook 3 [Distance(parallax=...)] is built from the
    selected row without any filter; in both the negative parallax
    reaches [Distance], which raises.  An error of -0.0, which is not
    below zero, lets a negative parallax through as well. *)
Lemma C8_negative_parallax_reaches_Distance :
  snr_selection Samples.negative_snr_table
  = Ok (Samples.negative_snr_table, Plain [fm11])
  /\ positive fm11 = false
  /\ Distance Samples.parallax_to_pc (Plain [fm11]) = Raise ValueError
  /\ intro_coords_3d Samples.parallax_to_pc Samples.negative_snr_table = Raise ValueError
  /\ hd219829_coord Samples.parallax_to_pc Samples.negative_parallax_table
     = Raise ValueError
  /\ lt (S754_zero true) zero = false
  /\ gt (div fm11 (S754_zero true)) f10 = true.
Proof. repeat split; vm_compute; reflexivity. Qed.

(** C8, amended: in the cross-match notebook [Distance(parallax=...)]
    receives only parallaxes of rows that passed [parallax > 0.25 mas]:
    each number it receives is above 0.25, hence positive, or is the NaN
    that fills a masked entry; the call does not raise, and this is the
    [Distance] of cell 4, whose result is the distance of
    [ngc188_coords_3d].  In notebook 1 a row passes the cut
    [parallax / parallax_error > 10] with a positive parallax when the
    sign bit of its error is clear, and with a negative parallax when it
    is set (a negative error, or -0.0); so [Distance] receives no
    negative parallax when no error has its sign bit set.  Notebook 3
    builds its [Distance] (cell 27) without any comparison in the
    notebook. *)
Theorem C8_filtered_parallax_is_positive
    (parallax_to_pc : float -> float) (gaia t0 : table) (p0 p p' : array float) :
  getitem gaia "parallax" = Ok p0 ->
  rows gaia (amap (fun x => gt x f0_25) p0) = Ok t0 ->
  getitem t0 "parallax" = Ok p ->
  fill_parallax p = Ok p' ->
  Forall (fun x => isnan x = true \/ (gt x f0_25 = true /\ positive x = true)) (data p')
  /\ Distance parallax_to_pc p' = Ok (map parallax_to_pc (data p'))
  /\ (forall separation_pc s,
        select_members parallax_to_pc separation_pc gaia = Ok s ->
        parallax s = p'
        /\ distance (ngc188_coords_3d s) = Some (map parallax_to_pc (data p')))
  /\ (forall x e,
        gt (div x e) f10 = true ->
        isnan x = false /\ isnan e = false
        /\ (sign_bit e = false -> positive x = true)
        /\ (sign_bit e = true -> lt x zero = true))
  /\ (forall (t t3d : table) (q err : array float),
        snr_selection t = Ok (t3d, q) ->
        getitem t "parallax_error" = Ok err ->
        Forall (fun x => sign_bit x = false) (data err) ->
        Forall (fun x => isnan x = true \/ positive x = true) (data q)
        /\ Distance parallax_to_pc q = Ok (map parallax_to_pc (data q)))
  /\ map (cells_with_expr (fun e => calls "Distance" e && has_keyword "parallax" e))
         all_notebooks = [[50; 52]; []; [27]; [4]]
  /\ map (cells_with_expr is_comparison) all_notebooks = [[28; 48; 60]; []; []; [4; 25]].
Proof.
  intros Hp0 Hrows Hp Hfill.
  destruct (Distance_after_filter parallax_to_pc gaia t0 p0 p p' Hp0 Hrows Hp Hfill)
    as [Hdata Hdist].
  split; [exact Hdata|]. split; [exact Hdist|].
  split.
  { intros separation_pc s Hs.
    destruct (select_members_inv _ _ _ _ Hs)
      as (q0 & u0 & q & v1 & v2 & v3 & r1 & r2 & r3 & ra & dec & dist
          & Hq0 & Hu0 & Hq & Hfq & Hd & _ & _ & _ & _ & Hcoords & _).
    rewrite Hp0 in Hq0. injection Hq0 as <-.
    rewrite Hrows in Hu0. injection Hu0 as <-.
    rewrite Hp in Hq. injection Hq as <-.
    rewrite Hfill in Hfq. injection Hfq as Hpar.
    rewrite <- Hpar in Hd. rewrite Hdist in Hd. injection Hd as <-.
    split; [symmetry; exact Hpar|]. rewrite Hcoords. reflexivity. }
  split; [exact snr_sign|].
  split; [|split; vm_compute; reflexivity].
  intros t t3d q err Hsel Herr Hpos.
  unfold snr_selection in Hsel. bind_inv_all.
  match goal with H : amap2 div ?par err = Ok ?snr |- _ =>
    rename par into par0; rename snr into snr0;
    apply data_amap2 in H as [Hlen Hsnr] end.
  match goal with
  | Hr : rows t _ = Ok t3d, Hg : getitem t3d "parallax" = Ok ?c |- _ =>
      rename c into sel;
      destruct (rows_getitem_inv _ _ _ _ _ Hr Hg) as (par1 & Hpar1 & Hsel)
  end.
  match goal with H : getitem t "parallax" = Ok par0 |- _ =>
    rewrite H in Hpar1; injection Hpar1 as <- end.
  apply getitem_bool_data in Hsel as (_ & _ & Hentries & _).
  match goal with H : filled nan sel = Ok q |- _ =>
    destruct sel as [d|es]; cbn in H; [discriminate|]; injection H as <- end.
  cbn in Hentries. subst es. rewrite data_amap, Hsnr, map_map. cbn.
  assert (Hq : Forall (fun e : (float * bool)%type => positive (fst e) = true)
                 (compress
                    (map (fun p1 : (float * float)%type => gt (div (fst p1) (snd p1)) f10)
                         (combine (data par0) (data err))) (entries par0))).
  { assert (Hd : data par0 = map fst (entries par0)).
    { destruct par0 as [d|es]; cbn; [|reflexivity].
      rewrite map_map. symmetry. apply map_id. }
    rewrite Hd.
    apply (compress_zip_Forall fst (fun x y => gt (div x y) f10)
             (fun e => positive (fst e) = true)
             (fun y => sign_bit y = false)); [exact Hpos|].
    intros e y Hs Hgt. apply (snr_sign (fst e) y Hgt). exact Hs. }
  assert (Hok : Forall (fun x => isnan x = true \/ positive x = true)
                  (map (fun e : (float * bool)%type => if snd e then nan else fst e)
                     (compress
                        (map (fun p1 : (float * float)%type => gt (div (fst p1) (snd p1)) f10)
                             (combine (data par0) (data err))) (entries par0)))).
  { apply Forall_map. eapply Forall_impl; [exact Hq|].
    intros [x m] Hx. cbn in *. destruct m; [left; reflexivity | right; exact Hx]. }
  split; [exact Hok|].
  apply Distance_accepts. eapply Forall_impl; [exact Hok|].
  intros x [Hx | Hx]; [apply nan_not_negative | apply positive_not_negative]; exact Hx.
Qed.

(** ** The member selection completes on every rectangular table *)

Lemma select_members_total parallax_to_pc separation_pc (n : nat) (gaia : table) :
  rectangular n gaia ->
  has_columns selection_columns gaia ->
  exists s, select_members parallax_to_pc separation_pc gaia = Ok s.
Proof.
  intros Hrect Hcols.
  unfold has_columns, selection_columns in Hcols.
  rewrite !Forall_cons in Hcols.
  destruct Hcols as ((p0 & Hp0) & (pmra0 & Hpmra0) & (pmdec0 & Hpmdec0) & (rv0 & Hrv0)
                     & (ra0 & Hra0) & (dec0 & Hdec0) & _).
  set (m0 := amap (fun x => gt x f0_25) p0).
  assert (Hm0 : size m0 = n).
  { unfold m0. rewrite size_amap. eapply getitem_rectangular; eassumption. }
  destruct (rows_total n gaia m0 Hrect Hm0) as (t0 & Ht0 & Hrect0).
  set (k := length (nonzero (data m0))) in *.
  assert (Hget0 : forall name c, getitem gaia name = Ok c ->
                    exists c', getitem t0 name = Ok c' /\ size c' = k).
  { intros name c Hc. destruct (rows_getitem _ _ _ _ _ Ht0 Hc) as (c' & Hc' & _).
    exists c'. split; [exact Hc' | eapply getitem_rectangular; eassumption]. }
  destruct (Hget0 "parallax" p0) as (p & Hp & Hpk); [assumption|].
  destruct (Hget0 "pmra" pmra0) as (v1 & Hv1 & Hv1k); [assumption|].
  destruct (Hget0 "pmdec" pmdec0) as (v2 & Hv2 & Hv2k); [assumption|].
  destruct (Hget0 "radial_velocity" rv0) as (v3 & Hv3 & Hv3k); [assumption|].
  destruct (Hget0 "ra" ra0) as (ra & Hra & Hrak); [assumption|].
  destruct (Hget0 "dec" dec0) as (dec & Hdec & Hdeck); [assumption|].
  destruct (fill_parallax_total p) as (p' & Hp' & Hp'k).
  destruct (Distance_after_filter parallax_to_pc gaia t0 p0 p p') as [_ Hdist];
    try assumption.
  set (fill := fun e : float * bool => if snd e || isnan (fst e) then zero else fst e).
  set (r1 := Plain (map fill (entries v1))).
  set (r2 := Plain (map fill (entries v2))).
  set (r3 := Plain (map fill (entries v3))).
  set (t1 := if has_mask v1 then t0 else setitem t0 "pmra" r1).
  set (t2 := if has_mask v2 then t1 else setitem t1 "pmdec" r2).
  set (t3 := if has_mask v3 then t2 else setitem t2 "radial_velocity" r3).
  assert (Hsizes : size r1 = k /\ size r2 = k /\ size r3 = k).
  { unfold r1, r2, r3. rewrite !size_filled_velocity. auto. }
  destruct Hsizes as (Hr1 & Hr2 & Hr3).
  assert (Hrect3 : rectangular k t3).
  { unfold t3, t2, t1.
    destruct (has_mask v1), (has_mask v2), (has_mask v3);
      repeat apply setitem_rectangular; assumption. }
  assert (Hget3 : forall name c, getitem t0 name = Ok c ->
                    exists c', getitem t3 name = Ok c').
  { intros name c Hc. unfold t3, t2, t1.
    destruct (has_mask v1), (has_mask v2), (has_mask v3);
      rewrite ?getitem_setitem;
      repeat match goal with |- context [String.eqb ?a ?b] => destruct (String.eqb a b) end;
      eauto. }
  destruct (Hget3 "ra" ra Hra) as (ra' & Hra').
  destruct (Hget3 "dec" dec Hdec) as (dec' & Hdec').
  destruct (Hget3 "pmra" v1 Hv1) as (pmra' & Hpmra').
  destruct (Hget3 "pmdec" v2 Hv2) as (pmdec' & Hpmdec').
  pose proof (getitem_rectangular _ _ _ _ Hrect3 Hra') as Hra'k.
  pose proof (getitem_rectangular _ _ _ _ Hrect3 Hdec') as Hdec'k.
  pose proof (getitem_rectangular _ _ _ _ Hrect3 Hpmra') as Hpmra'k.
  pose proof (getitem_rectangular _ _ _ _ Hrect3 Hpmdec') as Hpmdec'k.
  set (coords := {| frame_of := ICRS; lon := data ra'; lat := data dec';
                    distance := Some (map parallax_to_pc (data p'));
                    proper_motion := Some (data r1, data r2);
                    radial_velocity := Some (data r3);
                    obstime := Some (Epoch "J2015.5") |}).
  assert (Hcoords : SkyCoord_new ICRS (data ra') (data dec')
                      (Some (map parallax_to_pc (data p')))
                      (Some (data r1, data r2)) (Some (data r3))
                      (Some (Epoch "J2015.5")) = Ok coords).
  { unfold SkyCoord_new. unfold size in *.
    replace (Nat.eqb (length (data dec')) (length (data ra'))) with true
      by (symmetry; apply Nat.eqb_eq; congruence).
    cbn [option_map fst snd].
    rewrite !same_length_Some; [reflexivity | | | |]; rewrite ?length_map; congruence. }
  set (center := {| frame_of := ICRS; lon := [f12_11]; lat := [f85_26];
                    distance := Some [f1960];
                    proper_motion := Some ([fm2_3087], [fm0_9565]);
                    radial_velocity := None; obstime := None |}).
  set (sep := Plain (map (fun q => separation_pc q (point_at center 0)) (points coords))).
  assert (Hsep : separation_3d separation_pc coords center = Ok sep) by reflexivity.
  assert (Hsepk : size sep = k).
  { unfold sep, size. cbn [data]. rewrite length_map, length_points. exact Hra'k. }
  destruct (amap2_total add
              (amap square (amap (fun x => sub x fm2_3087) pmra'))
              (amap square (amap (fun x => sub x fm0_9565) pmdec')))
    as (sq & Hsq & Hsqk); [rewrite !size_amap; congruence|].
  rewrite !size_amap in Hsqk.
  destruct (amap2_total andb (amap (fun x => lt x f50) sep)
              (amap (fun x => lt x f1_5) (amap sqrt sq)))
    as (mask & Hmask & Hmaskk); [rewrite !size_amap; congruence|].
  rewrite size_amap in Hmaskk.
  destruct (rows_total k t3 mask Hrect3) as (members & Hmembers & _); [congruence|].
  eexists. unfold select_members.
  rewrite Hp0. cbn [bind]. fold m0. rewrite Ht0. cbn [bind].
  change (SkyCoord_new ICRS [f12_11] [f85_26] (Some [f1960])
            (Some ([fm2_3087], [fm0_9565])) None None) with (Ok center).
  cbn [bind]. rewrite Hp. cbn [bind]. rewrite Hp'. cbn [bind].
  unfold make_velocity_data, velocity_columns. cbn [mapM bind fst snd].
  rewrite Hv1, Hv2, Hv3. cbn [bind fill_loop].
  rewrite !fill_velocity_eq. cbn [bind fst snd].
  fold fill. fold r1. fold t1. fold r2. fold t2. fold r3. fold t3.
  rewrite Hra', Hdec'. cbn [bind]. rewrite Hdist. cbn [bind].
  unfold lookup_key. cbn [getitem String.eqb Ascii.eqb Bool.eqb bind].
  rewrite Hcoords. cbn [bind]. rewrite Hsep. cbn [bind].
  rewrite Hpmra', Hpmdec'. cbn [bind proper_motion center].
  unfold proper_motion_distance. rewrite Hsq. cbn [bind]. rewrite Hmask. cbn [bind].
  rewrite Hmembers. cbn [bind].
  unfold sc_getitem_bool.
  replace (Nat.eqb (size mask) (sc_size coords)) with true; [reflexivity|].
  symmetry. apply Nat.eqb_eq. unfold sc_size, coords. cbn. unfold size in *. congruence.
Qed.

(** ** The cross-match completes on every rectangular catalogue *)



(** ** Kinematics after the missing-data block *)

(** C9, as stated, fails: an infinite entry is neither masked nor NaN,
    the block keeps it, and it is not finite. *)
Lemma C9_infinite_entry_is_kept :
  fill_velocity (Plain [S754_infinity false]) = Ok (Plain [S754_infinity false])
  /\ ~ (forall v r, fill_velocity v = Ok r ->
          Forall (fun x => isfinite x = true) (data r)).
Proof.
  split; [reflexivity|].
  intros H. specialize (H (Plain [S754_infinity false]) _ eq_refl).
  inversion H as [|x l Hx Hl]. discriminate Hx.
Qed.

Lemma kinematics_no_nan (c : SkyCoord) (a b r : list float) :
  proper_motion c = Some (a, b) -> radial_velocity c = Some r ->
  Forall (fun x => isnan x = false) a ->
  Forall (fun x => isnan x = false) b ->
  Forall (fun x => isnan x = false) r ->
  Forall (fun x => isnan x = false) (kinematics c).
Proof.
  intros Hpm Hrv Ha Hb Hr. unfold kinematics. rewrite Hpm, Hrv. cbn.
  apply Forall_app. split; [apply Forall_app; split|]; assumption.
Qed.

(** C9, amended: after the missing-data block no proper-motion or
    radial-velocity value is masked or NaN: the block replaces each
    masked entry and each NaN entry by exactly 0.0 and keeps every other
    entry as it is (an infinite entry stays infinite); the values go
    unchanged into [ngc188_coords_3d], its selection
    [ngc188_members_coords] holds no NaN either, and that selection is
    what [apply_space_motion] is called on.  The cell completes on every
    table whose columns have one length and include the six it reads. *)
Theorem C9_missing_kinematics_become_zero
    (parallax_to_pc : float -> float) (separation_pc : point -> point -> float)
    (n : nat) (gaia : table) :
  rectangular n gaia ->
  has_columns selection_columns gaia ->
  let fill := fun e : float * bool => if snd e || isnan (fst e) then zero else fst e in
  (forall v, fill_velocity v = Ok (Plain (map fill (entries v))))
  /\ exists s,
  select_members parallax_to_pc separation_pc gaia = Ok s
  /\ (exists p0 t0 pmra pmdec rv,
         getitem gaia "parallax" = Ok p0
         /\ rows gaia (amap (fun x => gt x f0_25) p0) = Ok t0
         /\ getitem t0 "pmra" = Ok pmra /\ getitem t0 "pmdec" = Ok pmdec
         /\ getitem t0 "radial_velocity" = Ok rv
         /\ velocity_data s
            = [("pm_ra_cosdec", Plain (map fill (entries pmra)));
               ("pm_dec", Plain (map fill (entries pmdec)));
               ("radial_velocity", Plain (map fill (entries rv)))]
         /\ proper_motion (ngc188_coords_3d s)
            = Some (map fill (entries pmra), map fill (entries pmdec))
         /\ radial_velocity (ngc188_coords_3d s) = Some (map fill (entries rv)))
  /\ Forall (fun x => isnan x = false) (kinematics (ngc188_coords_3d s))
  /\ Forall (fun x => isnan x = false) (kinematics (ngc188_members_coords s))
  /\ (forall space_motion nearest separation_sky tmass epoch x,
         cross_match space_motion nearest separation_sky s tmass epoch = Ok x ->
         apply_space_motion space_motion (ngc188_members_coords s) epoch
         = Ok (ngc188_members_coords_1999 x)).
Proof.
  intros Hrect Hcols fill.
  split; [exact fill_velocity_eq|].
  destruct (select_members_total parallax_to_pc separation_pc n gaia Hrect Hcols)
    as [s Hs].
  exists s. split; [exact Hs|].
  assert (Hfill : forall v, Forall (fun x => isnan x = false) (map fill (entries v))).
  { intros v. apply Forall_map. apply Forall_forall. intros [x m] _. subst fill. cbn.
    destruct m; [reflexivity|]. cbn. destruct (isnan x) eqn:Hx; [reflexivity | exact Hx]. }
  destruct (select_members_inv _ _ _ _ Hs)
    as (p0 & t0 & p & v1 & v2 & v3 & r1 & r2 & r3 & ra & dec & dist
        & Hp0 & Hrows & Hp & Hfp & Hdist & (Hv1 & Hv2 & Hv3) & (Hr1 & Hr2 & Hr3)
        & Hvd & (Hra & Hdec) & Hcoords & Hlen & Hkeep & Hmembers & Hmc).
  rewrite fill_velocity_eq in Hr1, Hr2, Hr3.
  injection Hr1 as <-. injection Hr2 as <-. injection Hr3 as <-.
  split.
  { exists p0, t0, v1, v2, v3. rewrite Hcoords. cbn. repeat split; assumption. }
  split.
  { eapply kinematics_no_nan; try (rewrite Hcoords; reflexivity); apply Hfill. }
  split.
  { apply sc_getitem_bool_Ok in Hmc as (_ & _ & _ & Hpm & Hrv).
    rewrite Hcoords in Hpm, Hrv. cbn in Hpm, Hrv.
    eapply kinematics_no_nan; try eassumption; apply compress_Forall; apply Hfill. }
  intros space_motion nearest separation_sky tmass epoch x Hx.
  unfold cross_match in Hx. bind_inv_all. cbn. reflexivity.
Qed.

(** ** Members and their coordinates *)


(** ** The statements above at sample data *)

Lemma C1_convert_error_surfaces_witness :
  distance Samples.with_proper_motion = None
  /\ radial_velocity Samples.with_proper_motion = None
  /\ transform_to Samples.identity_frame_math Samples.with_proper_motion Galactocentric
     = Raise ConvertError
  /\ show_transform Samples.identity_frame_math "test_coord_1" Galactocentric offline
       Samples.after_cell_18
     = (Samples.after_cell_18, Raise ConvertError).
Proof.
  pose proof (C1_convert_error_surfaces Samples.identity_frame_math offline
                Samples.after_cell_18 "test_coord_1" Samples.with_proper_motion
                eq_refl eq_refl eq_refl) as (H1 & H2 & _).
  split; [reflexivity|]. split; [reflexivity|]. split; [exact H1 | exact H2].
Defined.

Lemma C2_conversion_succeeds_with_information_witness :
  exists c', transform_to Samples.identity_frame_math Samples.with_full_velocity
               Galactocentric = Ok c'
             /\ frame_of c' = Galactocentric.
Proof.
  exact (proj1 (C2_conversion_succeeds_with_information Samples.identity_frame_math
                  offline Samples.bare Samples.with_full_velocity
                  [f10] [f100] ([f1], [f2]) eq_refl eq_refl eq_refl)).
Defined.


Lemma C8_filtered_parallax_is_positive_witness :
  exists p',
    fill_parallax (Masked [(f0_5, false); (f1, false)]) = Ok p'
    /\ Distance Samples.parallax_to_pc p' = Ok (map Samples.parallax_to_pc (data p')).
Proof.
  eexists. split; [reflexivity|].
  refine (proj1 (proj2 (C8_filtered_parallax_is_positive Samples.parallax_to_pc
                          Samples.gaia_sample _ _ _ _ _ _ _ _)));
    vm_compute; reflexivity.
Defined.

Lemma gaia_sample_rectangular : rectangular 3 Samples.gaia_sample.
Proof. repeat constructor. Qed.

Lemma gaia_sample_has_columns : has_columns selection_columns Samples.gaia_sample.
Proof. repeat constructor; eexists; reflexivity. Qed.

Lemma C9_missing_kinematics_become_zero_witness :
  rectangular 3 Samples.gaia_sample
  /\ has_columns selection_columns Samples.gaia_sample
  /\ exists s,
       select_members Samples.parallax_to_pc Samples.separation_pc Samples.gaia_sample
       = Ok s
       /\ Forall (fun x => isnan x = false) (kinematics (ngc188_members_coords s)).
Proof.
  split; [exact gaia_sample_rectangular|]. split; [exact gaia_sample_has_columns|].
  destruct (C9_missing_kinematics_become_zero Samples.parallax_to_pc
              Samples.separation_pc 3 Samples.gaia_sample
              gaia_sample_rectangular gaia_sample_has_columns)
    as (_ & s & Hs & _ & _ & Hmembers & _).
  exists s. split; [exact Hs | exact Hmembers].
Defined.


(** * Further properties of the cells *)

Import MoreCells.

(** ** The order of binary64 numbers *)

Lemma lt_rank (x y : float) :
  isnan x = false -> isnan y = false ->
  (lt x y = true <-> lexlt (rank x) (rank y)).
Proof.
  unfold lt, SFltb, lexlt.
  destruct x as [sx|[|]| |[|] mx ex], y as [sy|[|]| |[|] my ey]; cbn;
    intros Hx Hy; try discriminate;
    repeat match goal with
           | |- context [Pos.compare_cont Eq ?a ?b] =>
               change (Pos.compare_cont Eq a b) with (Pos.compare a b);
               destruct (Pos.compare_spec a b)
           | |- context [Z.compare ?a ?b] => destruct (Z.compare_spec a b)
           end;
    cbn; split; intros Hlt; try discriminate Hlt; try reflexivity; lia.
Qed.

Lemma lt_irrefl (x : float) : lt x x = false.
Proof.
  destruct (isnan x) eqn:Hx; [destruct x; try discriminate; reflexivity|].
  destruct (lt x x) eqn:H; [|reflexivity].
  apply lt_rank in H; try assumption. unfold lexlt in H.
  destruct (rank x) as [[a b] c]. lia.
Qed.

(** Below a number that is not above [y]: below [y]. *)
Lemma lt_le_trans (x b y : float) :
  isnan y = false -> lt x b = true -> lt y b = false -> lt x y = true.
Proof.
  intros Hy Hxb Hyb.
  assert (Hx : isnan x = false) by (destruct x; try reflexivity; discriminate).
  assert (Hb : isnan b = false)
    by (destruct b; try reflexivity; destruct x as [?|[|]| |[|] ? ?]; discriminate).
  apply lt_rank; try assumption.
  apply lt_rank in Hxb; try assumption.
  assert (Hn : ~ lexlt (rank y) (rank b)).
  { intros H. apply lt_rank in H; try assumption. congruence. }
  unfold lexlt in *.
  destruct (rank x) as [[a1 b1] c1], (rank y) as [[a2 b2] c2], (rank b) as [[a3 b3] c3].
  lia.
Qed.

(** Nothing is below a number that is below a lower bound. *)
Lemma lt_lower_bound (x b y : float) :
  isnan y = false -> lt x b = true -> lt y b = false -> lt y x = false.
Proof.
  intros Hy Hxb Hyb.
  pose proof (lt_le_trans x b y Hy Hxb Hyb) as Hxy.
  assert (Hx : isnan x = false) by (destruct x; try reflexivity; discriminate).
  destruct (lt y x) eqn:H; [|reflexivity].
  apply lt_rank in H, Hxy; try assumption. unfold lexlt in *.
  destruct (rank x) as [[a1 b1] c1], (rank y) as [[a2 b2] c2]. lia.
Qed.

(** ** The brightest source (notebook 3, cell 25) *)

Lemma firstn_app_le {A} (k : nat) (l1 l2 : list A) :
  k <= length l1 -> firstn k (l1 ++ l2)%list = firstn k l1.
Proof.
  intros Hk. rewrite List.firstn_app. replace (k - length l1) with 0 by lia.
  cbn. apply app_nil_r.
Qed.

Lemma argmin_from_spec (xs pre : list float) (best : float) (ibest : nat) :
  nth_error pre ibest = Some best ->
  (isnan best = true -> Forall (fun y => isnan y = false) (firstn ibest pre)) ->
  (isnan best = false ->
   Forall (fun y => isnan y = false /\ lt y best = false) pre
   /\ Forall (fun y => lt best y = true) (firstn ibest pre)) ->
  let k := argmin_from best ibest (length pre) xs in
  exists m,
    nth_error (pre ++ xs)%list k = Some m
    /\ (isnan m = true ->
        Forall (fun y => isnan y = false) (firstn k (pre ++ xs)%list))
    /\ (isnan m = false ->
        Forall (fun y => isnan y = false /\ lt y m = false) (pre ++ xs)%list
        /\ Forall (fun y => lt m y = true) (firstn k (pre ++ xs)%list)).
Proof.
  revert pre best ibest.
  induction xs as [|x xs IH]; intros pre best ibest Hbest Hnan Hmin; cbn.
  - rewrite app_nil_r. exists best. auto.
  - assert (Hlt : ibest < length pre) by (apply nth_error_Some; congruence).
    destruct (isnan best) eqn:Hb.
    + exists best. rewrite nth_error_app1 by exact Hlt.
      rewrite firstn_app_le by lia. split; [exact Hbest|].
      split; [auto | intros H; congruence].
    + destruct (Hmin eq_refl) as [Hpre Hfirst].
      assert (Hnn : Forall (fun y => isnan y = false) pre).
      { eapply Forall_impl; [exact Hpre|]. intros y [Hy _]. exact Hy. }
      assert (Hlen : length (pre ++ [x])%list = S (length pre))
        by (rewrite length_app; cbn; lia).
      destruct (isnan x || lt x best) eqn:Hx.
      * pose proof (IH (pre ++ [x])%list x (length pre)) as IHx.
        rewrite Hlen, <- app_assoc in IHx. cbn [app] in IHx. apply IHx.
        -- rewrite nth_error_app2 by lia. rewrite Nat.sub_diag. reflexivity.
        -- intros _. rewrite firstn_app_le by lia. rewrite firstn_all. exact Hnn.
        -- intros Hxn. rewrite Hxn in Hx. cbn in Hx.
           rewrite firstn_app_le by lia. rewrite firstn_all. split.
           ++ apply Forall_app. split.
              ** eapply Forall_impl; [exact Hpre|]. intros y [Hy Hyb].
                 split; [exact Hy|]. eapply lt_lower_bound; eassumption.
              ** constructor; [|constructor]. split; [exact Hxn | apply lt_irrefl].
           ++ eapply Forall_impl; [exact Hpre|]. intros y [Hy Hyb].
              eapply lt_le_trans; eassumption.
      * apply orb_false_iff in Hx as [Hxn Hxb].
        pose proof (IH (pre ++ [x])%list best ibest) as IHx.
        rewrite Hlen, <- app_assoc in IHx. cbn [app] in IHx. apply IHx.
        -- rewrite nth_error_app1 by exact Hlt. exact Hbest.
        -- intros H. congruence.
        -- intros _. rewrite firstn_app_le by lia. split; [|exact Hfirst].
           apply Forall_app. split; [exact Hpre|]. constructor; [|constructor]. auto.
Qed.

Lemma competing_unmasked (a : array float) :
  Forall (fun e => snd e = false) (entries a) -> competing a = data a.
Proof.
  unfold competing. intros H.
  assert (Hd : data a = map fst (entries a)).
  { destruct a as [d|es]; cbn; [|reflexivity]. rewrite map_map. symmetry. apply map_id. }
  rewrite Hd. clear Hd. revert H. generalize (entries a). intros es H.
  induction H as [|[x m] es Hm _ IH]; cbn; [reflexivity|].
  cbn in Hm. subst m. f_equal. apply IH.
Qed.

(** [argmin] on an array without masked entries: the position of the
    first smallest number when no number is a NaN, of the first NaN
    otherwise; an empty array has none. *)
Lemma argmin_spec (a : array float) :
  Forall (fun e => snd e = false) (entries a) ->
  match argmin a with
  | Raise e => e = ValueError /\ data a = []
  | Ok i =>
      exists m,
        nth_error (data a) i = Some m
        /\ (isnan m = true ->
            Forall (fun y => isnan y = false) (firstn i (data a)))
        /\ (isnan m = false ->
            Forall (fun y => isnan y = false /\ lt y m = false) (data a)
            /\ Forall (fun y => lt m y = true) (firstn i (data a)))
  end.
Proof.
  intros Hplain. unfold argmin. rewrite (competing_unmasked a Hplain).
  destruct (data a) as [|x xs]; [split; reflexivity|].
  apply (argmin_from_spec xs [x] x 0); [reflexivity | constructor |].
  intros Hx. split; [|constructor].
  constructor; [|constructor]. split; [exact Hx | apply lt_irrefl].
Qed.

Lemma getitem_int_data {A} (c c' : array A) (i : nat) :
  getitem_int c i = Ok c' ->
  exists x, nth_error (data c) i = Some x /\ data c' = [x].
Proof.
  unfold getitem_int. destruct c as [d|es]; cbn.
  - destruct (nth_error d i) as [x|]; [|discriminate]. intros [= <-]. eauto.
  - rewrite nth_error_map. destruct (nth_error es i) as [e|]; [|discriminate].
    intros [= <-]. cbn. eauto.
Qed.

Lemma getitem_int_total {A} (c : array A) (i : nat) :
  i < size c -> exists c', getitem_int c i = Ok c'.
Proof.
  unfold size, getitem_int. destruct c as [d|es]; cbn; intros Hi.
  - destruct (nth_error d i) eqn:E; [eauto|]. apply nth_error_None in E. lia.
  - rewrite length_map in Hi.
    destruct (nth_error es i) eqn:E; [eauto|]. apply nth_error_None in E. lia.
Qed.

Lemma row_cons (n : string) (c0 : column) (t : table) (i : nat) :
  row ((n, c0) :: t) i
  = (let* c := getitem_int c0 i in let* bs := row t i in Ok ((n, c) :: bs)).
Proof. unfold row. cbn. destruct (getitem_int c0 i); reflexivity. Qed.

Lemma row_getitem (t r : table) (i : nat) (name : string) (c : column) :
  row t i = Ok r ->
  getitem t name = Ok c ->
  exists c', getitem r name = Ok c' /\ getitem_int c i = Ok c'.
Proof.
  revert r.
  induction t as [|[n c0] t IH]; intros r Hrow Hget; [discriminate|].
  rewrite row_cons in Hrow. cbn in Hget.
  destruct (getitem_int c0 i) as [c0'|] eqn:Hc0; cbn in Hrow; [|discriminate].
  destruct (row t i) as [r0|] eqn:Ht; cbn in Hrow; [|discriminate].
  injection Hrow as <-. cbn.
  destruct (String.eqb n name).
  - injection Hget as <-. eauto.
  - apply (IH r0); [reflexivity | exact Hget].
Qed.

Lemma row_getitem_inv (t r : table) (i : nat) (name : string) (c' : column) :
  row t i = Ok r ->
  getitem r name = Ok c' ->
  exists c, getitem t name = Ok c /\ getitem_int c i = Ok c'.
Proof.
  revert r.
  induction t as [|[n c0] t IH]; intros r Hrow Hget.
  - cbn in Hrow. injection Hrow as <-. discriminate.
  - rewrite row_cons in Hrow.
    destruct (getitem_int c0 i) as [c0'|] eqn:Hc0; cbn in Hrow; [|discriminate].
    destruct (row t i) as [r0|] eqn:Ht; cbn in Hrow; [|discriminate].
    injection Hrow as <-. cbn in Hget |- *.
    destruct (String.eqb n name).
    + injection Hget as <-. eauto.
    + apply (IH r0); [reflexivity | exact Hget].
Qed.

Lemma row_total (n : nat) (t : table) (i : nat) :
  rectangular n t -> i < n -> exists r, row t i = Ok r /\ rectangular 1 r.
Proof.
  intros Hrect Hi. induction Hrect as [|[n0 c0] t Hc0 _ (r & Hr & Hrect')].
  - exists []. split; [reflexivity | constructor].
  - cbn in Hc0. destruct (getitem_int_total c0 i) as [c' Hc']; [lia|].
    exists ((n0, c') :: r). rewrite row_cons, Hc', Hr. cbn.
    split; [reflexivity|]. constructor; [|exact Hrect'].
    cbn. apply getitem_int_data in Hc' as (x & _ & Hd). unfold size. rewrite Hd. reflexivity.
Qed.

(** X1.  Cell 25 of notebook 3 picks the brightest source: on a table
    whose columns have one length [n] and whose magnitude column has no
    masked entry, the cell raises [ValueError] when the table is empty;
    otherwise [hd219829_row] is row [i] of every column, where [i] is
    the first position of the smallest magnitude when no magnitude is a
    NaN, and the position of the first NaN when there is one. *)
Theorem hd219829_row_is_brightest (gaia_tbl : table) (n : nat) (mag : column) :
  rectangular n gaia_tbl ->
  getitem gaia_tbl "phot_g_mean_mag" = Ok mag ->
  Forall (fun e => snd e = false) (entries mag) ->
  (n = 0 -> hd219829_row gaia_tbl = Raise ValueError)
  /\ (0 < n ->
      exists i m r,
        hd219829_row gaia_tbl = Ok r
        /\ i < n /\ nth_error (data mag) i = Some m
        /\ (forall name c, getitem gaia_tbl name = Ok c ->
              exists x c', nth_error (data c) i = Some x
                           /\ getitem r name = Ok c' /\ data c' = [x])
        /\ (Forall (fun y => isnan y = false) (data mag) ->
            Forall (fun y => lt y m = false) (data mag)
            /\ Forall (fun y => lt m y = true) (firstn i (data mag)))
        /\ (Exists (fun y => isnan y = true) (data mag) ->
            isnan m = true
            /\ Forall (fun y => isnan y = false) (firstn i (data mag)))).
Proof.
  intros Hrect Hmag Hplain.
  pose proof (getitem_rectangular n gaia_tbl _ mag Hrect Hmag) as Hsize.
  unfold size in Hsize. unfold hd219829_row. rewrite Hmag. cbn [bind].
  pose proof (argmin_spec mag Hplain) as Hspec.
  split.
  - intros ->. destruct (data mag) eqn:Hd; [|discriminate].
    unfold argmin. rewrite (competing_unmasked mag Hplain), Hd. reflexivity.
  - intros Hn. destruct (argmin mag) as [i|e].
    2:{ destruct Hspec as [_ Hd]. rewrite Hd in Hsize. cbn in Hsize. lia. }
    destruct Hspec as (m & Hm & Hnan & Hmin). cbn [bind].
    assert (Hi : i < n) by (rewrite <- Hsize; apply nth_error_Some; congruence).
    destruct (row_total n gaia_tbl i Hrect Hi) as (r & Hr & _).
    exists i, m, r. rewrite Hr.
    split; [reflexivity|]. split; [exact Hi|]. split; [exact Hm|]. split.
    { intros name c Hc. destruct (row_getitem _ _ _ _ _ Hr Hc) as (c' & Hc' & Hint).
      apply getitem_int_data in Hint as (x & Hx & Hd). eauto. }
    split.
    + intros Hall.
      assert (Hmn : isnan m = false).
      { apply nth_error_In in Hm. rewrite List.Forall_forall in Hall. auto. }
      destruct (Hmin Hmn) as [Hlow Hfirst]. split; [|exact Hfirst].
      eapply Forall_impl; [exact Hlow|]. intros y [_ Hy]. exact Hy.
    + intros Hex. destruct (isnan m) eqn:Hmn; [auto|].
      destruct (Hmin eq_refl) as [Hlow _]. apply List.Exists_exists in Hex as (y & Hy & Hyn).
      rewrite List.Forall_forall in Hlow. destruct (Hlow y Hy) as [Hc _]. congruence.
Qed.

Lemma getitem_raises (t : table) (name : string) (e : exn) :
  getitem t name = Raise e -> e = KeyError.
Proof.
  induction t as [|[n c] t IH]; cbn; [congruence|].
  destruct (String.eqb n name); [discriminate | exact IH].
Qed.

Lemma getitem_absent (t : table) (name : string) :
  ~ In name (map fst t) -> getitem t name = Raise KeyError.
Proof.
  induction t as [|[n c] t IH]; cbn; intros Hin; [reflexivity|].
  destruct (String.eqb_spec n name) as [->|Hne]; [tauto|]. apply IH. tauto.
Qed.

Lemma select_names (t chosen : table) (names : list string) :
  select t names = Ok chosen -> map fst chosen = names.
Proof.
  unfold select. intros H. apply mapM_Forall2 in H.
  induction H as [|n [n' c] names chosen Hn _ IH]; cbn; [reflexivity|].
  destruct (getitem t n); cbn in Hn; [|discriminate]. injection Hn as <- _.
  rewrite IH. reflexivity.
Qed.

Lemma select_total (t : table) (names : list string) :
  has_columns names t -> exists chosen, select t names = Ok chosen.
Proof.
  unfold select. intros H. induction H as [|n names [c Hc] _ [chosen IH]]; cbn.
  - eauto.
  - rewrite Hc, IH. cbn. eauto.
Qed.

Lemma select_missing (t : table) (names : list string) (name : string) :
  In name names -> getitem t name = Raise KeyError -> select t names = Raise KeyError.
Proof.
  unfold select. induction names as [|n names IH]; intros Hin Hmiss; [destruct Hin|].
  cbn. destruct (getitem t n) as [c|e] eqn:Hn; cbn.
  - destruct Hin as [-> | Hin]; [congruence|]. rewrite (IH Hin Hmiss). reflexivity.
  - apply getitem_raises in Hn. subst e. reflexivity.
Qed.

(** ** The coordinate of HD 219829 (notebook 3, cells 25, 27 and 36) *)

Lemma Distance_one (f : float -> float) (c : array float) (x : float) :
  entries c = [(x, false)] ->
  Distance f c = if lt x zero then Raise ValueError else Ok [f x].
Proof.
  unfold Distance. intros He.
  assert (Hd : data c = [x]).
  { destruct c as [d|es]; cbn in *.
    - destruct d as [|y [|z d]]; cbn in He; try discriminate. congruence.
    - rewrite He. reflexivity. }
  rewrite He, Hd. cbn. destruct (lt x zero); reflexivity.
Qed.

Lemma getitem_int_entries {A} (c c' : array A) (i : nat) :
  getitem_int c i = Ok c' ->
  exists e, nth_error (entries c) i = Some e /\ entries c' = [e].
Proof.
  unfold getitem_int. destruct c as [d|es]; cbn.
  - rewrite nth_error_map. destruct (nth_error d i) as [x|]; [|discriminate].
    intros [= <-]. cbn. eauto.
  - destruct (nth_error es i) as [e|]; [|discriminate]. intros [= <-]. eauto.
Qed.

Lemma row_entry (t r : table) (n i : nat) (name : string) :
  rectangular n t -> i < n -> row t i = Ok r ->
  (exists c, getitem t name = Ok c) ->
  exists x c', entry t name i = Some x /\ getitem r name = Ok c' /\ data c' = [x].
Proof.
  intros Hrect Hi Hrow [c Hc].
  destruct (row_getitem _ _ _ _ _ Hrow Hc) as (c' & Hc' & Hint).
  apply getitem_int_data in Hint as (x & Hx & Hd).
  exists x, c'. unfold entry. rewrite Hc. auto.
Qed.

(** X2.  Cells 25, 27 and 36 of notebook 3 on a table whose columns
    have one length and include the seven the assignments read, with no
    masked entry in these seven.  On an empty
    table cell 25 raises [ValueError].  Otherwise, with [i] the row cell
    25 picks: the second statement of cell 25 shows [source_id], [pmra]
    and [pmdec] of row [i], or raises [KeyError] when the table has no
    [source_id] column, [hd219829_row] staying bound; when the parallax
    of row [i] is negative, cell 27 raises [ValueError]; when it is not,
    [hd219829_coord] is the one source with the position, proper motion
    and reference epoch of row [i] and the distance of its parallax,
    without a radial velocity; cell 36 moves it to the epoch J1950, and
    the moved coordinate has a radial velocity. *)
Theorem hd219829_coord_is_the_picked_row
    (parallax_to_pc : float -> float)
    (space_motion : option epoch -> epoch -> point -> point)
    (n : nat) (gaia_tbl : table) (mag : column) :
  rectangular n gaia_tbl ->
  has_columns hd219829_columns gaia_tbl ->
  (forall name c, In name hd219829_columns -> getitem gaia_tbl name = Ok c ->
                  Forall (fun e => snd e = false) (entries c)) ->
  getitem gaia_tbl "phot_g_mean_mag" = Ok mag ->
  (n = 0 ->
   hd219829_row gaia_tbl = Raise ValueError
   /\ hd219829_coord parallax_to_pc gaia_tbl = Raise ValueError)
  /\ (0 < n ->
      exists i r ra dec plx pmra pmdec ref_epoch,
        argmin mag = Ok i /\ hd219829_row gaia_tbl = Ok r
        /\ entry gaia_tbl "ra" i = Some ra /\ entry gaia_tbl "dec" i = Some dec
        /\ entry gaia_tbl "parallax" i = Some plx
        /\ entry gaia_tbl "pmra" i = Some pmra /\ entry gaia_tbl "pmdec" i = Some pmdec
        /\ entry gaia_tbl "ref_epoch" i = Some ref_epoch
        /\ (getitem gaia_tbl "source_id" = Raise KeyError ->
            show_hd219829_row r = Raise KeyError)
        /\ (forall id, entry gaia_tbl "source_id" i = Some id ->
              exists shown,
                show_hd219829_row r = Ok shown
                /\ map (fun nc => (fst nc, data (snd nc))) shown
                   = [("source_id", [id]); ("pmra", [pmra]); ("pmdec", [pmdec])])
        /\ (lt plx zero = true ->
            hd219829_coord parallax_to_pc gaia_tbl = Raise ValueError)
        /\ (lt plx zero = false ->
            let c := {| frame_of := ICRS; lon := [ra]; lat := [dec];
                        distance := Some [parallax_to_pc plx];
                        proper_motion := Some ([pmra], [pmdec]);
                        radial_velocity := None;
                        obstime := Some (JYear ref_epoch) |} in
            hd219829_coord parallax_to_pc gaia_tbl = Ok c
            /\ exists c' rv, hd219829_coord_1950 space_motion c = Ok c'
                             /\ sc_size c' = 1
                             /\ obstime c' = Some (Epoch "J1950")
                             /\ radial_velocity c' = Some [rv])).
Proof.
  intros Hrect Hcols Hunmasked Hmag.
  pose proof (Hunmasked "phot_g_mean_mag" mag ltac:(cbn; tauto) Hmag) as Hplain.
  unfold has_columns, hd219829_columns in Hcols.
  repeat match goal with
         | H : Forall _ (_ :: _) |- _ => apply Forall_cons in H; destruct H as [? H]
         end.
  assert (Hpar : exists parallax, getitem gaia_tbl "parallax" = Ok parallax) by assumption.
  destruct Hpar as [parallax Hpar].
  pose proof (Hunmasked "parallax" parallax ltac:(cbn; tauto) Hpar) as Hparplain.
  pose proof (getitem_rectangular n gaia_tbl _ mag Hrect Hmag) as Hsize.
  unfold size in Hsize.
  pose proof (argmin_spec mag Hplain) as Hspec.
  split.
  - intros ->. destruct (data mag) eqn:Hd; [|discriminate].
    assert (Harg : argmin mag = Raise ValueError).
    { unfold argmin. rewrite (competing_unmasked mag Hplain), Hd. reflexivity. }
    unfold hd219829_row, hd219829_coord. rewrite Hmag. cbn [bind]. rewrite Harg.
    split; reflexivity.
  - intros Hn. destruct (argmin mag) as [i|e] eqn:Harg.
    2:{ destruct Hspec as [_ Hd]. rewrite Hd in Hsize. cbn in Hsize. lia. }
    destruct Hspec as (m & Hm & _).
    assert (Hi : i < n) by (rewrite <- Hsize; apply nth_error_Some; congruence).
    destruct (row_total n gaia_tbl i Hrect Hi) as (r & Hr & _).
    destruct (row_entry gaia_tbl r n i "ra" Hrect Hi Hr) as (ra & cra & Era & Hra & Dra);
      [assumption|].
    destruct (row_entry gaia_tbl r n i "dec" Hrect Hi Hr) as (dec & cdec & Edec & Hdec & Ddec);
      [assumption|].
    destruct (row_entry gaia_tbl r n i "parallax" Hrect Hi Hr)
      as (plx & cplx & Eplx & Hplx & Dplx); [assumption|].
    destruct (row_entry gaia_tbl r n i "pmra" Hrect Hi Hr)
      as (pmra & cpmra & Epmra & Hpmra & Dpmra); [assumption|].
    destruct (row_entry gaia_tbl r n i "pmdec" Hrect Hi Hr)
      as (pmdec & cpmdec & Epmdec & Hpmdec & Dpmdec); [assumption|].
    destruct (row_entry gaia_tbl r n i "ref_epoch" Hrect Hi Hr)
      as (ep & cep & Eep & Hep & Dep); [assumption|].
    assert (Hrow : hd219829_row gaia_tbl = Ok r).
    { unfold hd219829_row. rewrite Hmag. cbn [bind]. rewrite Harg. exact Hr. }
    assert (Heplx : entries cplx = [(plx, false)]).
    { destruct (row_getitem _ _ _ _ _ Hr Hpar) as (c' & Hc' & Hint).
      rewrite Hplx in Hc'. injection Hc' as <-.
      pose proof (getitem_int_data _ _ _ Hint) as (x & Hx & Hd).
      apply getitem_int_entries in Hint as ([y my] & Hy & He).
      rewrite List.Forall_forall in Hparplain.
      pose proof (Hparplain _ (nth_error_In _ _ Hy)) as Hmy. cbn in Hmy. subst my.
      rewrite He. f_equal. f_equal.
      assert (Hdy : data cplx = [y]).
      { destruct cplx as [d|es]; cbn in He |- *.
        - destruct d as [|z [|z' d]]; cbn in He; try discriminate. congruence.
        - rewrite He. reflexivity. }
      congruence. }
    exists i, r, ra, dec, plx, pmra, pmdec, ep.
    repeat (split; [assumption || reflexivity|]).
    split.
    { intros Hmiss. unfold show_hd219829_row.
      apply (select_missing r _ "source_id"); [cbn; auto|].
      destruct (getitem r "source_id") as [c'|e] eqn:Hc';
        [|apply getitem_raises in Hc'; subst e; reflexivity].
      destruct (row_getitem_inv _ _ _ _ _ Hr Hc') as (c0 & Hc0 & _). congruence. }
    split.
    { intros id Hid. unfold entry in Hid.
      destruct (getitem gaia_tbl "source_id") as [cid|] eqn:Hcid; [|discriminate].
      destruct (row_getitem _ _ _ _ _ Hr Hcid) as (cid' & Hcid' & Hint).
      apply getitem_int_data in Hint as (x & Hx & Hd).
      rewrite Hid in Hx. injection Hx as <-.
      eexists. split.
      - unfold show_hd219829_row, select. cbn [mapM bind].
        rewrite Hcid', Hpmra, Hpmdec. reflexivity.
      - cbn. rewrite Hd, Dpmra, Dpmdec. reflexivity. }
    assert (Hunfold : hd219829_coord parallax_to_pc gaia_tbl
                      = (let* dist := Distance parallax_to_pc cplx in
                         SkyCoord_new ICRS [ra] [dec] (Some dist) (Some ([pmra], [pmdec]))
                           None (Some (JYear ep)))).
    { unfold hd219829_coord. rewrite Hmag. cbn [bind]. rewrite Harg. cbn [bind].
      rewrite Hr. cbn [bind]. rewrite Hra, Hdec, Hplx. cbn [bind].
      destruct (Distance parallax_to_pc cplx); cbn [bind]; [|reflexivity].
      rewrite Hpmra, Hpmdec, Hep. cbn [bind].
      rewrite Dra, Ddec, Dpmra, Dpmdec, Dep. reflexivity. }
    rewrite Hunfold, (Distance_one parallax_to_pc cplx plx Heplx).
    split.
    + intros ->. reflexivity.
    + intros ->. cbn. split; [reflexivity|].
      eexists. eexists. split; [reflexivity|]. cbn. auto.
Qed.

(** ** The representation classes listed in notebook 2 (cell 10) *)

Lemma startswith_spec (s p : string) :
  startswith s p = true <-> exists q, s = p ++ q.
Proof.
  unfold startswith. revert s. induction p as [|a p IH]; intros s.
  - split; [intros _; exists s; reflexivity | intros _; destruct s; reflexivity].
  - destruct s as [|b s]; cbn; [split; [discriminate | intros [q Hq]; discriminate]|].
    destruct (Ascii.ascii_dec a b) as [->|Hne].
    + rewrite IH. split; intros [q Hq]; exists q; [rewrite Hq; reflexivity|].
      cbn in Hq. injection Hq as ->. reflexivity.
    + split; [discriminate|].
      intros [q Hq]. cbn in Hq. injection Hq as Hb _. symmetry in Hb. contradiction.
Qed.

Lemma endswith_spec (s p : string) :
  endswith s p = true <-> exists q, s = q ++ p.
Proof.
  induction s as [|a s IH]; cbn [endswith].
  - rewrite orb_false_r. split.
    + intros H. apply String.eqb_eq in H. exists "". rewrite <- H. reflexivity.
    + intros [[|b q] Hq]; cbn in Hq; [|discriminate]. apply String.eqb_eq. exact Hq.
  - rewrite orb_true_iff, IH. split.
    + intros [H | [q Hq]].
      * apply String.eqb_eq in H. exists "". exact H.
      * exists (String a q). cbn. rewrite Hq. reflexivity.
    + intros [[|b q] Hq]; cbn in Hq.
      * left. apply String.eqb_eq. exact Hq.
      * right. injection Hq as -> ->. eauto.
Qed.

(** X3.  The list shown by cell 10 of notebook 2 holds exactly the names
    of [dir(coord)] that end in "Representation" and do not start with
    "Base", in the order [dir] lists them and as often. *)
Theorem representation_names_spec (dir_coord : list string) :
  (forall x, In x (representation_names dir_coord)
             <-> In x dir_coord
                 /\ (exists p, x = p ++ "Representation")
                 /\ ~ (exists q, x = "Base" ++ q))
  /\ sublist (representation_names dir_coord) dir_coord
  /\ representation_names (representation_names dir_coord)
     = representation_names dir_coord
  /\ (forall more, representation_names (dir_coord ++ more)%list
                   = (representation_names dir_coord ++ representation_names more)%list)
  /\ representation_names ["BaseRepresentation"; "Representation"; "Base";
                           "CartesianRepresentation"; "CartesianDifferential"]
     = ["Representation"; "CartesianRepresentation"].
Proof.
  unfold representation_names.
  split; [|split; [|split; [|split; [|reflexivity]]]].
  - intros x. rewrite filter_In, andb_true_iff, endswith_spec.
    assert (Hs : negb (startswith x "Base") = true <-> ~ (exists q, x = "Base" ++ q)).
    { rewrite <- startswith_spec. destruct (startswith x "Base"); cbn.
      - split; [discriminate | intros H; exfalso; apply H; reflexivity].
      - split; [intros _; discriminate | reflexivity]. }
    rewrite Hs. tauto.
  - induction dir_coord as [|x l IH]; cbn; [constructor|].
    destruct (_ && _); [apply sublist_skip | apply sublist_cons]; exact IH.
  - induction dir_coord as [|x l IH]; cbn; [reflexivity|].
    destruct (_ && _) eqn:Hx; cbn; [rewrite Hx, IH; reflexivity | exact IH].
  - intros more. apply List.filter_app.
Qed.

(** ** The brightness cut of notebook 1 (cell 28) *)

Lemma count_nonzero_from (k : nat) (m : list bool) :
  length (nonzero_from k m) = length (List.filter (fun b : bool => b) m).
Proof.
  revert k. induction m as [|b m IH]; intros k; cbn; [reflexivity|].
  destruct b; cbn; rewrite IH; reflexivity.
Qed.

Lemma filter_map_length {A} (f : A -> bool) (l : list A) :
  length (List.filter (fun b : bool => b) (map f l)) = length (List.filter f l).
Proof.
  induction l as [|x l IH]; cbn; [reflexivity|].
  destruct (f x); cbn; rewrite IH; reflexivity.
Qed.

(** X4.  Cell 28 of notebook 1, once the archive has answered.  When the
    answer has no [phot_g_mean_mag] column the cell raises [KeyError]
    after [ngc188_table] was bound to the whole answer.  When the answer
    has the column and its columns have one length, the cell binds
    [job] to the answer and [ngc188_table] to its rows of stored
    magnitude below 19, every column cut by the one mask and in the
    order of the answer; a NaN magnitude is not below 19; the files are
    not touched. *)
Theorem query_gaia_keeps_bright_sources
    (net : network) (st : state) (c : SkyCoord) (response : table) :
  namespace st !! "ngc188_center" = Some (VCoord c) ->
  gaia_cone_search net c (f0_5, "deg") = Some response ->
  (getitem response "phot_g_mean_mag" = Raise KeyError ->
   query_gaia net st
   = ({| namespace := <["ngc188_table" := VTable response]>
                        (<["job" := VJob response]> (namespace st));
         files := files st |}, Raise KeyError))
  /\ (forall n mag,
        rectangular n response ->
        getitem response "phot_g_mean_mag" = Ok mag ->
        let keep := map (fun x => lt x f19) (data mag) in
        exists bright g,
          query_gaia net st
          = ({| namespace := <["ngc188_table" := VTable bright]>
                               (<["job" := VJob response]> (namespace st));
                files := files st |}, Ok tt)
          /\ rectangular (length (List.filter (fun x => lt x f19) (data mag))) bright
          /\ map fst bright = map fst response
          /\ (forall name col,
                getitem response name = Ok col ->
                exists col', getitem bright name = Ok col'
                             /\ entries col' = compress keep (entries col))
          /\ getitem bright "phot_g_mean_mag" = Ok g
          /\ Forall (fun x => lt x f19 = true /\ isnan x = false) (data g)).
Proof.
  intros Hc Hq. split.
  - intros Hmag. unfold query_gaia, bindM, load, lift, remote, store.
    rewrite Hc. cbn. rewrite Hq. cbn. rewrite Hmag. cbn. reflexivity.
  - intros n mag Hrect Hmag keep.
    pose proof (getitem_rectangular n response _ mag Hrect Hmag) as Hsize.
    destruct (rows_total n response (amap (fun x => lt x f19) mag) Hrect) as (bright & Hrows & Hr).
    { rewrite size_amap. exact Hsize. }
    destruct (rows_getitem _ _ _ _ _ Hrows Hmag) as (g & Hg & Hsel).
    exists bright, g. split; [|split; [|split; [|split; [|split]]]].
    + unfold query_gaia, bindM, load, lift, remote, store.
      rewrite Hc. cbn. rewrite Hq. cbn. rewrite Hmag. cbn. rewrite Hrows. cbn.
      rewrite insert_insert_eq. reflexivity.
    + rewrite data_amap in Hr. unfold nonzero in Hr.
      rewrite count_nonzero_from, filter_map_length in Hr. exact Hr.
    + clear -Hrows. revert bright Hrows.
      induction response as [|[n0 c0] t IH]; intros bright Hrows.
      * cbn in Hrows. injection Hrows as <-. reflexivity.
      * rewrite rows_cons in Hrows.
        destruct (getitem_bool c0 _) as [c0'|]; cbn in Hrows; [|discriminate].
        destruct (rows t _) as [t0|] eqn:Ht; cbn in Hrows; [|discriminate].
        injection Hrows as <-. cbn. f_equal. apply IH. reflexivity.
    + intros name col Hcol.
      destruct (rows_getitem _ _ _ _ _ Hrows Hcol) as (col' & Hcol' & Hsel').
      exists col'. split; [exact Hcol'|].
      apply getitem_bool_data in Hsel' as (_ & _ & He & _).
      rewrite He, data_amap. reflexivity.
    + exact Hg.
    + apply getitem_bool_data in Hsel as (_ & Hd & _).
      rewrite Hd, data_amap.
      eapply Forall_impl;
        [apply (compress_map_self (fun x : float => lt x f19))|].
      intros x Hx. split; [exact Hx|]. destruct x; try reflexivity. discriminate.
Qed.

(** ** Writing and reading the Gaia snapshot (notebook 1, cells 29 and 31) *)

(** X5.  Cells 29 and 31 of notebook 1 on a bound [ngc188_table].  When
    the table has the eleven columns of [cols], the file written holds
    exactly these columns, in the order of [cols] and with the table's
    entries, and reading it back binds [ngc188_table] to what was
    written: any other column of the table is gone.  When one of the
    eleven columns is missing, cell 29 raises [KeyError] and writes
    nothing. *)
Theorem gaia_results_round_trip (net : network) (st : state) (t : table) :
  namespace st !! "ngc188_table" = Some (VTable t) ->
  (has_columns cols t ->
   exists chosen,
     run [write_gaia_results; read_gaia_results] net st
     = ({| namespace := <["ngc188_table" := VTable chosen]>
                          (<["cols" := VStrings cols]> (namespace st));
           files := <["gaia_results.fits" := chosen]> (files st) |}, [])
     /\ map fst chosen = cols
     /\ (forall name, In name cols -> getitem chosen name = getitem t name)
     /\ (forall name, ~ In name cols -> getitem chosen name = Raise KeyError))
  /\ (forall name,
        In name cols -> getitem t name = Raise KeyError ->
        write_gaia_results net st
        = ({| namespace := <["cols" := VStrings cols]> (namespace st);
              files := files st |}, Raise KeyError)).
Proof.
  intros Ht. split.
  - intros Hcols. destruct (select_total t cols Hcols) as [chosen Hsel].
    exists chosen. split; [|split; [|split]].
    + unfold run, write_gaia_results, read_gaia_results, bindM, QTable_read, store, load,
        lift, write.
      cbn -[select]. rewrite lookup_insert_ne by discriminate. rewrite Ht. cbn -[select].
      rewrite lookup_insert_eq. cbn -[select]. rewrite Hsel. cbn.
      rewrite lookup_insert_eq. reflexivity.
    + exact (select_names t chosen cols Hsel).
    + intros name Hin. exact (select_getitem t chosen cols name Hsel Hin).
    + intros name Hin. apply getitem_absent.
      rewrite (select_names t chosen cols Hsel). exact Hin.
  - intros name Hin Hmiss.
    unfold write_gaia_results, bindM, store, load, lift.
    cbn -[select]. rewrite lookup_insert_ne by discriminate. rewrite Ht. cbn -[select].
    rewrite lookup_insert_eq. cbn -[select].
    rewrite (select_missing t cols name Hin Hmiss). reflexivity.
Qed.

(** ** The 2MASS query (notebook 4, cell 7) *)

(** X6.  The four ways cell 7 of notebook 4 ends.  In each of them [v]
    is bound to the client for catalogue II/246 with its row limit
    lifted.  Without [ngc188_center_3d] the cell raises [NameError];
    without an answer, [ConnectionError]; on an answer without tables,
    [IndexError], with [result] bound to the empty list; [tmass_table]
    is bound only in the fourth case, to the first table of the
    answer. *)
Theorem query_2mass_outcomes (net : network) (st : state) :
  let client := <["v" := VVizier "II/246" ["*"; "Date"] (-1)]> (namespace st) in
  (namespace st !! "ngc188_center_3d" = None ->
   query_2mass net st = ({| namespace := client; files := files st |}, Raise NameError))
  /\ (forall c,
        namespace st !! "ngc188_center_3d" = Some (VCoord c) ->
        match vizier_query_region net "II/246" c (f0_5, "deg") with
        | None =>
            query_2mass net st
            = ({| namespace := client; files := files st |}, Raise ConnectionError)
        | Some [] =>
            query_2mass net st
            = ({| namespace := <["result" := VTableList []]> client; files := files st |},
               Raise IndexError)
        | Some (first :: others) =>
            query_2mass net st
            = ({| namespace := <["tmass_table" := VTable first]>
                                 (<["result" := VTableList (first :: others)]> client);
                  files := files st |}, Ok tt)
        end).
Proof.
  intros client. subst client.
  unfold query_2mass, bindM, remote, store, load, lift.
  cbn. rewrite !lookup_insert_ne by discriminate. rewrite insert_insert_eq. split.
  - intros ->. reflexivity.
  - intros c ->. cbn.
    destruct (vizier_query_region net "II/246" c (f0_5, "deg")) as [[|first others]|];
      reflexivity.
Qed.

(** ** A missing catalogue file in notebook 2 (cells 25, 27 and 35) *)

(** X7.  Notebook 2 without its catalogue file, in a kernel that binds
    neither [tbl] nor [open_cluster_c]: cell 25 raises
    [FileNotFoundError], cells 27 and 35 raise [NameError], and nothing
    is bound.  With a file that lacks one of the columns [ra], [dec],
    [distance], cell 25 binds [tbl], cell 27 raises [KeyError] and cell
    35 [NameError]. *)
Theorem open_clusters_without_catalogue
    (frame_math : frame -> SkyCoord -> SkyCoord) (net : network) (st : state) :
  namespace st !! "tbl" = None ->
  namespace st !! "open_cluster_c" = None ->
  let cells := [read_open_clusters; make_open_cluster_c;
                transform_open_clusters frame_math] in
  (files st !! "Cantat-Gaudin-open-clusters.ecsv" = None ->
   run cells net st = (st, [FileNotFoundError; NameError; NameError]))
  /\ (forall tbl name,
        files st !! "Cantat-Gaudin-open-clusters.ecsv" = Some tbl ->
        In name ["ra"; "dec"; "distance"] ->
        getitem tbl name = Raise KeyError ->
        run cells net st
        = ({| namespace := <["tbl" := VTable tbl]> (namespace st); files := files st |},
           [KeyError; NameError])).
Proof.
  intros Htbl Hoc cells. subst cells. split.
  - intros Hfile.
    unfold run, read_open_clusters, make_open_cluster_c, transform_open_clusters,
      assign_transform, bindM, QTable_read, load, lift, store.
    rewrite Hfile, Htbl, Hoc. destruct st. reflexivity.
  - intros tbl name Hfile Hin Hmiss.
    unfold run, read_open_clusters, make_open_cluster_c, transform_open_clusters,
      assign_transform, bindM, QTable_read, load, lift, store.
    rewrite Hfile. cbn -[SkyCoord_new]. rewrite lookup_insert_eq. cbn -[SkyCoord_new].
    assert (Hk : forall n, getitem tbl n = Raise KeyError
                           \/ exists c, getitem tbl n = Ok c).
    { intros n0. destruct (getitem tbl n0) as [c|e] eqn:E; [eauto|].
      apply getitem_raises in E. subst e. auto. }
    assert (Hlast : <["tbl" := VTable tbl]> (namespace st) !! "open_cluster_c" = None).
    { rewrite lookup_insert_ne by discriminate. exact Hoc. }
    destruct (Hk "ra") as [Hra | [ra Hra]]; rewrite Hra; cbn -[SkyCoord_new];
      [rewrite Hlast; reflexivity|].
    destruct (Hk "dec") as [Hdec | [dec Hdec]]; rewrite Hdec; cbn -[SkyCoord_new];
      [rewrite Hlast; reflexivity|].
    destruct (Hk "distance") as [Hdist | [dist Hdist]]; rewrite Hdist; cbn -[SkyCoord_new];
      [rewrite Hlast; reflexivity|].
    exfalso. cbn in Hin. destruct Hin as [<- | [<- | [<- | []]]]; congruence.
Qed.

(** ** The signal-to-noise cut of notebook 1 (cell 48) *)




(** ** Distances in notebook 1 (cells 46 to 60) *)



Lemma length_compress_le {A} (m : list bool) (l : list A) :
  length (compress m l) <= length l.
Proof.
  revert m. induction l as [|x l IH]; intros [|b m]; cbn; try lia.
  destruct b; cbn; specialize (IH m); lia.
Qed.


(** ** The member selection of notebook 4 (cell 4), its table and its mask *)

Lemma select_members_steps parallax_to_pc separation_pc gaia s :
  select_members parallax_to_pc separation_pc gaia = Ok s ->
  exists p0 t0 v1 v2 v3 r1 r2 r3 pmra pmdec,
    getitem gaia "parallax" = Ok p0
    /\ rows gaia (amap (fun x => gt x f0_25) p0) = Ok t0
    /\ (getitem t0 "pmra" = Ok v1 /\ getitem t0 "pmdec" = Ok v2
        /\ getitem t0 "radial_velocity" = Ok v3)
    /\ (fill_velocity v1 = Ok r1 /\ fill_velocity v2 = Ok r2 /\ fill_velocity v3 = Ok r3)
    /\ ngc188_table s
       = (let t1 := if has_mask v1 then t0 else setitem t0 "pmra" r1 in
          let t2 := if has_mask v2 then t1 else setitem t1 "pmdec" r2 in
          if has_mask v3 then t2 else setitem t2 "radial_velocity" r3)
    /\ (getitem (ngc188_table s) "pmra" = Ok pmra
        /\ getitem (ngc188_table s) "pmdec" = Ok pmdec)
    /\ proper_motion_distance pmra pmdec fm2_3087 fm0_9565 = Ok (pm_diff s)
    /\ amap2 andb (amap (fun x => lt x f50) (sep3d s))
                  (amap (fun x => lt x f1_5) (pm_diff s))
       = Ok (ngc188_members_mask s)
    /\ rows (ngc188_table s) (ngc188_members_mask s) = Ok (ngc188_members s).
Proof.
  intros H. unfold select_members in H.
  change (SkyCoord_new ICRS [f12_11] [f85_26] (Some [f1960])
            (Some ([fm2_3087], [fm0_9565])) None None)
    with (Ok {| frame_of := ICRS; lon := [f12_11]; lat := [f85_26];
                distance := Some [f1960];
                proper_motion := Some ([fm2_3087], [fm0_9565]);
                radial_velocity := None; obstime := None |}) in H.
  cbn [proper_motion] in H. bind_inv H.
  match goal with E : make_velocity_data _ = Ok _ |- _ =>
    unfold make_velocity_data, velocity_columns in E; cbn [mapM bind fst snd] in E end.
  bind_inv_all.
  match goal with E : fill_loop _ _ = Ok _ |- _ => cbn [fill_loop] in E end.
  bind_inv_all.
  cbn [fst snd] in *.
  cbn [ngc188_table ngc188_center_3d parallax velocity_data ngc188_coords_3d sep3d pm_diff
       ngc188_members_mask ngc188_members ngc188_members_coords].
  do 10 eexists. repeat split; try (eassumption || reflexivity).
Qed.

Lemma loop_table_getitem (t0 : table) (v1 v2 v3 r1 r2 r3 : column) (name : string) :
  getitem (let t1 := if has_mask v1 then t0 else setitem t0 "pmra" r1 in
           let t2 := if has_mask v2 then t1 else setitem t1 "pmdec" r2 in
           if has_mask v3 then t2 else setitem t2 "radial_velocity" r3) name
  = if String.eqb "radial_velocity" name && negb (has_mask v3) then Ok r3
    else if String.eqb "pmdec" name && negb (has_mask v2) then Ok r2
    else if String.eqb "pmra" name && negb (has_mask v1) then Ok r1
    else getitem t0 name.
Proof.
  cbv zeta.
  destruct (has_mask v1), (has_mask v2), (has_mask v3); rewrite ?getitem_setitem;
    rewrite ?andb_false_r, ?andb_true_r; cbn [negb];
    repeat match goal with
           | |- context [String.eqb ?a name] => destruct (String.eqb a name)
           end; reflexivity.
Qed.

(** X10.  What cell 4 of notebook 4 leaves in [ngc188_table].  The loop
    over [velocity_data] assigns 0.0 through the dictionary; for a
    column without a mask the dictionary holds the table's own column,
    so the table's column is overwritten: its NaN entries are 0.0
    afterwards.  A masked column is copied by [filled] first, and the
    table keeps it as it was.  No other column changes, and
    [ngc188_members] is cut from the table as the loop left it. *)
Theorem fill_loop_writes_into_unmasked_columns
    (parallax_to_pc : float -> float) (separation_pc : point -> point -> float)
    (n : nat) (gaia : table) :
  rectangular n gaia ->
  has_columns selection_columns gaia ->
  let fill := fun e : float * bool => if snd e || isnan (fst e) then zero else fst e in
  let velocities := ["pmra"; "pmdec"; "radial_velocity"] in
  exists s p0 t0,
    select_members parallax_to_pc separation_pc gaia = Ok s
    /\ getitem gaia "parallax" = Ok p0
    /\ rows gaia (amap (fun x => gt x f0_25) p0) = Ok t0
    /\ (forall name v,
          In name velocities -> getitem t0 name = Ok v ->
          getitem (ngc188_table s) name
          = Ok (if has_mask v then v else Plain (map fill (entries v))))
    /\ (forall name, ~ In name velocities ->
                     getitem (ngc188_table s) name = getitem t0 name)
    /\ (forall name c,
          getitem (ngc188_table s) name = Ok c ->
          exists c', getitem (ngc188_members s) name = Ok c'
                     /\ entries c' = compress (data (ngc188_members_mask s)) (entries c)).
Proof.
  intros Hrect Hcols fill velocities.
  destruct (select_members_total parallax_to_pc separation_pc n gaia Hrect Hcols)
    as [s Hs].
  destruct (select_members_steps _ _ _ _ Hs)
    as (p0 & t0 & v1 & v2 & v3 & r1 & r2 & r3 & pmra & pmdec
        & Hp0 & Hrows & (Hv1 & Hv2 & Hv3) & (Hr1 & Hr2 & Hr3) & Ht & _ & _ & _ & Hmem).
  rewrite fill_velocity_eq in Hr1, Hr2, Hr3.
  injection Hr1 as <-. injection Hr2 as <-. injection Hr3 as <-.
  exists s, p0, t0. repeat split; try assumption.
  - intros name v Hin Hv. rewrite Ht, loop_table_getitem.
    cbn in Hin. destruct Hin as [<- | [<- | [<- | []]]]; cbn [String.eqb Ascii.eqb Bool.eqb andb].
    + rewrite Hv1 in Hv. injection Hv as <-. destruct (has_mask v1); [exact Hv1 | reflexivity].
    + rewrite Hv2 in Hv. injection Hv as <-. destruct (has_mask v2); [exact Hv2 | reflexivity].
    + rewrite Hv3 in Hv. injection Hv as <-. destruct (has_mask v3); [exact Hv3 | reflexivity].
  - intros name Hin. rewrite Ht, loop_table_getitem.
    assert (H1 : String.eqb "pmra" name = false)
      by (apply String.eqb_neq; intros <-; apply Hin; cbn; auto).
    assert (H2 : String.eqb "pmdec" name = false)
      by (apply String.eqb_neq; intros <-; apply Hin; cbn; auto).
    assert (H3 : String.eqb "radial_velocity" name = false)
      by (apply String.eqb_neq; intros <-; apply Hin; cbn; auto).
    rewrite H1, H2, H3. reflexivity.
  - intros name c Hc. destruct (rows_getitem _ _ _ _ _ Hmem Hc) as (c' & Hc' & Hsel).
    exists c'. split; [exact Hc'|].
    apply getitem_bool_data in Hsel as (_ & _ & He & _). exact He.
Qed.

(** ** Sources without a measured proper motion (notebook 4, cell 4) *)

Lemma nth_error_combine_Some {A B} (l1 : list A) (l2 : list B) (j : nat) (a : A) (b : B) :
  nth_error l1 j = Some a -> nth_error l2 j = Some b ->
  nth_error (combine l1 l2) j = Some (a, b).
Proof.
  revert l2 j. induction l1 as [|x l1 IH]; intros [|y l2] [|j]; cbn; try discriminate.
  - intros [= ->] [= ->]. reflexivity.
  - apply IH.
Qed.

Lemma nth_error_combine_inv {A B} (l1 : list A) (l2 : list B) (j : nat) (p : A * B) :
  nth_error (combine l1 l2) j = Some p ->
  nth_error l1 j = Some (fst p) /\ nth_error l2 j = Some (snd p).
Proof.
  revert l2 j. induction l1 as [|x l1 IH]; intros [|y l2] [|j]; cbn; try discriminate.
  - intros [= <-]. auto.
  - apply IH.
Qed.

Lemma proper_motion_distance_data (pmra pmdec diff : array float) (c1 c2 : float) :
  proper_motion_distance pmra pmdec c1 c2 = Ok diff ->
  length (data pmra) = length (data pmdec)
  /\ data diff
     = map (fun p => sqrt (add (square (sub (fst p) c1)) (square (sub (snd p) c2))))
           (combine (data pmra) (data pmdec)).
Proof.
  unfold proper_motion_distance. intros H. bind_inv_all.
  apply data_amap2 in E as [Hlen Hd]. rewrite !data_amap, !length_map in Hlen.
  split; [exact Hlen|].
  rewrite data_amap, Hd, !data_amap, map_map.
  clear. generalize (data pmra) (data pmdec). intros l1.
  induction l1 as [|x l1 IH]; intros [|y l2]; cbn; try reflexivity.
  rewrite IH. reflexivity.
Qed.

(** The proper-motion distance of a source whose two components are
    NaN, whether the loop has zeroed them in the table or not. *)
Lemma pm_diff_unmeasured (m1 m2 : bool) :
  let a := if m1 then nan else zero in
  let b := if m2 then nan else zero in
  lt (sqrt (add (square (sub a fm2_3087)) (square (sub b fm0_9565)))) f1_5 = false.
Proof. destruct m1, m2; vm_compute; reflexivity. Qed.

(** X11.  A source whose stored [pmra] and [pmdec] are both NaN is never
    selected by cell 4 of notebook 4, although the loop turns its proper
    motion into 0.0: its distance to the cluster's proper motion is then
    that of (0, 0), about 2.5 mas/yr, or a NaN when the column is masked
    and the table keeps the NaN.  Every selected source has [sep3d]
    below 50 and [pm_diff] below 1.5. *)
Theorem unmeasured_proper_motion_is_no_member
    (parallax_to_pc : float -> float) (separation_pc : point -> point -> float)
    (n : nat) (gaia : table) :
  rectangular n gaia ->
  has_columns selection_columns gaia ->
  exists s p0 t0 v1 v2,
    select_members parallax_to_pc separation_pc gaia = Ok s
    /\ getitem gaia "parallax" = Ok p0
    /\ rows gaia (amap (fun x => gt x f0_25) p0) = Ok t0
    /\ getitem t0 "pmra" = Ok v1 /\ getitem t0 "pmdec" = Ok v2
    /\ (forall j x y,
          nth_error (data v1) j = Some x -> nth_error (data v2) j = Some y ->
          isnan x = true -> isnan y = true ->
          nth_error (data (ngc188_members_mask s)) j = Some false)
    /\ (forall j,
          nth_error (data (ngc188_members_mask s)) j = Some true ->
          exists sep d,
            nth_error (data (sep3d s)) j = Some sep /\ lt sep f50 = true
            /\ nth_error (data (pm_diff s)) j = Some d /\ lt d f1_5 = true).
Proof.
  intros Hrect Hcols.
  destruct (select_members_total parallax_to_pc separation_pc n gaia Hrect Hcols)
    as [s Hs].
  destruct (select_members_steps _ _ _ _ Hs)
    as (p0 & t0 & v1 & v2 & v3 & r1 & r2 & r3 & pmra & pmdec
        & Hp0 & Hrows & (Hv1 & Hv2 & Hv3) & (Hr1 & Hr2 & Hr3) & Ht
        & (Hpmra & Hpmdec) & Hdiff & Hmask & _).
  rewrite fill_velocity_eq in Hr1, Hr2, Hr3.
  injection Hr1 as <-. injection Hr2 as <-. injection Hr3 as <-.
  rewrite Ht, loop_table_getitem in Hpmra, Hpmdec.
  cbn [String.eqb Ascii.eqb Bool.eqb andb] in Hpmra, Hpmdec.
  apply proper_motion_distance_data in Hdiff as [Hlen Hdiff].
  apply data_amap2 in Hmask as [Hlen2 Hmask]. rewrite !data_amap in Hmask, Hlen2.
  exists s, p0, t0, v1, v2. repeat split; try assumption.
  - intros j x y Hx Hy Hxn Hyn.
    destruct x; try discriminate. destruct y; try discriminate.
    assert (Ha : exists m1 : bool, nth_error (data pmra) j = Some (if m1 then nan else zero)).
    { destruct (has_mask v1) eqn:Hm1; cbn in Hpmra.
      - rewrite Hv1 in Hpmra. injection Hpmra as <-. exists true. exact Hx.
      - injection Hpmra as <-. exists false. cbn.
        destruct v1 as [d|es]; [|discriminate]. cbn in Hx |- *.
        rewrite map_map, nth_error_map, Hx. reflexivity. }
    assert (Hb : exists m2 : bool, nth_error (data pmdec) j = Some (if m2 then nan else zero)).
    { destruct (has_mask v2) eqn:Hm2; cbn in Hpmdec.
      - rewrite Hv2 in Hpmdec. injection Hpmdec as <-. exists true. exact Hy.
      - injection Hpmdec as <-. exists false. cbn.
        destruct v2 as [d|es]; [|discriminate]. cbn in Hy |- *.
        rewrite map_map, nth_error_map, Hy. reflexivity. }
    destruct Ha as [m1 Ha], Hb as [m2 Hb].
    assert (Hd : nth_error (data (pm_diff s)) j
                 = Some (sqrt (add (square (sub (if m1 then nan else zero) fm2_3087))
                                   (square (sub (if m2 then nan else zero) fm0_9565))))).
    { rewrite Hdiff, nth_error_map, (nth_error_combine_Some _ _ _ _ _ Ha Hb). reflexivity. }
    assert (Hsep : exists sep, nth_error (data (sep3d s)) j = Some sep).
    { destruct (nth_error (data (sep3d s)) j) eqn:E; [eauto|].
      apply nth_error_None in E. rewrite !length_map in Hlen2.
      assert (j < length (data (pm_diff s))) by (apply nth_error_Some; congruence). lia. }
    destruct Hsep as [sep Hsep].
    rewrite Hmask, nth_error_map.
    rewrite (nth_error_combine_Some _ _ j (lt sep f50) false).
    + cbn. rewrite andb_false_r. reflexivity.
    + rewrite nth_error_map, Hsep. reflexivity.
    + rewrite nth_error_map, Hd. cbn [option_map]. f_equal. apply pm_diff_unmeasured.
  - intros j Hj. rewrite Hmask, nth_error_map in Hj.
    destruct (nth_error (combine _ _) j) as [[b1 b2]|] eqn:E; [|discriminate].
    cbn in Hj. injection Hj as Hj. apply andb_true_iff in Hj as [-> ->].
    apply nth_error_combine_inv in E as [E1 E2]. cbn in E1, E2.
    rewrite nth_error_map in E1, E2.
    destruct (nth_error (data (sep3d s)) j) as [sep|]; [|discriminate].
    destruct (nth_error (data (pm_diff s)) j) as [d|]; [|discriminate].
    cbn in E1, E2. injection E1 as E1. injection E2 as E2. exists sep, d. auto.
Qed.

(** ** From the snapshot written by notebook 1 to the members of notebook 4 *)

Lemma select_rectangular (n : nat) (t chosen : table) (names : list string) :
  rectangular n t -> select t names = Ok chosen -> rectangular n chosen.
Proof.
  unfold select, rectangular. intros Hrect H. apply mapM_Forall2 in H.
  induction H as [|name [n' c] names chosen Hn _ IH]; constructor; [|exact IH].
  destruct (getitem t name) as [c0|] eqn:Hc0; cbn in Hn; [|discriminate].
  injection Hn as <- <-. cbn. exact (getitem_rectangular n t name c0 Hrect Hc0).
Qed.

Lemma rows_has_columns (names : list string) (t t' : table) (m : array bool) :
  has_columns names t -> rows t m = Ok t' -> has_columns names t'.
Proof.
  unfold has_columns. intros H Hrows. eapply Forall_impl; [exact H|].
  intros name [c Hc]. destruct (rows_getitem _ _ _ _ _ Hrows Hc) as (c' & Hc' & _). eauto.
Qed.

Lemma select_has_columns (names wanted : list string) (t chosen : table) :
  has_columns names t -> select t names = Ok chosen ->
  (forall x, In x wanted -> In x names) -> has_columns wanted chosen.
Proof.
  unfold has_columns. intros H Hsel Hsub. apply List.Forall_forall. intros x Hx.
  rewrite (select_getitem t chosen names x Hsel (Hsub x Hx)).
  rewrite List.Forall_forall in H. apply H. apply Hsub. exact Hx.
Qed.

(** X12.  Whatever the archive answers in cell 28 of notebook 1, if its
    columns have one length and include the eleven of [cols], then the
    file cell 29 writes has exactly these columns, cell 4 of notebook 4
    runs on it without an exception, the members have the two magnitude
    columns the colour plots read, and no member has a [G] magnitude of
    19 or more, the lower edge of the plot ([ax.set_ylim(19, 10)]). *)
Theorem archived_answer_selects_bright_members
    (parallax_to_pc : float -> float) (separation_pc : point -> point -> float)
    (n : nat) (response : table) :
  rectangular n response ->
  has_columns cols response ->
  exists snapshot s g b,
    archive_of response = Ok snapshot
    /\ map fst snapshot = cols
    /\ select_members parallax_to_pc separation_pc snapshot = Ok s
    /\ getitem (ngc188_members s) "phot_g_mean_mag" = Ok g
    /\ getitem (ngc188_members s) "phot_bp_mean_mag" = Ok b
    /\ size g = size b
    /\ Forall (fun x => lt x f19 = true) (data g).
Proof.
  intros Hrect Hcols.
  assert (Hmag : exists mag, getitem response "phot_g_mean_mag" = Ok mag).
  { unfold has_columns in Hcols. rewrite List.Forall_forall in Hcols.
    apply Hcols. cbn. tauto. }
  destruct Hmag as [mag Hmag].
  pose proof (getitem_rectangular n response _ mag Hrect Hmag) as Hsize.
  destruct (rows_total n response (amap (fun x => lt x f19) mag) Hrect)
    as (bright & Hrows & Hbr); [rewrite size_amap; exact Hsize|].
  pose proof (rows_has_columns cols response bright _ Hcols Hrows) as Hbcols.
  destruct (select_total bright cols Hbcols) as [snapshot Hsel].
  pose proof (select_rectangular _ bright snapshot cols Hbr Hsel) as Hsrect.
  assert (Hscols : has_columns selection_columns snapshot).
  { apply (select_has_columns cols selection_columns bright snapshot Hbcols Hsel).
    intros x Hx. cbn in Hx |- *. tauto. }
  destruct (select_members_total parallax_to_pc separation_pc _ snapshot Hsrect Hscols)
    as [s Hs].
  (* the magnitude column, from the answer to the members *)
  destruct (rows_getitem _ _ _ _ _ Hrows Hmag) as (g1 & Hg1 & Hsel1).
  assert (Hg1lt : Forall (fun x => lt x f19 = true) (data g1)).
  { apply getitem_bool_data in Hsel1 as (_ & Hd & _). rewrite Hd, data_amap.
    apply (compress_map_self (fun x : float => lt x f19)). }
  assert (Hsnap : forall name, In name cols -> getitem snapshot name = getitem bright name).
  { intros name Hin. exact (select_getitem bright snapshot cols name Hsel Hin). }
  destruct (select_members_steps _ _ _ _ Hs)
    as (p0 & t0 & v1 & v2 & v3 & r1 & r2 & r3 & pmra & pmdec
        & Hp0 & Hrows0 & _ & _ & Ht & _ & _ & _ & Hmem).
  assert (Hkeep : forall name c,
             In name ["phot_g_mean_mag"; "phot_bp_mean_mag"] ->
             getitem snapshot name = Ok c ->
             exists c0 c', getitem (ngc188_members s) name = Ok c'
                           /\ getitem_bool c (amap (fun x => gt x f0_25) p0) = Ok c0
                           /\ getitem_bool c0 (ngc188_members_mask s) = Ok c').
  { intros name c Hin Hc.
    destruct (rows_getitem _ _ _ _ _ Hrows0 Hc) as (c0 & Hc0 & Hsel0).
    assert (Htab : getitem (ngc188_table s) name = Ok c0).
    { rewrite Ht, loop_table_getitem.
      cbn in Hin. destruct Hin as [<- | [<- | []]]; exact Hc0. }
    destruct (rows_getitem _ _ _ _ _ Hmem Htab) as (c' & Hc' & Hsel').
    eauto. }
  assert (HG : getitem snapshot "phot_g_mean_mag" = Ok g1).
  { rewrite Hsnap by (cbn; tauto). exact Hg1. }
  assert (HB : exists b1, getitem snapshot "phot_bp_mean_mag" = Ok b1).
  { unfold has_columns in Hbcols. rewrite List.Forall_forall in Hbcols.
    rewrite Hsnap by (cbn; tauto). apply Hbcols. cbn. tauto. }
  destruct HB as [b1 HB].
  destruct (Hkeep "phot_g_mean_mag" g1 ltac:(cbn; tauto) HG)
    as (g0 & g & Hg & Hg0 & Hgsel).
  destruct (Hkeep "phot_bp_mean_mag" b1 ltac:(cbn; tauto) HB)
    as (b0 & b & Hb & Hb0 & Hbsel).
  exists snapshot, s, g, b.
  split; [unfold archive_of; rewrite Hmag; cbn [bind]; rewrite Hrows; exact Hsel|].
  split; [exact (select_names bright snapshot cols Hsel)|].
  split; [exact Hs|]. split; [exact Hg|]. split; [exact Hb|]. split.
  - apply getitem_bool_data in Hgsel as (Hl1 & Hd1 & _).
    apply getitem_bool_data in Hbsel as (Hl2 & Hd2 & _).
    unfold size. rewrite Hd1, Hd2.
    rewrite (length_compress_nonzero _ _ Hl1), (length_compress_nonzero _ _ Hl2).
    reflexivity.
  - apply getitem_bool_data in Hgsel as (_ & Hd1 & _).
    apply getitem_bool_data in Hg0 as (_ & Hd0 & _).
    rewrite Hd1, Hd0. apply compress_Forall. apply compress_Forall. exact Hg1lt.
Qed.

(** ** Running the missing-data block again *)

(** X13.  The missing-data handling of cell 4 of notebook 4 is
    idempotent: what it makes of a velocity column has no mask, the
    length of the column and no NaN, and the loop body leaves such an
    array as it is; the same holds for the parallax, whose masked
    entries become NaN. *)
Theorem missing_data_block_is_idempotent (v p : array float) :
  exists r p',
    fill_velocity v = Ok r
    /\ has_mask r = false /\ size r = size v
    /\ fill_velocity r = Ok r
    /\ fill_parallax p = Ok p'
    /\ has_mask p' = false /\ size p' = size p
    /\ fill_parallax p' = Ok p'.
Proof.
  destruct (fill_velocity v) as [r|] eqn:Hr;
    [|rewrite fill_velocity_eq in Hr; discriminate].
  destruct (fill_velocity_no_nan v r Hr) as (Hm & Hs & Hn).
  destruct (fill_parallax_total p) as (p' & Hp' & Hps).
  exists r, p'. split; [reflexivity|]. split; [exact Hm|]. split; [exact Hs|]. split.
  - rewrite fill_velocity_eq. destruct r as [d|es]; [|discriminate]. cbn in Hn |- *.
    f_equal. f_equal. rewrite map_map. cbn. clear -Hn.
    induction Hn as [|x d Hx _ IH]; cbn; [reflexivity|]. rewrite Hx, IH. reflexivity.
  - split; [exact Hp'|].
    assert (Hplain : has_mask p' = false).
    { unfold fill_parallax in Hp'. destruct p as [d|es]; cbn in Hp'; injection Hp' as <-;
        reflexivity. }
    split; [exact Hplain|]. split; [exact Hps|].
    unfold fill_parallax. rewrite Hplain. reflexivity.
Qed.

(** ** Matches and colours (notebook 4, cells 25 to 28) *)

Lemma len_getitem (t : table) (k : nat) :
  t <> [] -> (forall name c, getitem t name = Ok c -> size c = k) -> len t = k.
Proof.
  destruct t as [|[n0 c0] t]; [congruence|]. intros _ H. cbn.
  apply (H n0). cbn. rewrite String.eqb_refl. reflexivity.
Qed.

(** X14.  Cells 25 to 28 of notebook 4, after a selection and a
    cross-match that completed.  The colours [Gmag - Jmag] and
    [Bmag - Gmag] are defined, one number per member; the colour of
    member [k] is its [G] magnitude minus the [Jmag] of the 2MASS source
    [idx_gaia[k]] matched to it; and of the two numbers cell 25 shows,
    the matches closer than 2 arcsec and the members, the first never
    exceeds the second. *)
Theorem colours_pair_each_member_with_its_match
    (parallax_to_pc : float -> float) (separation_pc : point -> point -> float)
    (space_motion : option epoch -> epoch -> point -> point)
    (nearest : point -> list point -> nat) (separation_sky : point -> point -> float)
    (gaia tmass : table) (tmass_epoch : epoch) (s : selection) (x : crossmatch) :
  select_members parallax_to_pc separation_pc gaia = Ok s ->
  cross_match space_motion nearest separation_sky s tmass tmass_epoch = Ok x ->
  exists g_j bp_g jcol,
    colours x = Ok (g_j, bp_g)
    /\ getitem tmass "Jmag" = Ok jcol
    /\ size g_j = sc_size (ngc188_members_coords s)
    /\ size bp_g = sc_size (ngc188_members_coords s)
    /\ (forall k g i j,
          nth_error (data (Gmag x)) k = Some g ->
          nth_error (idx_gaia x) k = Some i ->
          nth_error (data jcol) i = Some j ->
          nth_error (data g_j) k = Some (sub g j))
    /\ (forall k b g,
          nth_error (data (Bmag x)) k = Some b ->
          nth_error (data (Gmag x)) k = Some g ->
          nth_error (data bp_g) k = Some (sub b g))
    /\ snd (close_matches x s) = sc_size (ngc188_members_coords s)
    /\ fst (close_matches x s) <= snd (close_matches x s).
Proof.
  intros Hs Hx.
  destruct (select_members_inv _ _ _ _ Hs)
    as (p0 & t0 & p & v1 & v2 & v3 & r1 & r2 & r3 & ra & dec & dist
        & Hp0 & Hrows & Hp & Hfp & Hdist & (Hv1 & Hv2 & Hv3) & (Hr1 & Hr2 & Hr3)
        & Hvd & (Hra & Hdec) & Hcoords & Hlen & Hkeep & Hmembers & Hmc).
  pose proof (sc_getitem_bool_Ok _ _ _ Hmc) as (Hm & Hlon & _).
  assert (Hsize : sc_size (ngc188_members_coords s)
                  = length (nonzero (data (ngc188_members_mask s)))).
  { unfold sc_size. rewrite Hlon. apply length_compress_nonzero. exact Hm. }
  assert (Hcol : forall name c, getitem (ngc188_members s) name = Ok c ->
                   size c = sc_size (ngc188_members_coords s)).
  { intros name c Hc.
    destruct (rows_getitem_inv _ _ _ _ _ Hmembers Hc) as (c0 & Hc0 & Hsel).
    apply getitem_bool_data in Hsel as (Hl & Hd & _).
    unfold size. rewrite Hd, Hsize. apply length_compress_nonzero. exact Hl. }
  assert (Hne : ngc188_members s <> []).
  { destruct (rows_getitem _ _ _ _ _ Hmembers Hra) as (c' & Hc' & _).
    intros Hnil. rewrite Hnil in Hc'. discriminate. }
  unfold cross_match in Hx. bind_inv_all.
  match goal with H : apply_space_motion _ _ _ = Ok ?m |- _ =>
    pose proof (apply_space_motion_size _ _ _ _ H) as Hmoved end.
  match goal with H : match_to_catalog_sky _ _ _ _ = Ok ?r |- _ =>
    destruct r as [idx sep]; apply match_to_catalog_sky_length in H as [Hidx Hsep] end.
  match goal with H : getitem_ints ?jc _ = Ok ?j |- _ =>
    rename jc into jcol; rename j into jm;
    pose proof (getitem_ints_data _ _ _ H) as Hj end.
  match goal with H : getitem (ngc188_members s) "phot_g_mean_mag" = Ok ?c |- _ =>
    rename c into g; pose proof (Hcol _ _ H) as Hg end.
  match goal with H : getitem (ngc188_members s) "phot_bp_mean_mag" = Ok ?c |- _ =>
    rename c into b; pose proof (Hcol _ _ H) as Hb end.
  cbn [fst snd] in *.
  assert (Hjm : size jm = sc_size (ngc188_members_coords s)).
  { unfold size. rewrite <- (Forall2_length _ _ _ Hj), Hidx, Hmoved. reflexivity. }
  destruct (amap2_total sub g jm) as (g_j & Hgj & Sgj); [congruence|].
  destruct (amap2_total sub b g) as (bp_g & Hbg & Sbg); [congruence|].
  exists g_j, bp_g, jcol. cbn [Gmag Jmag Bmag idx_gaia sep2d_gaia close_matches fst snd].
  split; [unfold colours; cbn [Gmag Jmag Bmag]; rewrite Hgj, Hbg; reflexivity|].
  split; [reflexivity || assumption|]. split; [congruence|]. split; [congruence|].
  apply data_amap2 in Hgj as [_ Dgj]. apply data_amap2 in Hbg as [_ Dbg].
  assert (Hlen_members : len (ngc188_members s) = sc_size (ngc188_members_coords s))
    by (apply len_getitem; assumption).
  split; [|split; [|split]].
  - intros k g0 i j Hk Hi Hji.
    assert (Hjk : nth_error (data jm) k = Some j).
    { clear -Hj Hi Hji. revert k Hi. induction Hj as [|i0 j0 idx l H0 _ IH]; intros [|k] Hi;
        cbn in *; try discriminate.
      - injection Hi as ->. congruence.
      - apply IH. exact Hi. }
    rewrite Dgj, nth_error_map, (nth_error_combine_Some _ _ _ _ _ Hk Hjk). reflexivity.
  - intros k b0 g0 Hk Hg0.
    rewrite Dbg, nth_error_map, (nth_error_combine_Some _ _ _ _ _ Hk Hg0). reflexivity.
  - exact Hlen_members.
  - rewrite Hlen_members. etransitivity; [apply List.filter_length_le|].
    rewrite Hsep, Hmoved. lia.
Qed.

(** ** Names are bound before they are read *)

Import Scopes.

(** X15.  In each notebook, run from top to bottom in a fresh kernel,
    every name a cell reads has been bound by an earlier statement (an
    import, an assignment, a [def]) or is one of seven builtins; the
    helper [coordinates_aitoff_plot] is defined (cell 31) before the two
    cells that call it, and cell 4 of notebook 4 binds what cells 7, 19,
    25 and 27 read. *)
Theorem names_are_bound_before_use :
  map (unbound_reads builtins) all_notebooks = [[]; []; []; []]
  /\ unbound_reads builtins (skip [31] Coordinates_Transforms)
     = [(33, ["coordinates_aitoff_plot"]); (45, ["coordinates_aitoff_plot"])]
  /\ unbound_reads builtins (skip [4] Coordinates_Crossmatch)
     = [(7, ["ngc188_center_3d"]); (19, ["ngc188_members_coords"]);
        (25, ["ngc188_members"]); (27, ["ngc188_members"; "ngc188_members"])]
  /\ map (fun nb => map fst (unbound_reads [] nb)) all_notebooks
     = [[19; 32; 48]; [4; 10; 17; 27; 31; 62]; [23; 32; 36; 38]; [4; 9; 13; 25]].
Proof. repeat split; vm_compute; reflexivity. Qed.

(** X16.  Skipping the cells that reach the network (cells 13, 28 and
    40 of notebook 1, 50 and 52 of notebook 2, 22 and 29 of notebook 3,
    7 of notebook 4) leaves a later cell reading an unbound name in
    notebooks 1 and 2, and in no other.  In notebook 1, cell 29 reads
    [ngc188_table], which only the archive query of cell 28 has bound by
    then; with cell 29 skipped as well nothing is unbound, the snapshot
    read of cell 31 serving every later cell.  In notebook 2, cell 56
    reads [observing_location], which only [EarthLocation.of_site] in
    cell 52 binds, and without cell 56 cells 58, 62 and 64 read [altaz]
    unbound; skipping cell 50 alone leaves nothing unbound.  In
    notebooks 3 and 4 no cell reads a name that only a network cell
    binds; in notebook 4 the cells after cell 9 need what cell 9 reads
    from the snapshot. *)
Theorem skipping_the_network_cells :
  map (cells_with_expr is_remote) all_notebooks = [[13; 28; 40]; [50; 52]; [22; 29]; [7]]
  /\ unbound_reads builtins (skip [13; 28; 40] Coordinates_Intro)
     = [(29, ["ngc188_table"])]
  /\ unbound_reads builtins (skip [13; 28; 29; 40] Coordinates_Intro) = []
  /\ unbound_reads builtins (skip [50] Coordinates_Transforms) = []
  /\ unbound_reads builtins (skip [50; 52] Coordinates_Transforms)
     = [(56, ["observing_location"])]
  /\ unbound_reads builtins (skip [50; 52; 56] Coordinates_Transforms)
     = [(58, ["altaz"]); (62, ["altaz"]); (64, ["altaz"])]
  /\ unbound_reads builtins (skip [22; 29] Coordinates_Velocities) = []
  /\ unbound_reads builtins (skip [7] Coordinates_Crossmatch) = []
  /\ map fst (unbound_reads builtins (skip [7; 9] Coordinates_Crossmatch))
     = [11; 13; 15; 17; 27].
Proof. repeat split; vm_compute; reflexivity. Qed.

(** X17.  The plotting helper of notebook 2 reads, besides its
    parameter [coords] and its own local names, only the imported
    modules [plt], [u], [coord], [mpl] and the builtin [dict]: no
    variable of the notebook.  Its tick formatter [fmt_func] reads [x],
    [coord] and [u], and never its second parameter [pos]. *)
Theorem plotting_helper_is_closed :
  free_names "coordinates_aitoff_plot" Coordinates_Transforms
  = ["plt"; "dict"; "coord"; "u"; "mpl"]
  /\ used_parameters "coordinates_aitoff_plot" Coordinates_Transforms = ["coords"]
  /\ free_names "fmt_func" Coordinates_Transforms = ["coord"; "u"]
  /\ used_parameters "fmt_func" Coordinates_Transforms = ["x"]
  /\ without (Scopes.builtins
              ++ flat_map (fun s => match s with
                                    | SImport names => import_binds names
                                    | SImportFrom _ names => from_import_binds names
                                    | _ => []
                                    end) (stmts Coordinates_Transforms))%list
             (free_names "coordinates_aitoff_plot" Coordinates_Transforms) = [].
Proof. repeat split; vm_compute; reflexivity. Qed.

(** ** The properties above at sample data *)

Lemma hd219829_sample_rectangular : rectangular 2 hd219829_sample.
Proof. repeat constructor. Qed.

Lemma hd219829_sample_has_columns : has_columns hd219829_columns hd219829_sample.
Proof. repeat constructor; eexists; reflexivity. Qed.

Lemma hd219829_sample_unmasked (name : string) (c : column) :
  In name hd219829_columns -> getitem hd219829_sample name = Ok c ->
  Forall (fun e : float * bool => snd e = false) (entries c).
Proof.
  intros Hin Hc. cbn in Hin.
  repeat (destruct Hin as [<- | Hin];
          [cbn in Hc; injection Hc as <-; repeat constructor|]).
  destruct Hin.
Defined.

Lemma gaia_sample_has_cols : has_columns cols Samples.gaia_sample.
Proof. repeat constructor; eexists; reflexivity. Qed.

Lemma hd219829_row_is_brightest_witness :
  exists i m r,
    hd219829_row hd219829_sample = Ok r
    /\ i < 2 /\ nth_error [f10; f1] i = Some m
    /\ Forall (fun y => lt y m = false) [f10; f1].
Proof.
  destruct (hd219829_row_is_brightest hd219829_sample 2 (Plain [f10; f1])
              hd219829_sample_rectangular eq_refl) as [_ H].
  { repeat constructor. }
  destruct (H ltac:(lia)) as (i & m & r & Hr & Hi & Hm & _ & Hmin & _).
  exists i, m, r. repeat split; try assumption.
  apply Hmin. repeat constructor.
Defined.

Lemma hd219829_coord_is_the_picked_row_witness :
  exists i r plx shown,
    argmin (Plain [f10; f1]) = Ok i
    /\ hd219829_row hd219829_sample = Ok r
    /\ show_hd219829_row r = Ok shown
    /\ map (fun nc : string * column => (fst nc, data (snd nc))) shown
       = [("source_id", [f2]); ("pmra", [f100]); ("pmdec", [fm11])]
    /\ entry hd219829_sample "parallax" i = Some plx
    /\ (lt plx zero = false ->
        exists c, hd219829_coord Samples.parallax_to_pc hd219829_sample = Ok c
                  /\ radial_velocity c = None).
Proof.
  destruct (hd219829_coord_is_the_picked_row Samples.parallax_to_pc Samples.space_motion
              2 hd219829_sample (Plain [f10; f1])
              hd219829_sample_rectangular hd219829_sample_has_columns
              hd219829_sample_unmasked eq_refl)
    as [_ H].
  destruct (H ltac:(lia))
    as (i & r & ra & dec & plx & pmra & pmdec & ep & Harg & Hrow & _ & _ & Hplx & Hpmra
        & Hpmdec & _ & _ & Hshow & _ & Hok).
  exists i, r, plx.
  injection Harg as <-. cbn in Hpmra, Hpmdec. injection Hpmra as <-. injection Hpmdec as <-.
  destruct (Hshow f2 eq_refl) as (shown & Hs & Hv).
  exists shown. repeat (split; [assumption || reflexivity|]).
  intros Hpos. destruct (Hok Hpos) as [Hc _]. eexists. split; [exact Hc | reflexivity].
Defined.

Lemma query_gaia_keeps_bright_sources_witness :
  exists bright g,
    query_gaia (Samples.answering (Samples.gaia_row f10) []) Samples.bare
    = ({| namespace := <["ngc188_table" := VTable bright]>
                         (<["job" := VJob (Samples.gaia_row f10)]>
                            (namespace Samples.bare));
          files := files Samples.bare |}, Ok tt)
    /\ getitem bright "phot_g_mean_mag" = Ok g
    /\ Forall (fun x => lt x f19 = true /\ isnan x = false) (data g).
Proof.
  destruct (query_gaia_keeps_bright_sources
              (Samples.answering (Samples.gaia_row f10) []) Samples.bare
              Samples.ngc188_center (Samples.gaia_row f10) eq_refl eq_refl) as [_ H].
  destruct (H 1 (Plain [f10])) as (bright & g & Hq & _ & _ & _ & Hg & Hlt).
  { repeat constructor. }
  { reflexivity. }
  exists bright, g. auto.
Defined.

Lemma gaia_results_round_trip_witness :
  let st := {| namespace := {["ngc188_table" := VTable Samples.gaia_sample]};
               files := ∅ |} in
  exists chosen,
    files (fst (run [write_gaia_results; read_gaia_results] offline st))
    !! "gaia_results.fits" = Some chosen
    /\ map fst chosen = cols.
Proof.
  intros st.
  destruct (gaia_results_round_trip offline st Samples.gaia_sample eq_refl) as [H _].
  destruct (H gaia_sample_has_cols) as (chosen & Hrun & Hnames & _).
  exists chosen. rewrite Hrun. split; [apply lookup_insert_eq | exact Hnames].
Defined.

Lemma query_2mass_outcomes_witness :
  namespace (fst (query_2mass (Samples.answering [] [Samples.answer_b]) Samples.bare))
  !! "tmass_table" = Some (VTable Samples.answer_b)
  /\ snd (query_2mass (Samples.answering [] []) Samples.bare) = Raise IndexError
  /\ snd (query_2mass offline Samples.bare) = Raise ConnectionError.
Proof.
  pose proof (proj2 (query_2mass_outcomes (Samples.answering [] [Samples.answer_b])
                       Samples.bare) Samples.ngc188_center eq_refl) as H1.
  pose proof (proj2 (query_2mass_outcomes (Samples.answering [] []) Samples.bare)
                Samples.ngc188_center eq_refl) as H2.
  pose proof (proj2 (query_2mass_outcomes offline Samples.bare)
                Samples.ngc188_center eq_refl) as H3.
  cbn [vizier_query_region Samples.answering offline] in H1, H2, H3.
  rewrite H1, H2, H3. split; [apply lookup_insert_eq | split; reflexivity].
Defined.

Lemma open_clusters_without_catalogue_witness :
  run [read_open_clusters; make_open_cluster_c;
       transform_open_clusters Samples.identity_frame_math] offline Samples.bare
  = (Samples.bare, [FileNotFoundError; NameError; NameError]).
Proof.
  destruct (open_clusters_without_catalogue Samples.identity_frame_math offline
              Samples.bare eq_refl eq_refl) as [H _].
  exact (H eq_refl).
Defined.



Lemma fill_loop_writes_into_unmasked_columns_witness :
  exists s,
    select_members Samples.parallax_to_pc Samples.separation_pc Samples.gaia_sample = Ok s
    /\ forall name, ~ In name ["pmra"; "pmdec"; "radial_velocity"] ->
                    exists t0, getitem (ngc188_table s) name = getitem t0 name.
Proof.
  destruct (fill_loop_writes_into_unmasked_columns Samples.parallax_to_pc
              Samples.separation_pc 3 Samples.gaia_sample
              gaia_sample_rectangular gaia_sample_has_columns)
    as (s & p0 & t0 & Hs & _ & _ & _ & Hother & _).
  exists s. split; [exact Hs|]. intros name Hname. exists t0. exact (Hother name Hname).
Defined.

Lemma unmeasured_proper_motion_is_no_member_witness :
  exists s,
    select_members Samples.parallax_to_pc Samples.separation_pc Samples.gaia_sample = Ok s
    /\ forall j,
         nth_error (data (ngc188_members_mask s)) j = Some true ->
         exists d, nth_error (data (pm_diff s)) j = Some d /\ lt d f1_5 = true.
Proof.
  destruct (unmeasured_proper_motion_is_no_member Samples.parallax_to_pc
              Samples.separation_pc 3 Samples.gaia_sample
              gaia_sample_rectangular gaia_sample_has_columns)
    as (s & p0 & t0 & v1 & v2 & Hs & _ & _ & _ & _ & _ & Hsound).
  exists s. split; [exact Hs|]. intros j Hj.
  destruct (Hsound j Hj) as (sep & d & _ & _ & Hd & Hlt). exists d. auto.
Defined.

Lemma archived_answer_selects_bright_members_witness :
  exists snapshot s g,
    archive_of Samples.gaia_sample = Ok snapshot
    /\ select_members Samples.parallax_to_pc Samples.separation_pc snapshot = Ok s
    /\ getitem (ngc188_members s) "phot_g_mean_mag" = Ok g
    /\ Forall (fun x => lt x f19 = true) (data g).
Proof.
  destruct (archived_answer_selects_bright_members Samples.parallax_to_pc
              Samples.separation_pc 3 Samples.gaia_sample
              gaia_sample_rectangular gaia_sample_has_cols)
    as (snapshot & s & g & b & Ha & _ & Hs & Hg & _ & _ & Hlt).
  exists snapshot, s, g. auto.
Defined.

Lemma colours_pair_each_member_with_its_match_witness :
  exists s x g_j bp_g,
    select_members Samples.parallax_to_pc Samples.separation_pc Samples.gaia_sample = Ok s
    /\ cross_match Samples.space_motion Samples.nearest Samples.separation_sky s
         Samples.tmass_sample (Epoch "1999-10-19") = Ok x
    /\ colours x = Ok (g_j, bp_g)
    /\ fst (close_matches x s) <= snd (close_matches x s).
Proof.
  destruct (select_members Samples.parallax_to_pc Samples.separation_pc Samples.gaia_sample)
    as [s|] eqn:Hs; [|vm_compute in Hs; discriminate Hs].
  destruct (cross_match Samples.space_motion Samples.nearest Samples.separation_sky s
              Samples.tmass_sample (Epoch "1999-10-19")) as [x|] eqn:Hx.
  2:{ vm_compute in Hs. injection Hs as <-. vm_compute in Hx. discriminate Hx. }
  destruct (colours_pair_each_member_with_its_match Samples.parallax_to_pc
              Samples.separation_pc Samples.space_motion Samples.nearest
              Samples.separation_sky Samples.gaia_sample Samples.tmass_sample
              (Epoch "1999-10-19") s x Hs Hx)
    as (g_j & bp_g & jcol & Hc & _ & _ & _ & _ & _ & _ & Hle).
  exists s, x, g_j, bp_g. auto.
Defined.
